(** * moveit_grasps: the cuboid grasp generator

    A shallow embedding of [src/src/grasp_generator.cpp] (class
    [GraspGenerator]) and of the data class of
    [src/include/moveit_grasps/grasp_data.h].

    Numbers.  A C++ [double] is read as an exact rational ([Q]): rounding is
    not modelled.  The non-finite result of a division by zero is made
    explicit in [graspIntersectionHelper], whose answer depends on it;
    elsewhere (a resolution or a sum of weights of zero) the quotient is
    [Q]'s, and the properties below state the cases they cover.
    [std::size_t] is an integer in [Z] reduced modulo [2^64].  [M_PI], [DBL_MAX] and [DBL_MIN] are the rational values of
    the corresponding double constants.

    Collaborators.  The C math library ([cos], [sin], [sqrt]), the methods of
    [GraspData] and of [GraspScorer] whose bodies are not part of these
    sources, and the members of [GraspGenerator] declared in the missing
    header are gathered in the record [Extern]; every definition takes it as
    a parameter. *)

From Stdlib Require Import ZArith QArith Qround Qabs List Bool Lia Lqa String.
Import ListNotations.

Local Open Scope Z_scope.
Local Open Scope Q_scope.

(** ** Doubles as rationals *)

Definition Qleb (x y : Q) : bool := Qle_bool x y.
Definition Qltb (x y : Q) : bool := negb (Qle_bool y x).

(** [x / y] in double arithmetic: [None] stands for the non-finite result
    ([+inf], [-inf] or [NaN]) of a division by zero. *)
Definition fdiv (x y : Q) : option Q :=
  if Qeq_bool y 0 then None else Some (x / y).

(** ** std::size_t *)

Definition SIZE_MOD : Z := 2 ^ 64.

(** Conversion of an integral double to [std::size_t]; a negative value wraps
    around (the x86-64 result of a conversion the standard leaves open). *)
Definition to_size_t (z : Z) : Z := (z mod SIZE_MOD)%Z.

(** [floor] and [ceil] of <cmath>, as integers. *)
Definition floor (x : Q) : Z := Qfloor x.
Definition ceil (x : Q) : Z := Qceiling x.

(** The body of [for (std::size_t i = 0; i < n; i++)] runs [loop_count n]
    times. *)
Definition loop_count (n : Z) : nat := Z.to_nat n.

(** ** Constants *)

(** [M_PI] = 0x1.921fb54442d18p+1. *)
Definition M_PI : Q := 884279719003555 # 281474976710656.

(** [std::numeric_limits<double>::max()] = (2^53 - 1) * 2^971. *)
Definition DBL_MAX : Q := inject_Z ((2 ^ 53 - 1) * 2 ^ 971).

(** [std::numeric_limits<double>::min()] = 2^-1022, the smallest positive
    normal double. *)
Definition DBL_MIN : Q := 1 # (2 ^ 1022).

(** ** Eigen: vectors, matrices, isometries *)

Record Vector3d := mkV { vx : Q; vy : Q; vz : Q }.

Definition UnitX : Vector3d := mkV 1 0 0.
Definition UnitY : Vector3d := mkV 0 1 0.
Definition UnitZ : Vector3d := mkV 0 0 1.

Definition vadd (a b : Vector3d) : Vector3d :=
  mkV (vx a + vx b) (vy a + vy b) (vz a + vz b).
Definition vsub (a b : Vector3d) : Vector3d :=
  mkV (vx a - vx b) (vy a - vy b) (vz a - vz b).
Definition vneg (a : Vector3d) : Vector3d := mkV (- vx a) (- vy a) (- vz a).
Definition vscale (k : Q) (a : Vector3d) : Vector3d :=
  mkV (k * vx a) (k * vy a) (k * vz a).
Definition vdivs (a : Vector3d) (k : Q) : Vector3d :=
  mkV (vx a / k) (vy a / k) (vz a / k).
Definition dot (a b : Vector3d) : Q := vx a * vx b + vy a * vy b + vz a * vz b.

(** [v[j]] for [j] in 0..2. *)
Definition vnth (v : Vector3d) (j : nat) : Q :=
  match j with O => vx v | S O => vy v | _ => vz v end.

(** Rows of a 3x3 matrix. *)
Record Matrix3d := mkM { row0 : Vector3d; row1 : Vector3d; row2 : Vector3d }.

Definition mIdentity : Matrix3d := mkM UnitX UnitY UnitZ.

Definition mcol (m : Matrix3d) (j : nat) : Vector3d :=
  mkV (vnth (row0 m) j) (vnth (row1 m) j) (vnth (row2 m) j).

Definition mtranspose (m : Matrix3d) : Matrix3d :=
  mkM (mcol m 0) (mcol m 1) (mcol m 2).

Definition mvec (m : Matrix3d) (v : Vector3d) : Vector3d :=
  mkV (dot (row0 m) v) (dot (row1 m) v) (dot (row2 m) v).

Definition mmul (a b : Matrix3d) : Matrix3d :=
  let bt := mtranspose b in
  mkM (mvec bt (row0 a)) (mvec bt (row1 a)) (mvec bt (row2 a)).

(** [Eigen::Isometry3d]: [rotation()] is the linear part. *)
Record Isometry3d := mkIso { rotation : Matrix3d; translation : Vector3d }.

Definition isoIdentity : Isometry3d := mkIso mIdentity (mkV 0 0 0).

(** [pose * R] for a pure rotation [R]. *)
Definition iso_rotate (p : Isometry3d) (r : Matrix3d) : Isometry3d :=
  mkIso (mmul (rotation p) r) (translation p).

(** [pose * Eigen::Translation3d(x, y, z)]. *)
Definition iso_translate (p : Isometry3d) (t : Vector3d) : Isometry3d :=
  mkIso (rotation p) (vadd (translation p) (mvec (rotation p) t)).

(** [a * b] for two isometries. *)
Definition iso_mul (a b : Isometry3d) : Isometry3d :=
  mkIso (mmul (rotation a) (rotation b))
        (vadd (translation a) (mvec (rotation a) (translation b))).

(** [pose.translation() += d]. *)
Definition add_translation (p : Isometry3d) (d : Vector3d) : Isometry3d :=
  mkIso (rotation p) (vadd (translation p) d).

(** [pose.translation() = t]. *)
Definition set_translation (p : Isometry3d) (t : Vector3d) : Isometry3d :=
  mkIso (rotation p) t.

(** [pose.inverse()] in [Eigen::Isometry] mode: the transposed rotation. *)
Definition iso_inverse (p : Isometry3d) : Isometry3d :=
  let rt := mtranspose (rotation p) in
  mkIso rt (vneg (mvec rt (translation p))).

(** [pose * point]. *)
Definition iso_apply (p : Isometry3d) (v : Vector3d) : Vector3d :=
  vadd (mvec (rotation p) v) (translation p).

(** ** Data model *)

(** [enum EndEffectorType { FINGER = 1, SUCTION = 2 }]; [OTHER_TYPE] is any
    value of the field that the enumeration does not name. *)
Inductive EndEffectorType := FINGER | SUCTION | OTHER_TYPE.

Definition is_FINGER (t : EndEffectorType) : bool :=
  match t with FINGER => true | _ => false end.
Definition is_SUCTION (t : EndEffectorType) : bool :=
  match t with SUCTION => true | _ => false end.

(** [trajectory_msgs::JointTrajectory], reduced to its joint positions. *)
Definition JointTrajectory := list (list Q).

(** The fields of [class GraspData] read by the generator. *)
Record GraspData := mkGraspData {
  end_effector_type_ : EndEffectorType;
  grasp_pose_to_eef_pose_ : Isometry3d;
  pre_grasp_posture_ : JointTrajectory;
  grasp_posture_ : JointTrajectory;
  base_link_ : string;
  parent_link_name : string;          (* parent_link_->getName() *)
  angle_resolution_ : Z;              (* int, degrees *)
  grasp_resolution_ : Q;
  grasp_depth_resolution_ : Q;
  grasp_min_depth_ : Q;
  grasp_max_depth_ : Q;
  approach_distance_desired_ : Q;
  retreat_distance_desired_ : Q;
  lift_distance_desired_ : Q;
  grasp_padding_on_approach_ : Q;
  max_grasp_width_ : Q;
  max_finger_width_ : Q;
  min_finger_width_ : Q;
  gripper_finger_width_ : Q;
  active_suction_range_x_ : Q;
  active_suction_range_y_ : Q
}.

Inductive grasp_axis_t := X_AXIS | Y_AXIS | Z_AXIS.

Record GraspCandidateConfig := mkConfig {
  enable_corner_grasps_ : bool;
  enable_face_grasps_ : bool;
  enable_variable_angle_grasps_ : bool;
  enable_edge_grasps_ : bool;
  generate_x_axis_grasps_ : bool;
  generate_y_axis_grasps_ : bool;
  generate_z_axis_grasps_ : bool
}.

(** Modelled from the spec: [GraspCandidateConfig::disableAllGraspTypes] is
    declared in the missing header [grasp_generator.h]; it clears the four
    strategy flags and leaves the axis flags. *)
Definition disableAllGraspTypes (c : GraspCandidateConfig) : GraspCandidateConfig :=
  mkConfig false false false false
           (generate_x_axis_grasps_ c) (generate_y_axis_grasps_ c)
           (generate_z_axis_grasps_ c).

Definition set_enable_edge_grasps (c : GraspCandidateConfig) (b : bool) :=
  mkConfig (enable_corner_grasps_ c) (enable_face_grasps_ c)
           (enable_variable_angle_grasps_ c) b
           (generate_x_axis_grasps_ c) (generate_y_axis_grasps_ c)
           (generate_z_axis_grasps_ c).

Definition set_enable_corner_grasps (c : GraspCandidateConfig) (b : bool) :=
  mkConfig b (enable_face_grasps_ c)
           (enable_variable_angle_grasps_ c) (enable_edge_grasps_ c)
           (generate_x_axis_grasps_ c) (generate_y_axis_grasps_ c)
           (generate_z_axis_grasps_ c).

(** The weights of [struct GraspScoreWeights] read by the two scoring
    functions. *)
Record GraspScoreWeights := mkWeights {
  orientation_x_score_weight_ : Q;
  orientation_y_score_weight_ : Q;
  orientation_z_score_weight_ : Q;
  translation_x_score_weight_ : Q;
  translation_y_score_weight_ : Q;
  translation_z_score_weight_ : Q;
  depth_score_weight_ : Q;
  width_score_weight_ : Q;
  overhang_score_weight_ : Q
}.

(** [moveit_msgs::GripperTranslation] without its time stamp. *)
Record GripperTranslation := mkGT {
  direction_frame_id : string;
  direction_vector : Vector3d;
  desired_distance : Q;
  min_distance : Q
}.

(** [moveit_msgs::Grasp] without its time stamps.  [id] is the number [n] of
    the name ["Grasp" + n]; [grasp_pose] keeps the isometry that
    [tf::poseEigenToMsg] stores as a position and a quaternion. *)
Record Grasp := mkGrasp {
  id : Z;
  pre_grasp_posture : JointTrajectory;
  grasp_posture : JointTrajectory;
  grasp_pose_frame_id : string;
  grasp_pose : Isometry3d;
  grasp_quality : Q;
  pre_grasp_approach : GripperTranslation;
  post_grasp_retreat : GripperTranslation
}.

Definition set_pre_grasp_posture (g : Grasp) (p : JointTrajectory) : Grasp :=
  mkGrasp (id g) p (grasp_posture g) (grasp_pose_frame_id g) (grasp_pose g)
          (grasp_quality g) (pre_grasp_approach g) (post_grasp_retreat g).

Definition set_grasp_quality (g : Grasp) (q : Q) : Grasp :=
  mkGrasp (id g) (pre_grasp_posture g) (grasp_posture g) (grasp_pose_frame_id g)
          (grasp_pose g) q (pre_grasp_approach g) (post_grasp_retreat g).

(** [GraspCandidate(grasp, grasp_data, cuboid_pose)]. *)
Record GraspCandidate := mkCandidate {
  grasp_ : Grasp;
  grasp_data_ : GraspData;
  cuboid_pose_ : Isometry3d
}.

(** The members of [GraspGenerator] that the generation functions read and
    write, and the function-local [static std::size_t grasp_id] of
    [addGrasp]. *)
Record GraspGenerator := mkGen {
  ideal_grasp_pose_ : Isometry3d;
  grasp_score_weights_ : GraspScoreWeights;
  min_grasp_distance_ : Q;
  max_grasp_distance_ : Q;
  min_translations_ : Vector3d;
  max_translations_ : Vector3d;
  grasp_id : Z
}.

(** Modelled from the spec: [setIdealGraspPose] and [getIdealGraspPose] are
    defined in the missing header [grasp_generator.h]; they write and read
    the ideal grasp pose the scoring terms are measured against. *)
Definition setIdealGraspPose (g : GraspGenerator) (p : Isometry3d) : GraspGenerator :=
  mkGen p (grasp_score_weights_ g) (min_grasp_distance_ g) (max_grasp_distance_ g)
        (min_translations_ g) (max_translations_ g) (grasp_id g).

Definition getIdealGraspPose (g : GraspGenerator) : Isometry3d := ideal_grasp_pose_ g.

Definition set_bounds (g : GraspGenerator) (dmin dmax : Q) (tmin tmax : Vector3d) :=
  mkGen (ideal_grasp_pose_ g) (grasp_score_weights_ g) dmin dmax tmin tmax (grasp_id g).

Definition next_grasp_id (g : GraspGenerator) : GraspGenerator :=
  mkGen (ideal_grasp_pose_ g) (grasp_score_weights_ g) (min_grasp_distance_ g)
        (max_grasp_distance_ g) (min_translations_ g) (max_translations_ g)
        (to_size_t (grasp_id g + 1)).

(** ** Collaborators *)

(** What the generator calls but these sources do not define.  A [None] of
    [setGraspWidth] is its [false] return; [xy_min] and [xy_increment] are
    read by [generateSuctionGrasps] without a declaration in the file. *)
Record Extern := mkExtern {
  cos : Q -> Q;
  sin : Q -> Q;
  sqrt : Q -> Q;
  setGraspWidth : GraspData -> Q -> Q -> option JointTrajectory;
  scoreGraspWidth : GraspData -> Q -> Q;
  scoreRotationsFromDesired : Isometry3d -> Isometry3d -> Vector3d;
  scoreDistanceToPalm : Isometry3d -> GraspData -> Isometry3d -> Q -> Q -> Q;
  scoreGraspTranslationRange : Isometry3d -> Vector3d -> Vector3d -> Vector3d;
  scoreGraspTranslationIdeal : Isometry3d -> Isometry3d -> Vector3d;
  scoreGraspOverhang : Isometry3d -> GraspData -> Isometry3d -> Vector3d -> Q * Q;
  xy_min : Q;
  xy_increment : Q
}.

(** ** Geometry primitives *)

Section Geometry.
Variable E : Extern.

(** [v.norm()]. *)
Definition norm (v : Vector3d) : Q := sqrt E (dot v v).

(** [v.normalized()]: a vector of squared norm zero is returned as it is. *)
Definition normalized (v : Vector3d) : Vector3d :=
  let z := dot v v in
  if Qltb 0 z then vdivs v (sqrt E z) else v.

(** [Eigen::AngleAxisd(angle, axis)] as a rotation matrix, for the three
    unit axes. *)
Definition AngleAxisX (angle : Q) : Matrix3d :=
  let c := cos E angle in let s := sin E angle in
  mkM (mkV 1 0 0) (mkV 0 c (- s)) (mkV 0 s c).
Definition AngleAxisY (angle : Q) : Matrix3d :=
  let c := cos E angle in let s := sin E angle in
  mkM (mkV c 0 s) (mkV 0 1 0) (mkV (- s) 0 c).
Definition AngleAxisZ (angle : Q) : Matrix3d :=
  let c := cos E angle in let s := sin E angle in
  mkM (mkV c (- s) 0) (mkV s c 0) (mkV 0 0 1).
End Geometry.

(** [intersectionHelper]: the output parameters [u], [v] are threaded as a
    pair, returned next to the result. *)
Definition intersectionHelper (t u1 v1 u2 v2 a b : Q) (uv : Q * Q) : bool * (Q * Q) :=
  if Qleb 0 t && Qleb t 1 then
    let u := u1 + t * (u2 - u1) in
    let v := v1 + t * (v2 - v1) in
    if Qleb (- a / 2) u && Qleb u (a / 2) && Qleb (- b / 2) v && Qleb v (b / 2)
    then (true, (u, v))
    else (false, (u, v))
  else (false, uv).

(** A call [intersectionHelper(num / den, ...)]: on a non-finite quotient
    the test [t >= 0 && t <= 1] fails and the outputs are left alone. *)
Definition intersectionAt (num den u1 v1 u2 v2 a b : Q) (uv : Q * Q) : bool * (Q * Q) :=
  match fdiv num den with
  | Some t => intersectionHelper t u1 v1 u2 v2 a b uv
  | None => (false, uv)
  end.

Definition graspIntersectionHelper (cuboid_pose : Isometry3d) (depth width height : Q)
    (grasp_pose : Isometry3d) (grasp_data : GraspData) : bool :=
  let point_a0 := translation grasp_pose in
  let point_b0 :=
    vadd point_a0 (vscale (grasp_max_depth_ grasp_data) (mvec (rotation grasp_pose) UnitZ)) in
  let point_a := iso_apply (iso_inverse cuboid_pose) point_a0 in
  let point_b := iso_apply (iso_inverse cuboid_pose) point_b0 in
  let uv0 := (0, 0) in
  let '(hit1, uv1) :=
    intersectionAt (height / 2 - vz point_a) (vz point_b - vz point_a)
                   (vx point_a) (vy point_a) (vx point_b) (vy point_b) depth width uv0 in
  if hit1 then true else
  let '(hit2, uv2) :=
    intersectionAt (- height / 2 - vz point_a) (vz point_b - vz point_a)
                   (vx point_a) (vy point_a) (vx point_b) (vy point_b) depth width uv1 in
  if hit2 then true else
  let '(hit3, uv3) :=
    intersectionAt (width / 2 - vy point_a) (vy point_b - vy point_a)
                   (vx point_a) (vz point_a) (vx point_b) (vz point_b) depth height uv2 in
  if hit3 then true else
  let '(hit4, uv4) :=
    intersectionAt (- width / 2 - vy point_a) (vy point_b - vy point_a)
                   (vx point_a) (vz point_a) (vx point_b) (vz point_b) depth height uv3 in
  if hit4 then true else
  let '(hit5, uv5) :=
    intersectionAt (depth / 2 - vx point_a) (vx point_b - vx point_a)
                   (vy point_a) (vz point_a) (vy point_b) (vz point_b) width height uv4 in
  if hit5 then true else
  let '(hit6, _) :=
    intersectionAt (- depth / 2 - vx point_a) (vx point_b - vx point_a)
                   (vy point_a) (vz point_a) (vy point_b) (vz point_b) width height uv5 in
  if hit6 then true else false.

(** ** Grasp scorer and candidate assembler *)

(** The loop shared by both scoring functions:
    [total_score += weights[i] * scores[i]; weight_total += weights[i]],
    over the pairs of the two arrays. *)
Definition accumulate_scores (weights scores : list Q) : Q * Q :=
  fold_left (fun acc ws => (fst acc + fst ws * snd ws, snd acc + fst ws))
            (combine weights scores) (0, 0).

Definition weighted_score (weights scores : list Q) : Q :=
  let '(total_score, weight_total) := accumulate_scores weights scores in
  total_score / weight_total.

Section Scoring.
Variable E : Extern.

Definition suctionWeights (gen : GraspGenerator) : list Q :=
  let w := grasp_score_weights_ gen in
  [ orientation_x_score_weight_ w; orientation_y_score_weight_ w;
    orientation_z_score_weight_ w; translation_x_score_weight_ w;
    translation_y_score_weight_ w; translation_z_score_weight_ w;
    overhang_score_weight_ w; overhang_score_weight_ w ].

Definition suctionScores (gen : GraspGenerator) (grasp_pose : Isometry3d)
    (grasp_data : GraspData) (cuboid_pose : Isometry3d) (object_size : Vector3d) : list Q :=
  let ideal_grasp := set_translation (getIdealGraspPose gen) (translation cuboid_pose) in
  let orientation_scores := scoreRotationsFromDesired E grasp_pose ideal_grasp in
  let translation_scores := scoreGraspTranslationIdeal E grasp_pose ideal_grasp in
  let overhang_score := scoreGraspOverhang E grasp_pose grasp_data cuboid_pose object_size in
  [ vx orientation_scores; vy orientation_scores; vz orientation_scores;
    vx translation_scores; vy translation_scores; vz translation_scores;
    fst overhang_score; snd overhang_score ].

Definition scoreSuctionGrasp (gen : GraspGenerator) (grasp_pose : Isometry3d)
    (grasp_data : GraspData) (cuboid_pose : Isometry3d) (object_size : Vector3d) : Q :=
  weighted_score (suctionWeights gen)
                 (suctionScores gen grasp_pose grasp_data cuboid_pose object_size).

Definition fingerWeights (gen : GraspGenerator) : list Q :=
  let w := grasp_score_weights_ gen in
  [ width_score_weight_ w; orientation_x_score_weight_ w;
    orientation_y_score_weight_ w; orientation_z_score_weight_ w;
    depth_score_weight_ w; translation_x_score_weight_ w;
    translation_y_score_weight_ w; translation_z_score_weight_ w ].

Definition fingerScores (gen : GraspGenerator) (grasp_pose : Isometry3d)
    (grasp_data : GraspData) (object_pose : Isometry3d) (percent_open : Q) : list Q :=
  let width_score := scoreGraspWidth E grasp_data percent_open in
  let orientation_scores :=
    scoreRotationsFromDesired E grasp_pose (ideal_grasp_pose_ gen) in
  let distance_score :=
    scoreDistanceToPalm E grasp_pose grasp_data object_pose
                        (min_grasp_distance_ gen) (max_grasp_distance_ gen) in
  let translation_scores0 :=
    scoreGraspTranslationRange E grasp_pose (min_translations_ gen) (max_translations_ gen) in
  (* want minimum translation *)
  let translation_scores := vadd (vscale (-1) translation_scores0) (mkV 1 1 1) in
  [ width_score; vx orientation_scores; vy orientation_scores; vz orientation_scores;
    distance_score;
    vx translation_scores; vy translation_scores; vz translation_scores ].

Definition scoreFingerGrasp (gen : GraspGenerator) (grasp_pose : Isometry3d)
    (grasp_data : GraspData) (object_pose : Isometry3d) (percent_open : Q) : Q :=
  weighted_score (fingerWeights gen)
                 (fingerScores gen grasp_pose grasp_data object_pose percent_open).

(** The [moveit_msgs::Grasp] that [addGrasp] fills in before it looks at
    the effector type. *)
Definition new_grasp_of (gen : GraspGenerator) (grasp_pose : Isometry3d)
    (grasp_data : GraspData) : Grasp :=
  let grasp_approach_vector0 := vscale (-1) (translation (grasp_pose_to_eef_pose_ grasp_data)) in
  let grasp_approach_vector := vdivs grasp_approach_vector0 (norm E grasp_approach_vector0) in
  let eef_pose := iso_mul grasp_pose (grasp_pose_to_eef_pose_ grasp_data) in
  mkGrasp (grasp_id gen)
          []
          (grasp_posture_ grasp_data)
          (base_link_ grasp_data)
          eef_pose
          0
          (mkGT (parent_link_name grasp_data) grasp_approach_vector
                (grasp_max_depth_ grasp_data + approach_distance_desired_ grasp_data) 0)
          (mkGT (parent_link_name grasp_data) (vscale (-1) grasp_approach_vector)
                (grasp_max_depth_ grasp_data + retreat_distance_desired_ grasp_data) 0).

(** [addGrasp]: the result, the generator (its [grasp_id] advanced) and the
    candidate vector after the call. *)
Definition addGrasp (gen : GraspGenerator) (grasp_pose : Isometry3d)
    (grasp_data : GraspData) (grasp_candidates : list GraspCandidate)
    (object_pose : Isometry3d) (object_size : Vector3d) (object_width : Q)
    : bool * GraspGenerator * list GraspCandidate :=
  let new_grasp := new_grasp_of gen grasp_pose grasp_data in
  let gen := next_grasp_id gen in
  if is_FINGER (end_effector_type_ grasp_data) then
    let min_finger_open_on_approach :=
      object_width + 2 * grasp_padding_on_approach_ grasp_data in
    (* widest fingers possible *)
    match setGraspWidth E grasp_data 1 min_finger_open_on_approach with
    | None => (false, gen, grasp_candidates)
    | Some posture1 =>
      let new_grasp := set_pre_grasp_posture new_grasp posture1 in
      let new_grasp :=
        set_grasp_quality new_grasp (scoreFingerGrasp gen grasp_pose grasp_data object_pose 1) in
      let grasp_candidates :=
        grasp_candidates ++ [mkCandidate new_grasp grasp_data object_pose] in
      (* middle width fingers *)
      match setGraspWidth E grasp_data (1 # 2) min_finger_open_on_approach with
      | None => (false, gen, grasp_candidates)
      | Some posture2 =>
        let new_grasp := set_pre_grasp_posture new_grasp posture2 in
        let new_grasp :=
          set_grasp_quality new_grasp
            (scoreFingerGrasp gen grasp_pose grasp_data object_pose (1 # 2)) in
        let grasp_candidates :=
          grasp_candidates ++ [mkCandidate new_grasp grasp_data object_pose] in
        (* fingers at minimum width *)
        match setGraspWidth E grasp_data 0 min_finger_open_on_approach with
        | None => (false, gen, grasp_candidates)
        | Some posture3 =>
          let new_grasp := set_pre_grasp_posture new_grasp posture3 in
          let new_grasp :=
            set_grasp_quality new_grasp
              (scoreFingerGrasp gen grasp_pose grasp_data object_pose 0) in
          let grasp_candidates :=
            grasp_candidates ++ [mkCandidate new_grasp grasp_data object_pose] in
          (true, gen, grasp_candidates)
        end
      end
    end
  else if is_SUCTION (end_effector_type_ grasp_data) then
    let new_grasp :=
      set_grasp_quality new_grasp
        (scoreSuctionGrasp gen grasp_pose grasp_data object_pose object_size) in
    (true, gen, grasp_candidates ++ [mkCandidate new_grasp grasp_data object_pose])
  else (false, gen, grasp_candidates).

(** [for (i = 0; i < grasp_poses.size(); i++) addGrasp(grasp_poses[i], ...)]:
    the result of [addGrasp] only drives logging. *)
Definition addGrasps (gen : GraspGenerator) (grasp_poses : list Isometry3d)
    (grasp_data : GraspData) (grasp_candidates : list GraspCandidate)
    (object_pose : Isometry3d) (object_size : Vector3d) (object_width : Q)
    : GraspGenerator * list GraspCandidate :=
  fold_left
    (fun st grasp_pose =>
       let '(_, gen', cands') :=
         addGrasp (fst st) grasp_pose grasp_data (snd st) object_pose object_size object_width in
       (gen', cands'))
    grasp_poses (gen, grasp_candidates).
End Scoring.

(** ** Pose enumerator, finger grippers *)

(** Conversion of a double to [std::size_t]: the fraction is dropped. *)
Definition double_to_size_t (x : Q) : Z :=
  to_size_t (Z.quot (Qnum x) (Zpos (Qden x))).

(** [angle_res = angle_resolution_ * M_PI / 180.0]. *)
Definition angle_res_of (grasp_data : GraspData) : Q :=
  inject_Z (angle_resolution_ grasp_data) * M_PI / 180.

(** The per-axis choices at the head of [generateCuboidAxisGrasps]. *)
Record AxisFrame := mkFrame {
  length_along_a : Q;
  length_along_b : Q;
  length_along_c : Q;
  a_dir : Vector3d;
  b_dir : Vector3d;
  c_dir : Vector3d;
  rotation_angles : Q * Q * Q;
  object_width : Q
}.

(** [offset]: back the palm off of the object slightly. *)
Definition offset : Q := 1 # 1000.

Section Enumerator.
Variable E : Extern.

Definition axisFrame (cuboid_pose : Isometry3d) (depth width height : Q)
    (axis : grasp_axis_t) : AxisFrame :=
  let r := rotation cuboid_pose in
  match axis with
  | X_AXIS =>
      mkFrame width height depth
              (normalized E (mvec r UnitY)) (normalized E (mvec r UnitZ))
              (normalized E (mvec r UnitX))
              (- M_PI / 2, 0, - M_PI / 2) depth
  | Y_AXIS =>
      mkFrame depth height width
              (normalized E (mvec r UnitX)) (normalized E (mvec r UnitZ))
              (normalized E (mvec r UnitY))
              (0, M_PI / 2, M_PI) width
  | Z_AXIS =>
      mkFrame depth width height
              (normalized E (mvec r UnitX)) (normalized E (mvec r UnitY))
              (normalized E (mvec r UnitZ))
              (M_PI / 2, M_PI / 2, 0) height
  end.

(** [pose * AngleAxis(ra[0], X) * AngleAxis(ra[1], Y) * AngleAxis(ra[2], Z)]
    followed by [* AngleAxis(alignment_rotation, Y)]. *)
Definition alignedPose (pose : Isometry3d) (ra : Q * Q * Q) (alignment_rotation : Q)
    : Isometry3d :=
  let '(ra0, ra1, ra2) := ra in
  iso_rotate
    (iso_rotate pose (mmul (mmul (AngleAxisX E ra0) (AngleAxisY E ra1)) (AngleAxisZ E ra2)))
    (AngleAxisY E alignment_rotation).

(** [for (i < n) { grasp_pose.translation() += delta; push_back(grasp_pose); }] *)
Fixpoint translate_loop (n : nat) (delta : Vector3d) (grasp_pose : Isometry3d)
    : list Isometry3d :=
  match n with
  | O => []
  | S k =>
      let grasp_pose := add_translation grasp_pose delta in
      grasp_pose :: translate_loop k delta grasp_pose
  end.

(** [for (i < n) { grasp_pose *= AngleAxis(delta_angle, Y); push_back(grasp_pose); }] *)
Fixpoint rotate_loop (n : nat) (delta_angle : Q) (grasp_pose : Isometry3d)
    : list Isometry3d :=
  match n with
  | O => []
  | S k =>
      let grasp_pose := iso_rotate grasp_pose (AngleAxisY E delta_angle) in
      grasp_pose :: rotate_loop k delta_angle grasp_pose
  end.

(** The three helpers return the pose vector after the call; their
    [std::size_t] result is dropped by every caller. *)
Definition addFaceGraspsHelper (pose : Isometry3d) (ra : Q * Q * Q)
    (translation delta : Vector3d) (alignment_rotation : Q) (num_grasps : Z)
    (grasp_poses : list Isometry3d) : list Isometry3d :=
  let grasp_pose := add_translation (alignedPose pose ra alignment_rotation) translation in
  grasp_poses ++ translate_loop (loop_count num_grasps) delta grasp_pose.

Definition addEdgeGraspsHelper (pose : Isometry3d) (ra : Q * Q * Q)
    (translation delta : Vector3d) (alignment_rotation : Q) (num_grasps : Z)
    (grasp_poses : list Isometry3d) (corner_rotation : Q) : list Isometry3d :=
  let grasp_pose := alignedPose pose ra alignment_rotation in
  (* rotate towards cuboid *)
  let grasp_pose := iso_rotate grasp_pose (AngleAxisX E corner_rotation) in
  let grasp_pose := add_translation grasp_pose translation in
  grasp_poses ++ translate_loop (loop_count num_grasps) delta grasp_pose.

Definition addCornerGraspsHelper (pose : Isometry3d) (ra : Q * Q * Q)
    (translation : Vector3d) (corner_rotation : Q) (num_radial_grasps : Z)
    (grasp_poses : list Isometry3d) : list Isometry3d :=
  let delta_angle := (M_PI / 2) / inject_Z (to_size_t (num_radial_grasps + 1)) in
  let grasp_pose := add_translation (alignedPose pose ra corner_rotation) translation in
  grasp_poses ++ rotate_loop (loop_count num_radial_grasps) delta_angle grasp_pose.

(** [num_radial_grasps = ceil((M_PI / 2.0) / angle_res)], raised to 1 inside
    the corner branch. *)
Definition num_radial_grasps_of (grasp_data : GraspData) : Z :=
  let n := to_size_t (ceil ((M_PI / 2) / angle_res_of grasp_data)) in
  if (n <=? 0)%Z then 1%Z else n.

(** Corner stage. *)
Definition cornerGrasps (cuboid_pose : Isometry3d) (grasp_data : GraspData)
    (fr : AxisFrame) (cfg : GraspCandidateConfig) (grasp_poses : list Isometry3d)
    : list Isometry3d :=
  if enable_corner_grasps_ cfg then
    let corner_translation_a := vscale ((1 # 2) * (length_along_a fr + offset)) (a_dir fr) in
    let corner_translation_b := vscale ((1 # 2) * (length_along_b fr + offset)) (b_dir fr) in
    let num_radial_grasps := num_radial_grasps_of grasp_data in
    let ra := rotation_angles fr in
    (* corner 0.5 * (-a, -b) *)
    let grasp_poses :=
      addCornerGraspsHelper cuboid_pose ra
        (vsub (vneg corner_translation_a) corner_translation_b) 0
        num_radial_grasps grasp_poses in
    (* corner 0.5 * (-a, +b) *)
    let grasp_poses :=
      addCornerGraspsHelper cuboid_pose ra
        (vadd (vneg corner_translation_a) corner_translation_b) (- M_PI / 2)
        num_radial_grasps grasp_poses in
    (* corner 0.5 * (+a, +b) *)
    let grasp_poses :=
      addCornerGraspsHelper cuboid_pose ra
        (vadd corner_translation_a corner_translation_b) M_PI
        num_radial_grasps grasp_poses in
    (* corner 0.5 * (+a, -b) *)
    addCornerGraspsHelper cuboid_pose ra
      (vsub corner_translation_a corner_translation_b) (M_PI / 2)
      num_radial_grasps grasp_poses
  else grasp_poses.

(** [num_grasps_along_*] after the fall-back to three grasps. *)
Definition num_grasps_along (grasp_data : GraspData) (length_along : Q) : Z :=
  let n :=
    to_size_t (floor ((length_along - gripper_finger_width_ grasp_data)
                      / grasp_resolution_ grasp_data) + 1) in
  if (n <=? 0)%Z then 3%Z else n.

(** [delta_*]: the exact spacing for that number of grasps. *)
Definition delta_along (grasp_data : GraspData) (length_along : Q) : Q :=
  let n := num_grasps_along grasp_data length_along in
  if (n =? 1)%Z then 0
  else (length_along - gripper_finger_width_ grasp_data) / inject_Z (to_size_t (n - 1)).

(** Face stage. *)
Definition faceGrasps (cuboid_pose : Isometry3d) (grasp_data : GraspData)
    (fr : AxisFrame) (cfg : GraspCandidateConfig) (grasp_poses : list Isometry3d)
    : list Isometry3d :=
  let la := length_along_a fr in
  let lb := length_along_b fr in
  let fw := gripper_finger_width_ grasp_data in
  let num_grasps_along_b := num_grasps_along grasp_data lb in
  let delta_a := delta_along grasp_data la in
  let delta_b := delta_along grasp_data lb in
  let ra := rotation_angles fr in
  if enable_face_grasps_ cfg then
    let a_translation :=
      vsub (vsub (vneg (vscale ((1 # 2) * (la + offset)) (a_dir fr)))
                 (vscale ((1 # 2) * (lb - fw)) (b_dir fr)))
           (vscale delta_b (b_dir fr)) in
    let b_translation :=
      vsub (vsub (vscale (- (1 # 2) * (la - fw)) (a_dir fr))
                 (vscale delta_a (a_dir fr)))
           (vscale ((1 # 2) * (lb + offset)) (b_dir fr)) in
    (* grasps along -a_dir face *)
    let grasp_poses :=
      addFaceGraspsHelper cuboid_pose ra a_translation (vscale delta_b (b_dir fr))
        0 num_grasps_along_b grasp_poses in
    (* grasps along +b_dir face *)
    let grasp_poses :=
      addFaceGraspsHelper cuboid_pose ra (vneg b_translation) (vscale (- delta_a) (a_dir fr))
        (- M_PI / 2) num_grasps_along_b grasp_poses in
    (* grasps along +a_dir face *)
    let grasp_poses :=
      addFaceGraspsHelper cuboid_pose ra (vneg a_translation) (vscale (- delta_b) (b_dir fr))
        M_PI num_grasps_along_b grasp_poses in
    (* grasps along -b_dir face *)
    addFaceGraspsHelper cuboid_pose ra b_translation (vscale delta_a (a_dir fr))
      (M_PI / 2) num_grasps_along_b grasp_poses
  else grasp_poses.

(** [max_iterations = M_PI / angle_res + 1], converted to [std::size_t]. *)
Definition max_iterations_of (angle_res : Q) : Z :=
  double_to_size_t (M_PI / angle_res + 1).

(** One [while (graspIntersectionHelper(...)) { push_back; rotate;
    iterations++; if (iterations > max_iterations) break; }] loop; [step]
    is the signed angle.  The recursion is on the number of runs of the
    body still allowed by the cap. *)
Fixpoint sweep_loop (runs_left : nat) (cuboid_pose : Isometry3d) (depth width height : Q)
    (grasp_data : GraspData) (step : Q) (max_iterations iterations : Z)
    (grasp_pose : Isometry3d) : list Isometry3d :=
  match runs_left with
  | O => []
  | S k =>
      if graspIntersectionHelper cuboid_pose depth width height grasp_pose grasp_data then
        let pushed := grasp_pose in
        let grasp_pose := iso_rotate grasp_pose (AngleAxisY E step) in
        let iterations := (iterations + 1)%Z in
        if (iterations >? max_iterations)%Z then [pushed]
        else pushed :: sweep_loop k cuboid_pose depth width height grasp_data step
                                  max_iterations iterations grasp_pose
      else []
  end.

(** The poses one direction of the sweep adds for [base_pose]. *)
Definition sweepDirection (cuboid_pose : Isometry3d) (depth width height : Q)
    (grasp_data : GraspData) (step : Q) (base_pose : Isometry3d) : list Isometry3d :=
  let max_iterations := max_iterations_of (angle_res_of grasp_data) in
  sweep_loop (S (Z.to_nat max_iterations)) cuboid_pose depth width height grasp_data
             step max_iterations 0 (iso_rotate base_pose (AngleAxisY E step)).

(** Variable-angle stage: the base poses are those after the
    [num_corner_grasps] corner poses. *)
Definition variableAngleGrasps (cuboid_pose : Isometry3d) (depth width height : Q)
    (grasp_data : GraspData) (cfg : GraspCandidateConfig) (num_corner_grasps : nat)
    (grasp_poses : list Isometry3d) : list Isometry3d :=
  if enable_variable_angle_grasps_ cfg then
    let angle_res := angle_res_of grasp_data in
    grasp_poses ++
    flat_map (fun base_pose =>
                sweepDirection cuboid_pose depth width height grasp_data angle_res base_pose
                ++ sweepDirection cuboid_pose depth width height grasp_data (- angle_res)
                                  base_pose)
             (skipn num_corner_grasps grasp_poses)
  else grasp_poses.
End Enumerator.

Section Generator.
Variable E : Extern.

(** Edge stage. *)
Definition edgeGrasps (cuboid_pose : Isometry3d) (grasp_data : GraspData)
    (axis : grasp_axis_t) (fr : AxisFrame) (cfg : GraspCandidateConfig)
    (grasp_poses : list Isometry3d) : list Isometry3d :=
  let la := length_along_a fr in
  let lb := length_along_b fr in
  let lc := length_along_c fr in
  let fw := gripper_finger_width_ grasp_data in
  let num_grasps_along_b := num_grasps_along grasp_data lb in
  let delta_a := delta_along grasp_data la in
  let delta_b := delta_along grasp_data lb in
  let ra := rotation_angles fr in
  if enable_edge_grasps_ cfg then
    let '(a_sign, b_sign, a_rot_sign, b_rot_sign) :=
      match axis with
      | X_AXIS => (1, 1, 1, 1)
      | Y_AXIS => (- (1), 1, 1, - (1))
      | Z_AXIS => (- (1), - (1), - (1), - (1))
      end in
    let a_translation :=
      vsub (vsub (vsub (vscale (- (1 # 2) * (la + offset)) (a_dir fr))
                       (vscale ((1 # 2) * (lb - fw)) (b_dir fr)))
                 (vscale delta_b (b_dir fr)))
           (vscale a_sign (vscale ((1 # 2) * (lc + offset)) (c_dir fr))) in
    let b_translation :=
      vsub (vsub (vsub (vscale (- (1 # 2) * (la - fw)) (a_dir fr))
                       (vscale delta_a (a_dir fr)))
                 (vscale ((1 # 2) * (lb + offset)) (b_dir fr)))
           (vscale b_sign (vscale ((1 # 2) * (lc + offset)) (c_dir fr))) in
    (* grasps along -a_dir face *)
    let grasp_poses :=
      addEdgeGraspsHelper E cuboid_pose ra a_translation (vscale delta_b (b_dir fr))
        0 num_grasps_along_b grasp_poses (- M_PI / 4 * a_rot_sign) in
    (* grasps along +b_dir face *)
    let grasp_poses :=
      addEdgeGraspsHelper E cuboid_pose ra (vneg b_translation)
        (vscale (- delta_a) (a_dir fr))
        (- M_PI / 2) num_grasps_along_b grasp_poses (M_PI / 4 * b_rot_sign) in
    (* grasps along +a_dir face *)
    let grasp_poses :=
      addEdgeGraspsHelper E cuboid_pose ra (vneg a_translation)
        (vscale (- delta_b) (b_dir fr))
        M_PI num_grasps_along_b grasp_poses (M_PI / 4 * a_rot_sign) in
    (* grasps along -b_dir face *)
    addEdgeGraspsHelper E cuboid_pose ra b_translation (vscale delta_a (a_dir fr))
      (M_PI / 2) num_grasps_along_b grasp_poses (- M_PI / 4 * b_rot_sign)
  else grasp_poses.

(** [num_depth_grasps], at least 1. *)
Definition num_depth_grasps_of (grasp_data : GraspData) : Z :=
  let finger_depth := grasp_max_depth_ grasp_data - grasp_min_depth_ grasp_data in
  let n := to_size_t (ceil (finger_depth / grasp_depth_resolution_ grasp_data)) in
  if (n <=? 0)%Z then 1%Z else n.

(** Depth stage: every pose so far, pushed further along its own z. *)
Definition depthGrasps (grasp_data : GraspData) (grasp_poses : list Isometry3d)
    : list Isometry3d :=
  let finger_depth := grasp_max_depth_ grasp_data - grasp_min_depth_ grasp_data in
  let num_depth_grasps := num_depth_grasps_of grasp_data in
  let delta_f := finger_depth / inject_Z num_depth_grasps in
  grasp_poses ++
  flat_map (fun p =>
              let grasp_dir := mvec (rotation p) UnitZ in
              translate_loop (loop_count num_depth_grasps) (vscale delta_f grasp_dir) p)
           grasp_poses.

(** Bidirectional stage. *)
Definition bidirectionalGrasps (grasp_poses : list Isometry3d) : list Isometry3d :=
  grasp_poses ++ map (fun p => iso_rotate p (AngleAxisZ E M_PI)) grasp_poses.

(** The four running bounds of the min/max loop. *)
Record Bounds := mkBounds {
  b_min_distance : Q;
  b_max_distance : Q;
  b_min_translations : Vector3d;
  b_max_translations : Vector3d
}.

Definition initial_bounds : Bounds :=
  mkBounds DBL_MAX DBL_MIN (mkV DBL_MAX DBL_MAX DBL_MAX) (mkV DBL_MIN DBL_MIN DBL_MIN).

(** [if (x < m[j]) m[j] = x] and [if (x > m[j]) m[j] = x]. *)
Definition lower (x m : Q) : Q := if Qltb x m then x else m.
Definition raise (x m : Q) : Q := if Qltb m x then x else m.

(** One run of the body of the min/max loop, its inner loop over the three
    coordinates written out. *)
Definition bounds_step (cuboid_pose : Isometry3d) (b : Bounds) (grasp_pose : Isometry3d)
    : Bounds :=
  let grasp_distance := norm E (vsub (translation grasp_pose) (translation cuboid_pose)) in
  let t := translation grasp_pose in
  mkBounds
    (lower grasp_distance (b_min_distance b))
    (raise grasp_distance (b_max_distance b))
    (mkV (lower (vx t) (vx (b_min_translations b)))
         (lower (vy t) (vy (b_min_translations b)))
         (lower (vz t) (vz (b_min_translations b))))
    (mkV (raise (vx t) (vx (b_max_translations b)))
         (raise (vy t) (vy (b_max_translations b)))
         (raise (vz t) (vz (b_max_translations b)))).

Definition computeBounds (cuboid_pose : Isometry3d) (grasp_poses : list Isometry3d)
    : Bounds :=
  fold_left (bounds_step cuboid_pose) grasp_poses initial_bounds.

(** The pose vector of [generateCuboidAxisGrasps] after all expansion
    stages. *)
Definition cuboidAxisPoses (cuboid_pose : Isometry3d) (depth width height : Q)
    (axis : grasp_axis_t) (grasp_data : GraspData) (cfg : GraspCandidateConfig)
    : list Isometry3d :=
  let fr := axisFrame E cuboid_pose depth width height axis in
  let grasp_poses := cornerGrasps E cuboid_pose grasp_data fr cfg [] in
  let num_corner_grasps := List.length grasp_poses in
  let grasp_poses := faceGrasps E cuboid_pose grasp_data fr cfg grasp_poses in
  let grasp_poses :=
    variableAngleGrasps E cuboid_pose depth width height grasp_data cfg
                        num_corner_grasps grasp_poses in
  let grasp_poses := edgeGrasps cuboid_pose grasp_data axis fr cfg grasp_poses in
  let grasp_poses := depthGrasps grasp_data grasp_poses in
  bidirectionalGrasps grasp_poses.

(** [generateCuboidAxisGrasps]: always returns [true]. *)
Definition generateCuboidAxisGrasps (gen : GraspGenerator) (cuboid_pose : Isometry3d)
    (depth width height : Q) (axis : grasp_axis_t) (grasp_data : GraspData)
    (cfg : GraspCandidateConfig) (grasp_candidates : list GraspCandidate)
    : bool * GraspGenerator * list GraspCandidate :=
  let object_size := mkV depth width height in
  let fr := axisFrame E cuboid_pose depth width height axis in
  let grasp_poses := cuboidAxisPoses cuboid_pose depth width height axis grasp_data cfg in
  (* compute min/max distances to object *)
  let b := computeBounds cuboid_pose grasp_poses in
  let gen :=
    set_bounds gen (b_min_distance b) (b_max_distance b)
               (b_min_translations b) (b_max_translations b) in
  (* add all poses as possible grasps *)
  let '(gen, grasp_candidates) :=
    addGrasps E gen grasp_poses grasp_data grasp_candidates cuboid_pose object_size
              (object_width fr) in
  (true, gen, grasp_candidates).

(** The configuration used for one axis: when the object is too wide along
    it, only the edge and corner flags of the caller survive. *)
Definition axis_config (cfg : GraspCandidateConfig) (too_wide : bool)
    : GraspCandidateConfig :=
  if too_wide then
    set_enable_corner_grasps
      (set_enable_edge_grasps (disableAllGraspTypes cfg) (enable_edge_grasps_ cfg))
      (enable_corner_grasps_ cfg)
  else cfg.

Definition generateFingerGrasps (gen : GraspGenerator) (cuboid_pose : Isometry3d)
    (depth width height : Q) (grasp_data : GraspData)
    (grasp_candidates : list GraspCandidate) (cfg : GraspCandidateConfig)
    : bool * GraspGenerator * list GraspCandidate :=
  let '(gen, grasp_candidates) :=
    if generate_x_axis_grasps_ cfg then
      let '(_, g, c) :=
        generateCuboidAxisGrasps gen cuboid_pose depth width height X_AXIS grasp_data
          (axis_config cfg (Qltb (max_grasp_width_ grasp_data) depth)) grasp_candidates in
      (g, c)
    else (gen, grasp_candidates) in
  let '(gen, grasp_candidates) :=
    if generate_y_axis_grasps_ cfg then
      let '(_, g, c) :=
        generateCuboidAxisGrasps gen cuboid_pose depth width height Y_AXIS grasp_data
          (axis_config cfg (Qltb (max_grasp_width_ grasp_data) width)) grasp_candidates in
      (g, c)
    else (gen, grasp_candidates) in
  let '(gen, grasp_candidates) :=
    if generate_z_axis_grasps_ cfg then
      let '(_, g, c) :=
        generateCuboidAxisGrasps gen cuboid_pose depth width height Z_AXIS grasp_data
          (axis_config cfg (Qltb (max_grasp_width_ grasp_data) height)) grasp_candidates in
      (g, c)
    else (gen, grasp_candidates) in
  (true, gen, grasp_candidates).
End Generator.

(** ** Pose enumerator, suction grippers *)

(** [for (double x = x0; cond(x); x += inc)]: the values of [x] at which the
    body runs.  [None]: the condition still holds when [fuel] runs of the
    body are spent. *)
Fixpoint double_range (fuel : nat) (cond : Q -> bool) (x inc : Q) : option (list Q) :=
  match fuel with
  | O => if cond x then None else Some []
  | S k =>
      if cond x then option_map (cons x) (double_range k cond (x + inc) inc)
      else Some []
  end.

(** Enough runs for a loop from [lo] up to [hi] with a positive increment;
    with an increment that is not positive the loop does not end once it is
    entered, and [double_range] answers [None] whatever the fuel. *)
Definition range_fuel (lo hi inc : Q) : nat :=
  S (Z.to_nat (Qceiling ((hi - lo) / inc))).

(** [for (x = lo; x < hi; x += inc)] and [for (x = lo; x <= hi; x += inc)]. *)
Definition range_lt (lo hi inc : Q) : option (list Q) :=
  double_range (range_fuel lo hi inc) (fun x => Qltb x hi) lo inc.
Definition range_le (lo hi inc : Q) : option (list Q) :=
  double_range (range_fuel lo hi inc) (fun x => Qleb x hi) lo inc.

Section Suction.
Variable E : Extern.

(** The cuboid top pose turned towards the ideal grasp: about X when the Z
    axes oppose, then about Z when the X axes oppose. *)
Definition reorientTopGrasp (cuboid_top_pose ideal_grasp : Isometry3d) : Isometry3d :=
  let cuboid_center_top_grasp := cuboid_top_pose in
  let dot_prodZ :=
    dot (mvec (rotation cuboid_center_top_grasp) UnitZ)
        (mvec (rotation ideal_grasp) UnitZ) in
  let cuboid_center_top_grasp :=
    if Qltb dot_prodZ 0
    then iso_rotate cuboid_center_top_grasp (AngleAxisX E M_PI)
    else cuboid_center_top_grasp in
  let dot_prodX :=
    dot (mvec (rotation cuboid_center_top_grasp) UnitX)
        (mvec (rotation ideal_grasp) UnitX) in
  if Qltb dot_prodX 0
  then iso_rotate cuboid_center_top_grasp (AngleAxisZ E M_PI)
  else cuboid_center_top_grasp.

(** [center_grasp_pose]. *)
Definition centerGraspPose (gen : GraspGenerator) (cuboid_top_pose : Isometry3d)
    (grasp_data : GraspData) : Isometry3d :=
  let ideal_grasp :=
    set_translation (getIdealGraspPose gen) (translation cuboid_top_pose) in
  iso_translate (reorientTopGrasp cuboid_top_pose ideal_grasp)
                (mkV 0 0 (grasp_min_depth_ grasp_data)).

(** The bounds of the four sweeps. *)
Definition xy_max_of (depth width : Q) (grasp_data : GraspData) : Q :=
  if Qltb (depth - active_suction_range_x_ grasp_data)
          (width - active_suction_range_y_ grasp_data)
  then depth / 2 - active_suction_range_x_ grasp_data / 2
  else width / 2 - active_suction_range_y_ grasp_data / 2.

Definition z_max_of (grasp_data : GraspData) : Q :=
  grasp_max_depth_ grasp_data - grasp_min_depth_ grasp_data.

Definition yaw_increment_of (grasp_data : GraspData) : Q :=
  M_PI * (inject_Z (angle_resolution_ grasp_data) / 180).

Definition yaw_max : Q := 2 * M_PI.

(** The values each sweep runs over; its lower bound is its increment. *)
Definition yaw_values (grasp_data : GraspData) : option (list Q) :=
  range_lt (yaw_increment_of grasp_data) yaw_max (yaw_increment_of grasp_data).
Definition z_values (grasp_data : GraspData) : option (list Q) :=
  range_le (grasp_depth_resolution_ grasp_data) (z_max_of grasp_data)
           (grasp_depth_resolution_ grasp_data).
Definition xy_values (depth width : Q) (grasp_data : GraspData) : option (list Q) :=
  range_le (xy_min E) (xy_max_of depth width grasp_data) (xy_increment E).

(** One expansion stage: for every pose of the vector on entry, in order,
    the poses [expand p x] for every [x] of the sweep are pushed.  The
    vector is never empty on entry, so a sweep that does not end keeps the
    stage from ending. *)
Definition expand (values : option (list Q)) (variants : Isometry3d -> Q -> list Isometry3d)
    (grasp_poses : list Isometry3d) : option (list Isometry3d) :=
  match values with
  | None => None
  | Some xs =>
      Some (grasp_poses ++
            flat_map (fun p => flat_map (variants p) xs) grasp_poses)
  end.

(** The pose vector of [generateSuctionGrasps] after the four stages. *)
Definition suctionPoses (gen : GraspGenerator) (cuboid_top_pose : Isometry3d)
    (depth width height : Q) (grasp_data : GraspData) : option (list Isometry3d) :=
  let grasp_poses := [centerGraspPose gen cuboid_top_pose grasp_data] in
  (* yaw *)
  match expand (yaw_values grasp_data)
               (fun p yaw => [iso_rotate p (AngleAxisZ E yaw)]) grasp_poses with
  | None => None
  | Some grasp_poses =>
  (* depth *)
  match expand (z_values grasp_data)
               (fun p z => [iso_translate p (mkV 0 0 z)]) grasp_poses with
  | None => None
  | Some grasp_poses =>
  (* Y translation *)
  match expand (xy_values depth width grasp_data)
               (fun p y => [iso_translate p (mkV 0 y 0); iso_translate p (mkV 0 (- y) 0)])
               grasp_poses with
  | None => None
  | Some grasp_poses =>
  (* X translation *)
  expand (xy_values depth width grasp_data)
         (fun p x => [iso_translate p (mkV x 0 0); iso_translate p (mkV (- x) 0 0)])
         grasp_poses
  end end end.

(** [generateSuctionGrasps]; [None] when one of its sweeps does not end. *)
Definition generateSuctionGrasps (gen : GraspGenerator) (cuboid_top_pose : Isometry3d)
    (depth width height : Q) (grasp_data : GraspData)
    (grasp_candidates : list GraspCandidate) (cfg : GraspCandidateConfig)
    : option (bool * GraspGenerator * list GraspCandidate) :=
  let grasp_candidates : list GraspCandidate := [] in   (* grasp_candidates.clear() *)
  let object_size := mkV depth width height in
  match suctionPoses gen cuboid_top_pose depth width height grasp_data with
  | None => None
  | Some grasp_poses =>
      let gen :=
        setIdealGraspPose gen
          (set_translation (getIdealGraspPose gen) (translation cuboid_top_pose)) in
      let '(gen, grasp_candidates) :=
        addGrasps E gen grasp_poses grasp_data grasp_candidates cuboid_top_pose
                  object_size 0 in
      Some (true, gen, grasp_candidates)
  end.

(** [generateGrasps]: dispatch on the effector type. *)
Definition generateGrasps (gen : GraspGenerator) (cuboid_pose : Isometry3d)
    (depth width height : Q) (grasp_data : GraspData)
    (grasp_candidates : list GraspCandidate) (cfg : GraspCandidateConfig)
    : option (bool * GraspGenerator * list GraspCandidate) :=
  if is_FINGER (end_effector_type_ grasp_data) then
    Some (generateFingerGrasps E gen cuboid_pose depth width height grasp_data
                               grasp_candidates cfg)
  else if is_SUCTION (end_effector_type_ grasp_data) then
    generateSuctionGrasps gen cuboid_pose depth width height grasp_data
                          grasp_candidates cfg
  else Some (false, gen, grasp_candidates).
End Suction.


(** ** Notions of the specification *)

(** The in-plane point of the segment at parameter [t]. *)
Definition interpolated (t u1 v1 u2 v2 : Q) : Q * Q :=
  (u1 + t * (u2 - u1), v1 + t * (v2 - v1)).

(** The weighted average in the words of the specification: the sum of
    weight times sub-score, divided by the sum of the weights. *)
Fixpoint sum_weighted (weights scores : list Q) : Q :=
  match weights, scores with
  | w :: ws, s :: ss => w * s + sum_weighted ws ss
  | _, _ => 0
  end.

Fixpoint sum_weights (weights scores : list Q) : Q :=
  match weights, scores with
  | w :: ws, _ :: ss => w + sum_weights ws ss
  | _, _ => 0
  end.

Definition weighted_average (weights scores : list Q) : Q :=
  sum_weighted weights scores / sum_weights weights scores.

Definition in_unit_interval (s : Q) : Prop := 0 <= s /\ s <= 1.
Definition non_negative (w : Q) : Prop := 0 <= w.
Definition non_zero (w : Q) : Prop := ~ w == 0.

(** ** A rational instance of the collaborators

    Used to run the generator on concrete inputs.  The trigonometric
    functions are exact at the multiples of [M_PI / 2] and return a point of
    the unit circle near the true one everywhere, so the rotations built from them are
    orthogonal matrices with rational entries. *)

(** [tan x] for a small [x]: its series up to the fifth power, rounded to
    the nearest multiple of [1/64] to keep the fractions short. *)
Definition q_tan (x : Q) : Q :=
  let series := x + x * x * x / 3 + 2 * (x * x * x * x * x) / 15 in
  Qred (inject_Z (Qfloor (series * 64 + (1 # 2))) / 64).

(** [(cos angle, sin angle)]: the angle is reduced by the nearest multiple
    [k] of [M_PI / 2], the remainder goes through the half-angle formulas. *)
Definition q_cos_sin (angle : Q) : Q * Q :=
  let k := Qfloor (angle / (M_PI / 2) + (1 # 2)) in
  let r := angle - inject_Z k * (M_PI / 2) in
  let t := q_tan (r / 2) in
  let c := Qred ((1 - t * t) / (1 + t * t)) in
  let s := Qred (2 * t / (1 + t * t)) in
  match (k mod 4)%Z with
  | 0%Z => (c, s)
  | 1%Z => (Qred (- s), c)
  | 2%Z => (Qred (- c), Qred (- s))
  | _ => (s, Qred (- c))
  end.

Definition q_cos (angle : Q) : Q := fst (q_cos_sin angle).
Definition q_sin (angle : Q) : Q := snd (q_cos_sin angle).

(** [sqrt x] from the integer square root of the scaled fraction; exact on
    the squares of rationals. *)
Definition q_sqrt (x : Q) : Q :=
  Qred (Z.sqrt (Qnum x * Zpos (Qden x) * 4 ^ 40) # (Qden x * 2 ^ 40)).

Definition clamp01 (x : Q) : Q :=
  if Qltb x 0 then 0 else if Qltb 1 x then 1 else x.

(** Modelled from the spec: the body of [GraspData::setGraspWidth] is not in
    these sources.  The header documents it as setting the width between the
    fingers as a percentage of object size and max finger width, and the
    specification has it fail when the distance is outside the achievable
    range: the distance is taken [percent_open] of the way from the minimum
    opening (never below [min_finger_width_]) to [max_finger_width_]. *)
Definition sample_setGraspWidth (grasp_data : GraspData) (percent_open min_finger_width : Q)
    : option JointTrajectory :=
  let min_width :=
    if Qltb min_finger_width (min_finger_width_ grasp_data)
    then min_finger_width_ grasp_data else min_finger_width in
  let distance_btw_fingers :=
    min_width + (max_finger_width_ grasp_data - min_width) * percent_open in
  if Qltb (max_finger_width_ grasp_data) distance_btw_fingers
     || Qltb distance_btw_fingers (min_finger_width_ grasp_data)
  then None
  else Some [[distance_btw_fingers]].

(** Modelled from the spec: the bodies of the [GraspScorer] functions are not
    in these sources.  Each sub-score is normalized to [0,1], 1 = best: the
    width score is the preference for the opening percentage, an orientation
    score the alignment of the pose's axis with the ideal one, a translation
    or distance score the position within the given range. *)
Definition sample_scoreGraspWidth (grasp_data : GraspData) (percent_open : Q) : Q :=
  clamp01 percent_open.

Definition sample_scoreRotationsFromDesired (grasp_pose ideal_pose : Isometry3d) : Vector3d :=
  let align j :=
    clamp01 ((dot (mcol (rotation grasp_pose) j) (mcol (rotation ideal_pose) j) + 1) / 2) in
  mkV (align 0%nat) (align 1%nat) (align 2%nat).

Definition sample_position (x lo hi : Q) : Q :=
  match fdiv (x - lo) (hi - lo) with
  | Some r => clamp01 r
  | None => 0
  end.

Definition sample_scoreGraspTranslationRange (grasp_pose : Isometry3d)
    (min_translations max_translations : Vector3d) : Vector3d :=
  let t := translation grasp_pose in
  mkV (sample_position (vx t) (vx min_translations) (vx max_translations))
      (sample_position (vy t) (vy min_translations) (vy max_translations))
      (sample_position (vz t) (vz min_translations) (vz max_translations)).

Definition sample_scoreGraspTranslationIdeal (grasp_pose ideal_pose : Isometry3d) : Vector3d :=
  let d := vsub (translation grasp_pose) (translation ideal_pose) in
  mkV (clamp01 (1 - Qabs (vx d))) (clamp01 (1 - Qabs (vy d))) (clamp01 (1 - Qabs (vz d))).

Definition sample_scoreDistanceToPalm (grasp_pose : Isometry3d) (grasp_data : GraspData)
    (object_pose : Isometry3d) (min_grasp_distance max_grasp_distance : Q) : Q :=
  sample_position
    (q_sqrt (dot (vsub (translation grasp_pose) (translation object_pose))
                 (vsub (translation grasp_pose) (translation object_pose))))
    min_grasp_distance max_grasp_distance.

Definition sample_scoreGraspOverhang (grasp_pose : Isometry3d) (grasp_data : GraspData)
    (cuboid_pose : Isometry3d) (object_size : Vector3d) : Q * Q :=
  (clamp01 (active_suction_range_x_ grasp_data / vx object_size),
   clamp01 (active_suction_range_y_ grasp_data / vy object_size)).

(** The undeclared [xy_min] and [xy_increment] are given the role the
    declared [x_min], [x_increment] have: the grasp resolution. *)
Definition sample_extern (grasp_resolution : Q) : Extern :=
  mkExtern q_cos q_sin q_sqrt
           sample_setGraspWidth
           sample_scoreGraspWidth
           sample_scoreRotationsFromDesired
           sample_scoreDistanceToPalm
           sample_scoreGraspTranslationRange
           sample_scoreGraspTranslationIdeal
           sample_scoreGraspOverhang
           grasp_resolution grasp_resolution.

(** A finger gripper and a suction gripper at the identity grasp frame, a
    generator with unit weights, and a configuration with every strategy on. *)
Definition sample_finger_data : GraspData :=
  mkGraspData FINGER (mkIso mIdentity (mkV 0 0 (- (1 # 10)))) [[1 # 10]] [[0]]
              "world" "gripper_link"
              30 (1 # 50) (1 # 100) (1 # 100) (1 # 50)
              (1 # 10) (1 # 10) (1 # 10) (1 # 1000)
              (1 # 10) (3 # 25) (1 # 50) (1 # 100)
              0 0.


Definition sample_weights : GraspScoreWeights := mkWeights 1 1 1 1 1 1 1 1 1.

Definition sample_generator : GraspGenerator :=
  mkGen isoIdentity sample_weights 0 0 (mkV 0 0 0) (mkV 0 0 0) 0.

Definition all_enabled : GraspCandidateConfig :=
  mkConfig true true true true true true true.

(** A vector with its coordinates in lowest terms. *)
Definition vred (v : Vector3d) : Vector3d := mkV (Qred (vx v)) (Qred (vy v)) (Qred (vz v)).

(** A cuboid of 0.055 x 0.035 x 0.1 at the identity pose, grasped across its
    Z axis: [length_along_a] is its depth, [length_along_b] its width. *)
Definition unequal_box_frame : AxisFrame :=
  axisFrame (sample_extern (1 # 50)) isoIdentity (11 # 200) (7 # 200) (1 # 10) Z_AXIS.

(** The frame of a cube of side 0.1 at the identity pose, on its X axis. *)
Definition cube_frame : AxisFrame :=
  axisFrame (sample_extern (1 # 50)) isoIdentity (1 # 10) (1 # 10) (1 # 10) X_AXIS.


(** [base_pose] turned [k] times by [step] about its own Y axis. *)
Fixpoint rotated (E : Extern) (step : Q) (k : nat) (base_pose : Isometry3d) : Isometry3d :=
  match k with
  | O => base_pose
  | S k' => rotated E step k' (iso_rotate base_pose (AngleAxisY E step))
  end.

(** The first pose of the face stage on the sample cube, and the
    configuration that runs the face and variable-angle stages on X only. *)
Definition first_face_pose : Isometry3d :=
  nth 0 (faceGrasps (sample_extern (1 # 50)) isoIdentity sample_finger_data
                    cube_frame all_enabled [])
      isoIdentity.

Definition face_and_angle_only : GraspCandidateConfig :=
  mkConfig false true true false true false false.

(** A finger gripper with an angle resolution of 90 degrees and fingers as
    long as the sample cube is wide. *)
Definition quarter_turn_data : GraspData :=
  mkGraspData FINGER (mkIso mIdentity (mkV 0 0 (- (1 # 10)))) [[1 # 10]] [[0]]
              "world" "gripper_link"
              90 (1 # 50) (1 # 100) (1 # 100) (1 # 10)
              (1 # 10) (1 # 10) (1 # 10) (1 # 1000)
              (1 # 10) (3 # 25) (1 # 50) (1 # 100)
              0 0.

(** The candidate [addGrasp] builds for one opening percentage whose width
    computation gave [posture]. *)
Definition finger_variant (E : Extern) (gen : GraspGenerator) (grasp_pose : Isometry3d)
    (grasp_data : GraspData) (object_pose : Isometry3d) (percent_open : Q)
    (posture : JointTrajectory) : GraspCandidate :=
  mkCandidate
    (set_grasp_quality
       (set_pre_grasp_posture (new_grasp_of E gen grasp_pose grasp_data) posture)
       (scoreFingerGrasp E gen grasp_pose grasp_data object_pose percent_open))
    grasp_data object_pose.

(** The variants of a pose for the given percentages, in order, up to the
    first percentage whose width computation fails. *)
Fixpoint variants_until_failure (E : Extern) (gen : GraspGenerator)
    (grasp_pose : Isometry3d) (grasp_data : GraspData) (object_pose : Isometry3d)
    (min_finger_open_on_approach : Q) (percents : list Q) : list GraspCandidate :=
  match percents with
  | [] => []
  | percent_open :: rest =>
      match setGraspWidth E grasp_data percent_open min_finger_open_on_approach with
      | None => []
      | Some posture =>
          finger_variant E gen grasp_pose grasp_data object_pose percent_open posture
          :: variants_until_failure E gen grasp_pose grasp_data object_pose
                                    min_finger_open_on_approach rest
      end
  end.

(** A cube of side 0.1 centred at (-1, -1, -1), and the configuration that
    runs the face stage on X only. *)
Definition negative_cuboid_pose : Isometry3d := mkIso mIdentity (mkV (- (1)) (- (1)) (- (1))).

Definition faces_only : GraspCandidateConfig :=
  mkConfig false true false false true false false.

(** All three translation coordinates of a pose are negative. *)
Definition all_negative (p : Isometry3d) : bool :=
  Qltb (vx (translation p)) 0 && Qltb (vy (translation p)) 0 && Qltb (vz (translation p)) 0.

(** A candidate built by a call for the object pose [object_pose] with the
    profile [grasp_data]. *)
Definition built_for (object_pose : Isometry3d) (grasp_data : GraspData)
    (c : GraspCandidate) : Prop :=
  cuboid_pose_ c = object_pose /\ grasp_data_ c = grasp_data.

(** The candidate [addGrasp] builds for a pose with a suction gripper. *)
Definition suction_candidate (E : Extern) (gen : GraspGenerator) (grasp_pose : Isometry3d)
    (grasp_data : GraspData) (object_pose : Isometry3d) (object_size : Vector3d)
    : GraspCandidate :=
  mkCandidate
    (set_grasp_quality
       (new_grasp_of E gen grasp_pose grasp_data)
       (scoreSuctionGrasp E gen grasp_pose grasp_data object_pose object_size))
    grasp_data object_pose.

(** Every sub-score the scorer hands out is normalized to [0,1]. *)
Definition unit_scores (v : Vector3d) : Prop :=
  in_unit_interval (vx v) /\ in_unit_interval (vy v) /\ in_unit_interval (vz v).

Definition normalized_scorers (E : Extern) : Prop :=
  (forall grasp_data percent_open,
     in_unit_interval (scoreGraspWidth E grasp_data percent_open))
  /\ (forall grasp_pose ideal_pose,
        unit_scores (scoreRotationsFromDesired E grasp_pose ideal_pose))
  /\ (forall grasp_pose grasp_data object_pose dmin dmax,
        in_unit_interval (scoreDistanceToPalm E grasp_pose grasp_data object_pose dmin dmax))
  /\ (forall grasp_pose tmin tmax,
        unit_scores (scoreGraspTranslationRange E grasp_pose tmin tmax))
  /\ (forall grasp_pose ideal_pose,
        unit_scores (scoreGraspTranslationIdeal E grasp_pose ideal_pose))
  /\ (forall grasp_pose grasp_data cuboid_pose object_size,
        in_unit_interval
          (fst (scoreGraspOverhang E grasp_pose grasp_data cuboid_pose object_size))
        /\ in_unit_interval
             (snd (scoreGraspOverhang E grasp_pose grasp_data cuboid_pose object_size))).

(** The score of a candidate is in [0,1]. *)
Definition unit_quality (c : GraspCandidate) : Prop :=
  in_unit_interval (grasp_quality (grasp_ c)).

(** What [addGrasp] leaves alone in the generator. *)
Definition same_scoring_state (g g' : GraspGenerator) : Prop :=
  ideal_grasp_pose_ g' = ideal_grasp_pose_ g
  /\ grasp_score_weights_ g' = grasp_score_weights_ g
  /\ min_grasp_distance_ g' = min_grasp_distance_ g
  /\ max_grasp_distance_ g' = max_grasp_distance_ g
  /\ min_translations_ g' = min_translations_ g
  /\ max_translations_ g' = max_translations_ g.

(** ** Further notions used by the properties *)

(** A point of the cuboid frame strictly inside the cuboid. *)
Definition strictly_inside (depth width height : Q) (p : Vector3d) : Prop :=
  (- depth / 2 < vx p /\ vx p < depth / 2)
  /\ (- width / 2 < vy p /\ vy p < width / 2)
  /\ (- height / 2 < vz p /\ vz p < height / 2).

(** The two ends of the segment [graspIntersectionHelper] tests, in the
    frame of the cuboid: the grasp point and the fingertip at maximum
    depth. *)
Definition segment_start (cuboid_pose grasp_pose : Isometry3d) : Vector3d :=
  iso_apply (iso_inverse cuboid_pose) (translation grasp_pose).

Definition segment_end (cuboid_pose grasp_pose : Isometry3d) (grasp_data : GraspData)
    : Vector3d :=
  iso_apply (iso_inverse cuboid_pose)
            (vadd (translation grasp_pose)
                  (vscale (grasp_max_depth_ grasp_data) (mvec (rotation grasp_pose) UnitZ))).

(** The test of one face plane, the outputs dropped: the plane is at
    [num / den] along the segment. *)
Definition crosses_plane (num den u1 v1 u2 v2 a b : Q) : bool :=
  fst (intersectionAt num den u1 v1 u2 v2 a b (0, 0)).

(** A coordinate beyond one of the two face planes of an axis of extent
    [extent]. *)
Definition beyond (extent x : Q) : Prop := x < - extent / 2 \/ extent / 2 < x.

(** A point of the cuboid frame strictly outside the cuboid along some
    axis. *)
Definition strictly_outside (depth width height : Q) (p : Vector3d) : Prop :=
  beyond depth (vx p) \/ beyond width (vy p) \/ beyond height (vz p).

(** The parameter at which the coordinate, going from [a] to [b], leaves
    the extent; 2 (past the end of the segment) when it does not. *)
Definition exit_time (extent a b : Q) : Q :=
  if Qltb (extent / 2) b then (extent / 2 - a) / (b - a)
  else if Qltb b (- extent / 2) then (- extent / 2 - a) / (b - a)
  else 2.

(** A coordinate strictly within the extent of its axis. *)
Definition within (extent x : Q) : Prop := - extent / 2 < x /\ x < extent / 2.

(** The six face tests on a segment from [pa] to [pb] given in the frame of
    the cuboid, in the order the code tries them. *)
Definition faces_crossed (depth width height : Q) (pa pb : Vector3d) : bool :=
  crosses_plane (height / 2 - vz pa) (vz pb - vz pa)
                (vx pa) (vy pa) (vx pb) (vy pb) depth width
  || crosses_plane (- height / 2 - vz pa) (vz pb - vz pa)
                   (vx pa) (vy pa) (vx pb) (vy pb) depth width
  || crosses_plane (width / 2 - vy pa) (vy pb - vy pa)
                   (vx pa) (vz pa) (vx pb) (vz pb) depth height
  || crosses_plane (- width / 2 - vy pa) (vy pb - vy pa)
                   (vx pa) (vz pa) (vx pb) (vz pb) depth height
  || crosses_plane (depth / 2 - vx pa) (vx pb - vx pa)
                   (vy pa) (vz pa) (vy pb) (vz pb) width height
  || crosses_plane (- depth / 2 - vx pa) (vx pb - vx pa)
                   (vy pa) (vz pa) (vy pb) (vz pb) width height.

(** A finger gripper whose maximum grasp depth is zero. *)
Definition flat_finger_data : GraspData :=
  mkGraspData FINGER (mkIso mIdentity (mkV 0 0 (- (1 # 10)))) [[1 # 10]] [[0]]
              "world" "gripper_link"
              30 (1 # 50) (1 # 100) 0 0
              (1 # 10) (1 # 10) (1 # 10) (1 # 1000)
              (1 # 10) (3 # 25) (1 # 50) (1 # 100)
              0 0.

(** Two vectors with equal coordinates. *)
Definition veq (a b : Vector3d) : Prop :=
  vx a == vx b /\ vy a == vy b /\ vz a == vz b.

(** [n] as a double. *)
Definition of_nat (n : nat) : Q := inject_Z (Z.of_nat n).

(** [cfg] with its variable-angle flag replaced. *)
Definition set_enable_variable_angle_grasps (c : GraspCandidateConfig) (b : bool) :=
  mkConfig (enable_corner_grasps_ c) (enable_face_grasps_ c) b (enable_edge_grasps_ c)
           (generate_x_axis_grasps_ c) (generate_y_axis_grasps_ c)
           (generate_z_axis_grasps_ c).


(** No pose-generating strategy is enabled. *)
Definition nothing_enabled : GraspCandidateConfig :=
  mkConfig false false true false true true true.

(** The bounds [b] enclose the poses [poses] of a cuboid at [cuboid_pose],
    and each of them is the value of some pose unless it is still the value
    the min/max loop starts from. *)
Definition bounds_enclose (E : Extern) (cuboid_pose : Isometry3d)
    (poses : list Isometry3d) (dmin dmax : Q) (tmin tmax : Vector3d) : Prop :=
  let dist p := norm E (vsub (translation p) (translation cuboid_pose)) in
  (forall p, In p poses ->
     (dmin <= dist p /\ dist p <= dmax)
     /\ forall j, vnth tmin j <= vnth (translation p) j
                  /\ vnth (translation p) j <= vnth tmax j)
  /\ (dmin = DBL_MAX \/ exists p, In p poses /\ dmin = dist p)
  /\ (dmax = DBL_MIN \/ exists p, In p poses /\ dmax = dist p)
  /\ (forall j, vnth tmin j = DBL_MAX
                \/ exists p, In p poses /\ vnth tmin j = vnth (translation p) j)
  /\ (forall j, vnth tmax j = DBL_MIN
                \/ exists p, In p poses /\ vnth tmax j = vnth (translation p) j).

(** How many of the width percentages 1.0, 0.5, 0.0, tried in that order,
    succeed before the first failure. *)
Definition width_variants (E : Extern) (grasp_data : GraspData)
    (min_finger_open_on_approach : Q) : nat :=
  match setGraspWidth E grasp_data 1 min_finger_open_on_approach with
  | None => 0
  | Some _ =>
      match setGraspWidth E grasp_data (1 # 2) min_finger_open_on_approach with
      | None => 1
      | Some _ =>
          match setGraspWidth E grasp_data 0 min_finger_open_on_approach with
          | None => 2
          | Some _ => 3
          end
      end
  end.

(** The pose a candidate holds. *)
Definition candidate_pose (c : GraspCandidate) : Isometry3d := grasp_pose (grasp_ c).

(** The number of the name of a candidate's grasp. *)
Definition candidate_id (c : GraspCandidate) : Z := id (grasp_ c).


(** ** Approach and retreat waypoints *)

(** [geometry_msgs::PoseStamped] without its time stamp; [pose] keeps the
    isometry that [tf::poseEigenToMsg] stores and [tf::poseMsgToEigen] reads
    back. *)
Record PoseStamped := mkPoseStamped {
  header_frame_id : string;
  pose : Isometry3d
}.

(** [getPreGraspDirection]: the approach direction of the grasp, turned by
    the orientation of the grasp pose when it is given in the frame of
    [ee_parent_link]. *)
Definition getPreGraspDirection (grasp : Grasp) (ee_parent_link : string) : Vector3d :=
  let grasp_pose_eigen := grasp_pose grasp in
  let pre_grasp_approach_direction := direction_vector (pre_grasp_approach grasp) in
  if String.eqb (direction_frame_id (pre_grasp_approach grasp)) ee_parent_link
  then mvec (rotation grasp_pose_eigen) pre_grasp_approach_direction
  else pre_grasp_approach_direction.

(** [getPreGraspPose]: the grasp pose moved back along the approach
    direction by the desired approach distance, under the header of the grasp
    pose. *)
Definition getPreGraspPose (grasp_candidate : GraspCandidate) (ee_parent_link : string)
    : PoseStamped :=
  let grasp_pose_eigen := grasp_pose (grasp_ grasp_candidate) in
  let pre_grasp_pose_eigen := grasp_pose_eigen in
  let pre_grasp_approach_direction_local :=
    getPreGraspDirection (grasp_ grasp_candidate) ee_parent_link in
  let pre_grasp_pose_eigen :=
    set_translation pre_grasp_pose_eigen
      (vsub (translation pre_grasp_pose_eigen)
            (vscale (desired_distance (pre_grasp_approach (grasp_ grasp_candidate)))
                    pre_grasp_approach_direction_local)) in
  mkPoseStamped (grasp_pose_frame_id (grasp_ grasp_candidate)) pre_grasp_pose_eigen.

(** [getGraspWaypoints]: the vector is cleared and filled with the pre-grasp
    pose, the grasp pose, the lifted grasp pose and the retreat pose. *)
Definition getGraspWaypoints (E : Extern) (grasp_candidate : GraspCandidate)
    : list Isometry3d :=
  let grasp_pose := grasp_pose (grasp_ grasp_candidate) in
  let pregrasp_pose_msg :=
    getPreGraspPose grasp_candidate (parent_link_name (grasp_data_ grasp_candidate)) in
  let pregrasp_pose := pose pregrasp_pose_msg in
  let lifted_grasp_pose :=
    set_translation grasp_pose
      (mkV (vx (translation grasp_pose)) (vy (translation grasp_pose))
           (vz (translation grasp_pose)
            + lift_distance_desired_ (grasp_data_ grasp_candidate))) in
  (* solve for post grasp retreat *)
  let retreat_pose := lifted_grasp_pose in
  let postgrasp_vector :=
    normalized E (direction_vector (post_grasp_retreat (grasp_ grasp_candidate))) in
  let retreat_pose :=
    add_translation retreat_pose
      (vscale (desired_distance (post_grasp_retreat (grasp_ grasp_candidate)))
              (mvec (rotation retreat_pose) postgrasp_vector)) in
  [pregrasp_pose; grasp_pose; lifted_grasp_pose; retreat_pose].

(** The generator with its score weights replaced. *)
Definition with_weights (g : GraspGenerator) (w : GraspScoreWeights) : GraspGenerator :=
  mkGen (ideal_grasp_pose_ g) w (min_grasp_distance_ g) (max_grasp_distance_ g)
        (min_translations_ g) (max_translations_ g) (grasp_id g).

(** Every weight multiplied by [k]. *)
Definition scale_weights (k : Q) (w : GraspScoreWeights) : GraspScoreWeights :=
  mkWeights (k * orientation_x_score_weight_ w) (k * orientation_y_score_weight_ w)
            (k * orientation_z_score_weight_ w) (k * translation_x_score_weight_ w)
            (k * translation_y_score_weight_ w) (k * translation_z_score_weight_ w)
            (k * depth_score_weight_ w) (k * width_score_weight_ w)
            (k * overhang_score_weight_ w).

(** The sum of a list of weights. *)
Definition total_weight (ws : list Q) : Q := fold_right Qplus 0 ws.

(** A finger gripper whose widest opening is below its narrowest one: no
    width can be set. *)
Definition jammed_finger_data : GraspData :=
  mkGraspData FINGER (mkIso mIdentity (mkV 0 0 (- (1 # 10)))) [[1 # 10]] [[0]]
              "world" "gripper_link"
              30 (1 # 50) (1 # 100) (1 # 100) (1 # 50)
              (1 # 10) (1 # 10) (1 # 10) (1 # 1000)
              (1 # 10) (1 # 100) (1 # 50) (1 # 100)
              0 0.

(** Corner and edge grasps off, the rest on. *)
Definition faces_and_angles : GraspCandidateConfig :=
  mkConfig false true true false true true true.

(** A suction gripper with an angle resolution of zero degrees. *)
Definition zero_resolution_suction_data : GraspData :=
  mkGraspData SUCTION (mkIso mIdentity (mkV 0 0 (- (1 # 10)))) [] []
              "world" "suction_link"
              0 (1 # 50) (1 # 100) (1 # 100) (1 # 100)
              (1 # 10) (1 # 10) (1 # 10) 0
              0 0 0 0
              (1 # 20) (1 # 20).
(** * Properties *)

(** ** Comparisons *)

Lemma Qleb_iff (x y : Q) : Qleb x y = true <-> x <= y.
Proof. unfold Qleb. apply Qle_bool_iff. Qed.

Lemma Qltb_iff (x y : Q) : Qltb x y = true <-> x < y.
Proof.
  unfold Qltb. rewrite negb_true_iff.
  split; intro H.
  - apply Qnot_le_lt. intro Hle. apply Qle_bool_iff in Hle. congruence.
  - destruct (Qle_bool y x) eqn:Hb; [|reflexivity].
    apply Qle_bool_iff in Hb. exfalso. exact (Qlt_not_le _ _ H Hb).
Qed.

Lemma Qltb_false_iff (x y : Q) : Qltb x y = false <-> y <= x.
Proof.
  split; intro H.
  - destruct (Qlt_le_dec x y) as [Hlt|Hle]; [|exact Hle].
    apply Qltb_iff in Hlt. congruence.
  - destruct (Qltb x y) eqn:Hb; [|reflexivity].
    apply Qltb_iff in Hb. exfalso. exact (Qlt_not_le _ _ Hb H).
Qed.


(** ** Geometry primitives *)

Lemma intersectionHelper_finite (t u1 v1 u2 v2 a b : Q) (uv : Q * Q) :
  (fst (intersectionHelper t u1 v1 u2 v2 a b uv) = true <->
     (0 <= t /\ t <= 1) /\
     (- a / 2 <= fst (interpolated t u1 v1 u2 v2) /\
      fst (interpolated t u1 v1 u2 v2) <= a / 2) /\
     (- b / 2 <= snd (interpolated t u1 v1 u2 v2) /\
      snd (interpolated t u1 v1 u2 v2) <= b / 2))
  /\
  (fst (intersectionHelper t u1 v1 u2 v2 a b uv) = true ->
     snd (intersectionHelper t u1 v1 u2 v2 a b uv) = interpolated t u1 v1 u2 v2).
Proof.
  unfold intersectionHelper, interpolated; cbn [fst snd].
  destruct (Qleb 0 t) eqn:H0; destruct (Qleb t 1) eqn:H1; cbn [andb fst snd];
    try (split; [split; [discriminate | intros [[Ha Hb] _]] | discriminate];
         apply Qleb_iff in Ha; apply Qleb_iff in Hb; congruence).
  destruct (Qleb (- a / 2) (u1 + t * (u2 - u1))) eqn:Hu1;
  destruct (Qleb (u1 + t * (u2 - u1)) (a / 2)) eqn:Hu2;
  destruct (Qleb (- b / 2) (v1 + t * (v2 - v1))) eqn:Hv1;
  destruct (Qleb (v1 + t * (v2 - v1)) (b / 2)) eqn:Hv2;
  cbn [andb fst snd];
  try (split; [split; [discriminate | intros [_ [[Ha Hb] [Hc Hd]]]] | discriminate];
       apply Qleb_iff in Ha; apply Qleb_iff in Hb;
       apply Qleb_iff in Hc; apply Qleb_iff in Hd; congruence).
  apply Qleb_iff in H0, H1, Hu1, Hu2, Hv1, Hv2.
  split; [split; [intros _; tauto | reflexivity] | reflexivity].
Qed.

(** C2. [intersectionHelper] returns true exactly when [t] is in [0,1] and the
    interpolated point has its first coordinate in [-a/2, a/2] and its second
    in [-b/2, b/2]; when it returns true the outputs [u], [v] are that
    point; and on the non-finite [t] of a division by zero it returns false
    and leaves the outputs alone. *)
Theorem intersectionHelper_spec (t u1 v1 u2 v2 a b : Q) (uv : Q * Q) :
  (fst (intersectionHelper t u1 v1 u2 v2 a b uv) = true <->
     (0 <= t /\ t <= 1) /\
     (- a / 2 <= fst (interpolated t u1 v1 u2 v2) /\
      fst (interpolated t u1 v1 u2 v2) <= a / 2) /\
     (- b / 2 <= snd (interpolated t u1 v1 u2 v2) /\
      snd (interpolated t u1 v1 u2 v2) <= b / 2))
  /\
  (fst (intersectionHelper t u1 v1 u2 v2 a b uv) = true ->
     snd (intersectionHelper t u1 v1 u2 v2 a b uv) = interpolated t u1 v1 u2 v2)
  /\
  (forall num, intersectionAt num 0 u1 v1 u2 v2 a b uv = (false, uv)).
Proof.
  destruct (intersectionHelper_finite t u1 v1 u2 v2 a b uv) as [H1 H2].
  split; [exact H1|]. split; [exact H2|]. reflexivity.
Qed.

(** ** Grasp scorer *)

Lemma accumulate_from (ws ss : list Q) (t h : Q) :
  let r := fold_left (fun acc p => (fst acc + fst p * snd p, snd acc + fst p))
                     (combine ws ss) (t, h) in
  fst r == t + sum_weighted ws ss /\ snd r == h + sum_weights ws ss.
Proof.
  revert ss t h. induction ws as [|w ws IH]; intros [|s ss] t h; cbn;
    try (split; ring).
  destruct (IH ss (t + w * s) (h + w)) as [H1 H2]. cbn in H1, H2.
  rewrite H1, H2. split; ring.
Qed.

Lemma weighted_score_average (ws ss : list Q) :
  weighted_score ws ss == weighted_average ws ss.
Proof.
  unfold weighted_score, weighted_average, accumulate_scores.
  destruct (accumulate_from ws ss 0 0) as [H1 H2]. cbn zeta in H1, H2.
  destruct (fold_left _ (combine ws ss) (0, 0)) as [t h]. cbn [fst snd] in H1, H2.
  rewrite H1, H2, !Qplus_0_l. reflexivity.
Qed.

Lemma sum_weighted_bounds (ws ss : list Q) :
  Forall non_negative ws -> Forall in_unit_interval ss ->
  0 <= sum_weighted ws ss /\ sum_weighted ws ss <= sum_weights ws ss.
Proof.
  intros Hw. revert ss. induction Hw as [|w ws Hw0 Hws IH]; intros ss Hs.
  - cbn. split; apply Qle_refl.
  - destruct Hs as [|s ss [Hs0 Hs1] Hss]; cbn.
    + split; apply Qle_refl.
    + destruct (IH ss Hss) as [H1 H2]. unfold non_negative in Hw0.
      split; nra.
Qed.

Lemma sum_weights_pos (ws ss : list Q) :
  List.length ws = List.length ss ->
  Forall non_negative ws -> Exists non_zero ws -> 0 < sum_weights ws ss.
Proof.
  intros Hlen Hw. revert ss Hlen.
  induction Hw as [|w ws Hw0 Hws IH]; intros ss Hlen Hex.
  - inversion Hex.
  - destruct ss as [|s ss]; [discriminate|]. cbn.
    assert (Hge : 0 <= sum_weights ws ss).
    { clear - Hws. revert ss. induction Hws as [|w' ws' Hw' _ IH']; intros [|s' ss'];
        cbn; try apply Qle_refl.
      specialize (IH' ss'). unfold non_negative in Hw'. lra. }
    unfold non_negative in Hw0.
    inversion Hex as [? ? Hnz | ? ? Hex']; subst.
    + unfold non_zero in Hnz.
      assert (0 < w) by (apply Qle_lteq in Hw0; destruct Hw0 as [|Heq];
                         [assumption | exfalso; apply Hnz; symmetry; exact Heq]).
      lra.
    + injection Hlen as Hlen. specialize (IH ss Hlen Hex'). lra.
Qed.

Lemma weighted_score_unit (ws ss : list Q) :
  List.length ws = List.length ss ->
  Forall non_negative ws -> Exists non_zero ws -> Forall in_unit_interval ss ->
  in_unit_interval (weighted_score ws ss).
Proof.
  intros Hlen Hw Hex Hs. unfold in_unit_interval.
  rewrite weighted_score_average. unfold weighted_average.
  pose proof (sum_weights_pos ws ss Hlen Hw Hex) as Hpos.
  destruct (sum_weighted_bounds ws ss Hw Hs) as [H0 H1].
  split.
  - apply Qle_shift_div_l; [exact Hpos | lra].
  - apply Qle_shift_div_r; [exact Hpos | lra].
Qed.

(** ** Pose enumerator: the helpers *)



Lemma translate_loop_rotation (n : nat) (delta : Vector3d) (p : Isometry3d) :
  Forall (fun q => rotation q = rotation p) (translate_loop n delta p).
Proof.
  revert p. induction n as [|n IH]; intros p; cbn; constructor.
  - reflexivity.
  - exact (IH (add_translation p delta)).
Qed.




(** ** Corner stage *)

Lemma M_PI_pos : 0 < M_PI.
Proof. reflexivity. Qed.





Lemma to_size_t_small (z : Z) : (0 <= z < 2 ^ 64)%Z -> to_size_t z = z.
Proof. intros H. unfold to_size_t, SIZE_MOD. apply Z.mod_small. exact H. Qed.


Lemma alignedPose_translation (E : Extern) (pose : Isometry3d) (ra : Q * Q * Q) (al : Q) :
  translation (alignedPose E pose ra al) = translation pose.
Proof. destruct ra as [[ra0 ra1] ra2]. reflexivity. Qed.






(** ** Variable-angle stage *)

Section Sweep.
Variable E : Extern.
Variables (cuboid_pose : Isometry3d) (depth width height : Q) (grasp_data : GraspData).
Variable step : Q.

Let test (p : Isometry3d) : bool :=
  graspIntersectionHelper cuboid_pose depth width height p grasp_data.


Lemma sweep_loop_all_intersect (runs : nat) (max_iterations iterations : Z) (p : Isometry3d) :
  Forall (fun q => test q = true)
         (sweep_loop E runs cuboid_pose depth width height grasp_data step
                     max_iterations iterations p).
Proof.
  revert iterations p. induction runs as [|k IH]; intros it p; cbn; [constructor|].
  destruct (graspIntersectionHelper _ _ _ _ p _) eqn:Ht; [|constructor].
  destruct (it + 1 >? max_iterations)%Z.
  - constructor; [exact Ht | constructor].
  - constructor; [exact Ht | apply IH].
Qed.

Lemma sweep_loop_rotations (runs : nat) (max_iterations iterations : Z) (p : Isometry3d) :
  let l := sweep_loop E runs cuboid_pose depth width height grasp_data step
                      max_iterations iterations p in
  l = map (fun k => rotated E step k p) (seq 0 (List.length l)).
Proof.
  revert iterations p. induction runs as [|k IH]; intros it p; cbn; [reflexivity|].
  destruct (graspIntersectionHelper _ _ _ _ p _); [|reflexivity].
  destruct (it + 1 >? max_iterations)%Z; [reflexivity|].
  cbn. f_equal. rewrite <- seq_shift, map_map. cbn.
  exact (IH (it + 1)%Z (iso_rotate p (AngleAxisY E step))).
Qed.

(** Below the cap the loop ends on a pose whose segment crosses no face. *)
Lemma sweep_loop_stops (runs : nat) (max_iterations iterations : Z) (p : Isometry3d) :
  (Z.of_nat runs + iterations = max_iterations + 1)%Z ->
  let l := sweep_loop E runs cuboid_pose depth width height grasp_data step
                      max_iterations iterations p in
  (List.length l < runs)%nat -> test (rotated E step (List.length l) p) = false.
Proof.
  revert iterations p. induction runs as [|k IH]; intros it p Hinv; cbn; [lia|].
  destruct (graspIntersectionHelper _ _ _ _ p _) eqn:Ht; [|intros _; exact Ht].
  destruct (Z.gtb_spec (it + 1) max_iterations) as [Hgt|Hle]; cbn; [lia|].
  intros Hlen. apply IH; lia.
Qed.
End Sweep.

(** C3, as the code has it.  For every base pose and either direction, the
    poses the sweep adds are the successive rotations of the base pose, and
    the segment of every added pose crosses a face of the cuboid; short of
    the cap, the sweep stops at the first rotation whose segment crosses no
    face, and that pose is not added.  Every pose the variable-angle stage
    adds is one whose segment crosses a face. *)
Theorem sweep_keeps_crossing_poses (E : Extern) (cuboid_pose : Isometry3d)
    (depth width height : Q) (grasp_data : GraspData) (step : Q) (base_pose : Isometry3d) :
  let crosses p := graspIntersectionHelper cuboid_pose depth width height p grasp_data in
  let added := sweepDirection E cuboid_pose depth width height grasp_data step base_pose in
  added = map (fun k => rotated E step (S k) base_pose) (seq 0 (List.length added))
  /\ Forall (fun p => crosses p = true) added
  /\ ((List.length added < S (Z.to_nat (max_iterations_of (angle_res_of grasp_data))))%nat ->
      crosses (rotated E step (S (List.length added)) base_pose) = false)
  /\ (forall cfg num_corner_grasps grasp_poses,
        exists new_poses,
          variableAngleGrasps E cuboid_pose depth width height grasp_data cfg
                              num_corner_grasps grasp_poses
          = grasp_poses ++ new_poses
          /\ Forall (fun p => crosses p = true) new_poses).
Proof.
  cbv zeta. unfold sweepDirection. repeat split.
  - apply sweep_loop_rotations.
  - apply sweep_loop_all_intersect.
  - intros Hlen. apply (sweep_loop_stops E cuboid_pose depth width height grasp_data step
                          _ _ 0 (iso_rotate base_pose (AngleAxisY E step))); [|exact Hlen].
    assert (0 <= max_iterations_of (angle_res_of grasp_data))%Z.
    { unfold max_iterations_of, double_to_size_t, to_size_t, SIZE_MOD.
      apply Z.mod_pos_bound. reflexivity. }
    lia.
  - intros cfg n poses. unfold variableAngleGrasps.
    destruct (enable_variable_angle_grasps_ cfg).
    + eexists. split; [reflexivity|].
      apply Forall_flat_map. apply Forall_forall. intros b _.
      apply Forall_app. split; apply sweep_loop_all_intersect.
    + exists []. split; [now rewrite app_nil_r | constructor].
Qed.

(** Every later stage keeps the poses it finds. *)
Lemma variableAngleGrasps_keeps (E : Extern) cuboid_pose depth width height grasp_data cfg n
    (l : list Isometry3d) (p : Isometry3d) :
  In p l -> In p (variableAngleGrasps E cuboid_pose depth width height grasp_data cfg n l).
Proof.
  intros H. unfold variableAngleGrasps.
  destruct (enable_variable_angle_grasps_ cfg); [apply in_or_app; now left | exact H].
Qed.

Lemma edgeGrasps_keeps (E : Extern) cuboid_pose grasp_data axis fr cfg
    (l : list Isometry3d) (p : Isometry3d) :
  In p l -> In p (edgeGrasps E cuboid_pose grasp_data axis fr cfg l).
Proof.
  intros H. unfold edgeGrasps. cbv zeta.
  destruct (enable_edge_grasps_ cfg); [|exact H].
  destruct axis; cbv beta iota; unfold addEdgeGraspsHelper;
    repeat (apply in_or_app; left); exact H.
Qed.

Lemma depthGrasps_keeps (grasp_data : GraspData) (l : list Isometry3d) (p : Isometry3d) :
  In p l -> In p (depthGrasps grasp_data l).
Proof. intros H. unfold depthGrasps. apply in_or_app. now left. Qed.

Lemma bidirectionalGrasps_keeps (E : Extern) (l : list Isometry3d) (p : Isometry3d) :
  In p l -> In p (bidirectionalGrasps E l).
Proof. intros H. unfold bidirectionalGrasps. apply in_or_app. now left. Qed.

(** A pose added by the forward sweep of a base pose is in the pose set of
    [generateCuboidAxisGrasps]. *)
Lemma sweep_pose_in_pose_set (E : Extern) (cuboid_pose : Isometry3d)
    (depth width height : Q) (axis : grasp_axis_t) (grasp_data : GraspData)
    (cfg : GraspCandidateConfig) (base_pose p : Isometry3d) :
  enable_variable_angle_grasps_ cfg = true ->
  In base_pose
     (skipn (List.length
               (cornerGrasps E cuboid_pose grasp_data
                             (axisFrame E cuboid_pose depth width height axis) cfg []))
            (faceGrasps E cuboid_pose grasp_data
                        (axisFrame E cuboid_pose depth width height axis) cfg
                        (cornerGrasps E cuboid_pose grasp_data
                                      (axisFrame E cuboid_pose depth width height axis)
                                      cfg []))) ->
  In p (sweepDirection E cuboid_pose depth width height grasp_data
                       (angle_res_of grasp_data) base_pose) ->
  In p (cuboidAxisPoses E cuboid_pose depth width height axis grasp_data cfg).
Proof.
  intros Hen Hbase Hp. unfold cuboidAxisPoses. cbv zeta.
  apply bidirectionalGrasps_keeps, depthGrasps_keeps, edgeGrasps_keeps.
  unfold variableAngleGrasps. rewrite Hen.
  apply in_or_app. right. apply in_flat_map.
  exists base_pose. split; [exact Hbase|].
  apply in_or_app. left. exact Hp.
Qed.

Lemma hd_error_In {A : Type} (l : list A) (x : A) : hd_error l = Some x -> In x l.
Proof. destruct l as [|y l]; cbn; [discriminate | intros [= ->]; now left]. Qed.

(** C3, as stated, fails.  On the sample cube the first face pose, turned
    once by the angle resolution, has a segment that crosses a face of the
    cuboid; it is the first pose its sweep adds, and it is in the pose set
    of [generateCuboidAxisGrasps]. *)
Lemma sweep_adds_crossing_pose_counterexample :
  graspIntersectionHelper isoIdentity (1 # 10) (1 # 10) (1 # 10)
    (iso_rotate first_face_pose
                (AngleAxisY (sample_extern (1 # 50)) (angle_res_of sample_finger_data)))
    sample_finger_data
    = true
  /\ hd_error (sweepDirection (sample_extern (1 # 50)) isoIdentity
                              (1 # 10) (1 # 10) (1 # 10) sample_finger_data
                              (angle_res_of sample_finger_data) first_face_pose)
     = Some (iso_rotate first_face_pose
                        (AngleAxisY (sample_extern (1 # 50))
                                    (angle_res_of sample_finger_data)))
  /\ In (iso_rotate first_face_pose
                    (AngleAxisY (sample_extern (1 # 50)) (angle_res_of sample_finger_data)))
        (cuboidAxisPoses (sample_extern (1 # 50)) isoIdentity (1 # 10) (1 # 10) (1 # 10)
                         X_AXIS sample_finger_data face_and_angle_only).
Proof.
  assert (Hhd : hd_error (sweepDirection (sample_extern (1 # 50)) isoIdentity
                            (1 # 10) (1 # 10) (1 # 10) sample_finger_data
                            (angle_res_of sample_finger_data) first_face_pose)
                = Some (iso_rotate first_face_pose
                          (AngleAxisY (sample_extern (1 # 50))
                                      (angle_res_of sample_finger_data))))
    by (vm_compute; reflexivity).
  assert (Hbase :
    In first_face_pose
     (skipn (List.length
               (cornerGrasps (sample_extern (1 # 50)) isoIdentity sample_finger_data
                  (axisFrame (sample_extern (1 # 50)) isoIdentity
                             (1 # 10) (1 # 10) (1 # 10) X_AXIS)
                  face_and_angle_only []))
            (faceGrasps (sample_extern (1 # 50)) isoIdentity sample_finger_data
               (axisFrame (sample_extern (1 # 50)) isoIdentity
                          (1 # 10) (1 # 10) (1 # 10) X_AXIS)
               face_and_angle_only
               (cornerGrasps (sample_extern (1 # 50)) isoIdentity sample_finger_data
                  (axisFrame (sample_extern (1 # 50)) isoIdentity
                             (1 # 10) (1 # 10) (1 # 10) X_AXIS)
                  face_and_angle_only []))))
    by (vm_compute; left; reflexivity).
  split; [vm_compute; reflexivity|]. split; [exact Hhd|].
  exact (sweep_pose_in_pose_set (sample_extern (1 # 50)) isoIdentity
           (1 # 10) (1 # 10) (1 # 10) X_AXIS sample_finger_data face_and_angle_only
           first_face_pose _ eq_refl Hbase (hd_error_In _ _ Hhd)).
Qed.

(** ** The iteration cap of the sweep *)

Lemma Qfloor_unique (x : Q) (z : Z) :
  inject_Z z <= x -> x < inject_Z (z + 1) -> Qfloor x = z.
Proof.
  intros Hle Hlt.
  pose proof (Qfloor_le x) as H1. pose proof (Qlt_floor x) as H2.
  assert (Ha : inject_Z z < inject_Z (Qfloor x + 1)) by lra.
  assert (Hb : inject_Z (Qfloor x) < inject_Z (z + 1)) by lra.
  rewrite <- Zlt_Qlt in Ha, Hb. lia.
Qed.








(** ** Candidate assembler *)

Lemma variants_share_pose (E : Extern) (gen : GraspGenerator) (grasp_pose0 : Isometry3d)
    (grasp_data : GraspData) (object_pose : Isometry3d) (min_open : Q) (percents : list Q) :
  Forall (fun c => grasp_pose (grasp_ c)
                   = iso_mul grasp_pose0 (grasp_pose_to_eef_pose_ grasp_data))
         (variants_until_failure E gen grasp_pose0 grasp_data object_pose min_open percents).
Proof.
  induction percents as [|p ps IH]; cbn; [constructor|].
  destruct (setGraspWidth E grasp_data p min_open); constructor; [reflexivity | exact IH].
Qed.


Lemma addGrasp_finger_result (E : Extern) (gen : GraspGenerator)
    (grasp_pose0 : Isometry3d) (grasp_data : GraspData) (cands : list GraspCandidate)
    (object_pose : Isometry3d) (object_size : Vector3d) (object_width0 : Q) :
  end_effector_type_ grasp_data = FINGER ->
  snd (addGrasp E gen grasp_pose0 grasp_data cands object_pose object_size object_width0)
  = cands ++ variants_until_failure E gen grasp_pose0 grasp_data object_pose
               (object_width0 + 2 * grasp_padding_on_approach_ grasp_data) [1; 1 # 2; 0].
Proof.
  intros Hfinger.
  unfold addGrasp. rewrite Hfinger. cbn [is_FINGER variants_until_failure].
  destruct (setGraspWidth E grasp_data 1 _) as [p1|]; [|now rewrite app_nil_r].
  destruct (setGraspWidth E grasp_data (1 # 2) _) as [p2|]; [|reflexivity].
  destruct (setGraspWidth E grasp_data 0 _) as [p3|]; cbn [snd];
    rewrite <- !app_assoc; reflexivity.
Qed.

Lemma addGrasp_suction_result (E : Extern) (gen : GraspGenerator)
    (grasp_pose0 : Isometry3d) (grasp_data : GraspData) (cands : list GraspCandidate)
    (object_pose : Isometry3d) (object_size : Vector3d) (object_width0 : Q) :
  end_effector_type_ grasp_data = SUCTION ->
  snd (addGrasp E gen grasp_pose0 grasp_data cands object_pose object_size object_width0)
  = cands ++ [suction_candidate E gen grasp_pose0 grasp_data object_pose object_size].
Proof. intros Hs. unfold addGrasp. rewrite Hs. reflexivity. Qed.




(** ** Face stage: the counts *)

(** The count of one direction: floor((length - finger_width) / resolution)
    + 1 for a face at least as wide as the finger, and 3 for a face narrower
    than the finger by at most one resolution. *)
Lemma num_grasps_along_wide (grasp_data : GraspData) (length_along : Q) :
  0 < grasp_resolution_ grasp_data ->
  gripper_finger_width_ grasp_data <= length_along ->
  (floor ((length_along - gripper_finger_width_ grasp_data)
          / grasp_resolution_ grasp_data) + 1 < 2 ^ 64)%Z ->
  num_grasps_along grasp_data length_along
  = (floor ((length_along - gripper_finger_width_ grasp_data)
            / grasp_resolution_ grasp_data) + 1)%Z.
Proof.
  intros Hres Hw Hsmall. unfold num_grasps_along, floor in *.
  set (q := (length_along - gripper_finger_width_ grasp_data)
            / grasp_resolution_ grasp_data) in *.
  assert (Hq : 0 <= q).
  { unfold q. apply Qle_shift_div_l; [exact Hres | lra]. }
  assert (Hf : (0 <= Qfloor q)%Z).
  { apply Qfloor_resp_le in Hq. exact Hq. }
  rewrite to_size_t_small by lia.
  destruct (Z.leb_spec (Qfloor q + 1) 0); [lia | reflexivity].
Qed.

Lemma num_grasps_along_fallback (grasp_data : GraspData) (length_along : Q) :
  0 < grasp_resolution_ grasp_data ->
  length_along < gripper_finger_width_ grasp_data ->
  gripper_finger_width_ grasp_data - grasp_resolution_ grasp_data <= length_along ->
  num_grasps_along grasp_data length_along = 3%Z.
Proof.
  intros Hres Hlt Hge. unfold num_grasps_along, floor.
  set (q := (length_along - gripper_finger_width_ grasp_data)
            / grasp_resolution_ grasp_data).
  assert (Hf : Qfloor q = (-1)%Z).
  { apply Qfloor_unique.
    - unfold q. apply Qle_shift_div_l; [exact Hres|].
      change (inject_Z (-1)) with (- (1)). lra.
    - unfold q. apply Qlt_shift_div_r; [exact Hres|].
      change (inject_Z (-1 + 1)) with 0. lra. }
  rewrite Hf. reflexivity.
Qed.

(** C1. On a cuboid of depth 0.055 and width 0.035 grasped across Z, with a
    finger width of 0.01 and a grasp resolution of 0.02, the count derived
    from [length_along_a] is 3 and the one derived from [length_along_b] is
    2; the face stage pushes 2 poses on every face, also on the two faces
    swept along [a] (the third and fourth and the last two poses below),
    which are spaced by the [delta_a] of three grasps and so cover only one
    half of their face. *)
Theorem face_stage_at_unequal_sides :
  num_grasps_along sample_finger_data (length_along_a unequal_box_frame) = 3%Z
  /\ num_grasps_along sample_finger_data (length_along_b unequal_box_frame) = 2%Z
  /\ map (fun p => vred (translation p))
         (faceGrasps (sample_extern (1 # 50)) isoIdentity sample_finger_data
                     unequal_box_frame all_enabled [])
     = [ mkV (- 7 # 250) (- 1 # 80) 0; mkV (- 7 # 250) (1 # 80) 0;
         mkV (9 # 400) (9 # 500) 0;    mkV 0 (9 # 500) 0;
         mkV (7 # 250) (1 # 80) 0;     mkV (7 # 250) (- 1 # 80) 0;
         mkV (- 9 # 400) (- 9 # 500) 0; mkV 0 (- 9 # 500) 0 ].
Proof. repeat split; vm_compute; reflexivity. Qed.

(** ** The bounds of the generated poses *)

Lemma addGrasp_generator (E : Extern) (gen : GraspGenerator) (p : Isometry3d)
    (grasp_data : GraspData) (cands : list GraspCandidate) (object_pose : Isometry3d)
    (object_size : Vector3d) (w : Q) :
  snd (fst (addGrasp E gen p grasp_data cands object_pose object_size w))
  = next_grasp_id gen.
Proof.
  unfold addGrasp.
  destruct (is_FINGER _).
  - destruct (setGraspWidth E grasp_data 1 _); [|reflexivity].
    destruct (setGraspWidth E grasp_data (1 # 2) _); [|reflexivity].
    destruct (setGraspWidth E grasp_data 0 _); reflexivity.
  - destruct (is_SUCTION _); reflexivity.
Qed.

Lemma addGrasps_scoring_state (E : Extern) (poses : list Isometry3d) (gen : GraspGenerator)
    (grasp_data : GraspData) (cands : list GraspCandidate) (object_pose : Isometry3d)
    (object_size : Vector3d) (w : Q) :
  same_scoring_state gen
    (fst (addGrasps E gen poses grasp_data cands object_pose object_size w)).
Proof.
  unfold addGrasps. revert gen cands.
  induction poses as [|p poses IH]; intros gen cands; cbn [fold_left fst snd].
  - repeat split.
  - pose proof (addGrasp_generator E gen p grasp_data cands object_pose object_size w) as Hg.
    destruct (addGrasp E gen p grasp_data cands object_pose object_size w) as [[r g'] c'].
    cbn [fst snd] in Hg. subst g'.
    specialize (IH (next_grasp_id gen) c').
    unfold same_scoring_state in *. cbn [next_grasp_id ideal_grasp_pose_
      grasp_score_weights_ min_grasp_distance_ max_grasp_distance_ min_translations_
      max_translations_] in IH. exact IH.
Qed.

Lemma raise_ge (x m : Q) : m <= raise x m.
Proof.
  unfold raise. destruct (Qltb m x) eqn:H; [|apply Qle_refl].
  apply Qltb_iff in H. now apply Qlt_le_weak.
Qed.

Lemma computeBounds_max_from (E : Extern) (cuboid_pose : Isometry3d)
    (poses : list Isometry3d) (b : Bounds) :
  let r := fold_left (bounds_step E cuboid_pose) poses b in
  b_max_distance b <= b_max_distance r
  /\ vx (b_max_translations b) <= vx (b_max_translations r)
  /\ vy (b_max_translations b) <= vy (b_max_translations r)
  /\ vz (b_max_translations b) <= vz (b_max_translations r).
Proof.
  revert b. induction poses as [|p poses IH]; intros b; cbn [fold_left].
  - repeat split; apply Qle_refl.
  - destruct (IH (bounds_step E cuboid_pose b p)) as (H1 & H2 & H3 & H4).
    cbn [bounds_step b_max_distance b_max_translations vx vy vz] in *.
    repeat split; (eapply Qle_trans; [apply raise_ge|]); eassumption.
Qed.

(** The maxima [generateCuboidAxisGrasps] stores are never below
    [DBL_MIN], which is positive. *)
Lemma stored_maxima_at_least_DBL_MIN (E : Extern) (gen : GraspGenerator)
    (cuboid_pose : Isometry3d) (depth width height : Q) (axis : grasp_axis_t)
    (grasp_data : GraspData) (cfg : GraspCandidateConfig) (cands : list GraspCandidate) :
  let gen' :=
    snd (fst (generateCuboidAxisGrasps E gen cuboid_pose depth width height axis
                                       grasp_data cfg cands)) in
  0 < DBL_MIN
  /\ DBL_MIN <= max_grasp_distance_ gen'
  /\ DBL_MIN <= vx (max_translations_ gen')
  /\ DBL_MIN <= vy (max_translations_ gen')
  /\ DBL_MIN <= vz (max_translations_ gen').
Proof.
  cbv zeta. split; [reflexivity|].
  unfold generateCuboidAxisGrasps. cbv zeta.
  match goal with
  | |- context [addGrasps E ?g ?ps ?gd ?cs ?op ?os ?ow] =>
      pose proof (addGrasps_scoring_state E ps g gd cs op os ow) as Hs;
      destruct (addGrasps E g ps gd cs op os ow) as [g' c']
  end.
  cbn [fst snd] in *. destruct Hs as (_ & _ & _ & Hd & _ & Ht).
  rewrite Hd, Ht. cbn [set_bounds max_grasp_distance_ max_translations_].
  unfold computeBounds.
  match goal with
  | |- context [fold_left (bounds_step E ?cp) ?ps initial_bounds] =>
      destruct (computeBounds_max_from E cp ps initial_bounds) as (H1 & H2 & H3 & H4)
  end.
  cbn [initial_bounds b_max_distance b_max_translations vx vy vz] in *.
  repeat split; assumption.
Qed.

(** The bounds stored by [generateCuboidAxisGrasps] are those the min/max
    loop computes over the expanded pose vector. *)
Lemma generateCuboidAxisGrasps_stores_bounds (E : Extern) (gen : GraspGenerator)
    (cuboid_pose : Isometry3d) (depth width height : Q) (axis : grasp_axis_t)
    (grasp_data : GraspData) (cfg : GraspCandidateConfig) (cands : list GraspCandidate) :
  let gen' :=
    snd (fst (generateCuboidAxisGrasps E gen cuboid_pose depth width height axis
                                       grasp_data cfg cands)) in
  let b :=
    computeBounds E cuboid_pose
      (cuboidAxisPoses E cuboid_pose depth width height axis grasp_data cfg) in
  min_grasp_distance_ gen' = b_min_distance b
  /\ max_grasp_distance_ gen' = b_max_distance b
  /\ min_translations_ gen' = b_min_translations b
  /\ max_translations_ gen' = b_max_translations b.
Proof.
  cbv zeta. unfold generateCuboidAxisGrasps. cbv zeta.
  match goal with
  | |- context [addGrasps E ?g ?ps ?gd ?cs ?op ?os ?ow] =>
      pose proof (addGrasps_scoring_state E ps g gd cs op os ow) as Hs;
      destruct (addGrasps E g ps gd cs op os ow) as [g' c']
  end.
  cbn [fst snd] in *. destruct Hs as (_ & _ & H1 & H2 & H3 & H4).
  rewrite H1, H2, H3, H4. repeat split.
Qed.

(** C7.  For the sample cube centred at (-1, -1, -1) the face stage on X
    yields, after expansion, 80 poses whose translation coordinates are all
    negative; the stored per-axis maxima are [DBL_MIN], the positive value
    the loop starts from, on all three axes, while the minima are the true
    ones. *)
Theorem stored_maxima_on_negative_cuboid :
  let E := sample_extern (1 # 50) in
  let poses :=
    cuboidAxisPoses E negative_cuboid_pose (1 # 10) (1 # 10) (1 # 10) X_AXIS
                    sample_finger_data faces_only in
  let gen' :=
    snd (fst (generateCuboidAxisGrasps E sample_generator negative_cuboid_pose
                (1 # 10) (1 # 10) (1 # 10) X_AXIS sample_finger_data faces_only [])) in
  List.length poses = 80%nat
  /\ forallb all_negative poses = true
  /\ max_translations_ gen' = mkV DBL_MIN DBL_MIN DBL_MIN
  /\ vred (min_translations_ gen') = mkV (- (1)) (- 2101 # 2000) (- 2101 # 2000)
  /\ 0 < DBL_MIN.
Proof.
  cbv zeta.
  destruct (generateCuboidAxisGrasps_stores_bounds (sample_extern (1 # 50))
              sample_generator negative_cuboid_pose (1 # 10) (1 # 10) (1 # 10) X_AXIS
              sample_finger_data faces_only []) as (_ & _ & Hmin & Hmax).
  rewrite Hmin, Hmax.
  repeat split; vm_compute; reflexivity.
Qed.

(** ** The candidate vector *)

Lemma addGrasp_appends (E : Extern) (gen : GraspGenerator) (p : Isometry3d)
    (grasp_data : GraspData) (cands : list GraspCandidate) (object_pose : Isometry3d)
    (object_size : Vector3d) (w : Q) :
  exists new_cands,
    snd (addGrasp E gen p grasp_data cands object_pose object_size w) = cands ++ new_cands
    /\ Forall (built_for object_pose grasp_data) new_cands.
Proof.
  unfold addGrasp, built_for.
  destruct (is_FINGER _).
  - destruct (setGraspWidth E grasp_data 1 _);
      [|exists []; split; [now rewrite app_nil_r | constructor]].
    destruct (setGraspWidth E grasp_data (1 # 2) _);
      [|eexists [_]; split; [reflexivity | repeat constructor]].
    destruct (setGraspWidth E grasp_data 0 _).
    + eexists [_; _; _]. cbn [snd]. rewrite <- !app_assoc.
      split; [reflexivity | repeat constructor].
    + eexists [_; _]. cbn [snd]. rewrite <- !app_assoc.
      split; [reflexivity | repeat constructor].
  - destruct (is_SUCTION _).
    + eexists [_]; split; [reflexivity | repeat constructor].
    + exists []; split; [now rewrite app_nil_r | constructor].
Qed.

Lemma addGrasps_appends (E : Extern) (poses : list Isometry3d) (gen : GraspGenerator)
    (grasp_data : GraspData) (cands : list GraspCandidate) (object_pose : Isometry3d)
    (object_size : Vector3d) (w : Q) :
  exists new_cands,
    snd (addGrasps E gen poses grasp_data cands object_pose object_size w)
    = cands ++ new_cands
    /\ Forall (built_for object_pose grasp_data) new_cands.
Proof.
  unfold addGrasps. revert gen cands.
  induction poses as [|p poses IH]; intros gen cands; cbn [fold_left fst snd].
  - exists []. split; [now rewrite app_nil_r | constructor].
  - destruct (addGrasp_appends E gen p grasp_data cands object_pose object_size w)
      as (n1 & H1 & F1).
    destruct (addGrasp E gen p grasp_data cands object_pose object_size w) as [[r g'] c'].
    cbn [fst snd] in *. subst c'.
    destruct (IH g' (cands ++ n1)) as (n2 & H2 & F2).
    exists (n1 ++ n2). rewrite H2, app_assoc. split; [reflexivity|].
    apply Forall_app. split; assumption.
Qed.

Lemma generateCuboidAxisGrasps_appends (E : Extern) (gen : GraspGenerator)
    (cuboid_pose : Isometry3d) (depth width height : Q) (axis : grasp_axis_t)
    (grasp_data : GraspData) (cfg : GraspCandidateConfig) (cands : list GraspCandidate) :
  exists new_cands,
    snd (generateCuboidAxisGrasps E gen cuboid_pose depth width height axis
                                  grasp_data cfg cands) = cands ++ new_cands.
Proof.
  unfold generateCuboidAxisGrasps. cbv zeta.
  match goal with
  | |- context [addGrasps E ?g ?ps ?gd ?cs ?op ?os ?ow] =>
      destruct (addGrasps_appends E ps g gd cs op os ow) as (n & Hn & _);
      destruct (addGrasps E g ps gd cs op os ow) as [g' c']
  end.
  cbn [snd] in *. exists n. exact Hn.
Qed.

Lemma generateFingerGrasps_appends (E : Extern) (gen : GraspGenerator)
    (cuboid_pose : Isometry3d) (depth width height : Q)
    (grasp_data : GraspData) (cands : list GraspCandidate) (cfg : GraspCandidateConfig) :
  exists new_cands,
    snd (generateFingerGrasps E gen cuboid_pose depth width height grasp_data cands cfg)
    = cands ++ new_cands.
Proof.
  unfold generateFingerGrasps.
  assert (Hx : exists gx nx,
    (if generate_x_axis_grasps_ cfg then
       let '(_, g, c) :=
         generateCuboidAxisGrasps E gen cuboid_pose depth width height X_AXIS grasp_data
           (axis_config cfg (Qltb (max_grasp_width_ grasp_data) depth)) cands in (g, c)
     else (gen, cands)) = (gx, cands ++ nx)).
  { destruct (generate_x_axis_grasps_ cfg).
    - destruct (generateCuboidAxisGrasps_appends E gen cuboid_pose depth width height X_AXIS
                  grasp_data (axis_config cfg (Qltb (max_grasp_width_ grasp_data) depth))
                  cands) as (n & Hn).
      destruct (generateCuboidAxisGrasps _ _ _ _ _ _ _ _ _ _) as [[r g] c].
      cbn [snd] in Hn. subst c. now exists g, n.
    - exists gen, []. now rewrite app_nil_r. }
  destruct Hx as (gx & nx & ->).
  assert (Hy : exists gy ny,
    (if generate_y_axis_grasps_ cfg then
       let '(_, g, c) :=
         generateCuboidAxisGrasps E gx cuboid_pose depth width height Y_AXIS grasp_data
           (axis_config cfg (Qltb (max_grasp_width_ grasp_data) width)) (cands ++ nx) in (g, c)
     else (gx, cands ++ nx)) = (gy, cands ++ ny)).
  { destruct (generate_y_axis_grasps_ cfg).
    - destruct (generateCuboidAxisGrasps_appends E gx cuboid_pose depth width height Y_AXIS
                  grasp_data (axis_config cfg (Qltb (max_grasp_width_ grasp_data) width))
                  (cands ++ nx)) as (n & Hn).
      destruct (generateCuboidAxisGrasps _ _ _ _ _ _ _ _ _ _) as [[r g] c].
      cbn [snd] in Hn. subst c. exists g, (nx ++ n). now rewrite app_assoc.
    - now exists gx, nx. }
  destruct Hy as (gy & ny & ->).
  assert (Hz : exists gz nz,
    (if generate_z_axis_grasps_ cfg then
       let '(_, g, c) :=
         generateCuboidAxisGrasps E gy cuboid_pose depth width height Z_AXIS grasp_data
           (axis_config cfg (Qltb (max_grasp_width_ grasp_data) height)) (cands ++ ny) in (g, c)
     else (gy, cands ++ ny)) = (gz, cands ++ nz)).
  { destruct (generate_z_axis_grasps_ cfg).
    - destruct (generateCuboidAxisGrasps_appends E gy cuboid_pose depth width height Z_AXIS
                  grasp_data (axis_config cfg (Qltb (max_grasp_width_ grasp_data) height))
                  (cands ++ ny)) as (n & Hn).
      destruct (generateCuboidAxisGrasps _ _ _ _ _ _ _ _ _ _) as [[r g] c].
      cbn [snd] in Hn. subst c. exists g, (ny ++ n). now rewrite app_assoc.
    - now exists gy, ny. }
  destruct Hz as (gz & nz & ->).
  exists nz. reflexivity.
Qed.

(** C10.  [generateFingerGrasps] and [generateCuboidAxisGrasps] return the
    candidate vector they were given followed by new candidates;
    [generateSuctionGrasps] behaves the same on any vector as on the empty
    one, and every candidate of its result was built by that call. *)
Theorem prior_candidates_kept_or_cleared (E : Extern) (gen : GraspGenerator)
    (cuboid_pose : Isometry3d) (depth width height : Q) (grasp_data : GraspData)
    (cands : list GraspCandidate) (cfg : GraspCandidateConfig) :
  (exists new_cands,
     snd (generateFingerGrasps E gen cuboid_pose depth width height grasp_data cands cfg)
     = cands ++ new_cands)
  /\ (forall axis, exists new_cands,
        snd (generateCuboidAxisGrasps E gen cuboid_pose depth width height axis
                                      grasp_data cfg cands) = cands ++ new_cands)
  /\ generateSuctionGrasps E gen cuboid_pose depth width height grasp_data cands cfg
     = generateSuctionGrasps E gen cuboid_pose depth width height grasp_data [] cfg
  /\ (forall r g out,
        generateSuctionGrasps E gen cuboid_pose depth width height grasp_data cands cfg
        = Some (r, g, out) ->
        Forall (built_for cuboid_pose grasp_data) out).
Proof.
  split; [apply generateFingerGrasps_appends|].
  split; [intros axis; apply generateCuboidAxisGrasps_appends|].
  split; [reflexivity|].
  intros r g out. unfold generateSuctionGrasps. cbv zeta.
  destruct (suctionPoses E gen cuboid_pose depth width height grasp_data) as [poses|];
    [|discriminate].
  match goal with
  | |- context [addGrasps E ?g0 ?ps ?gd ?cs ?op ?os ?ow] =>
      destruct (addGrasps_appends E ps g0 gd cs op os ow) as (n & Hn & Fn);
      destruct (addGrasps E g0 ps gd cs op os ow) as [g' c']
  end.
  cbn [snd] in Hn. intros [= _ _ <-]. subst c'. exact Fn.
Qed.

(** ** Pose enumerator, suction grippers *)














(** ** Scores of the emitted candidates *)

Lemma fingerScores_normalized (E : Extern) (gen : GraspGenerator) (p : Isometry3d)
    (grasp_data : GraspData) (object_pose : Isometry3d) (percent_open : Q) :
  normalized_scorers E ->
  Forall in_unit_interval (fingerScores E gen p grasp_data object_pose percent_open).
Proof.
  intros (Hw & Hr & Hd & Ht & _ & _). unfold fingerScores. cbv zeta.
  destruct (Hr p (ideal_grasp_pose_ gen)) as (R1 & R2 & R3).
  destruct (Ht p (min_translations_ gen) (max_translations_ gen))
    as ([T1 T1'] & [T2 T2'] & [T3 T3']).
  repeat apply Forall_cons; try apply Forall_nil;
    try assumption; try apply Hw; try apply Hd;
    unfold in_unit_interval; cbn [vadd vscale vx vy vz]; lra.
Qed.

Lemma suctionScores_normalized (E : Extern) (gen : GraspGenerator) (p : Isometry3d)
    (grasp_data : GraspData) (cuboid_pose : Isometry3d) (object_size : Vector3d) :
  normalized_scorers E ->
  Forall in_unit_interval (suctionScores E gen p grasp_data cuboid_pose object_size).
Proof.
  intros (_ & Hr & _ & _ & Hi & Ho). unfold suctionScores. cbv zeta.
  match goal with
  | |- context [scoreRotationsFromDesired E p ?i] =>
      destruct (Hr p i) as (R1 & R2 & R3); destruct (Hi p i) as (T1 & T2 & T3)
  end.
  destruct (Ho p grasp_data cuboid_pose object_size) as (O1 & O2).
  repeat apply Forall_cons; try apply Forall_nil; assumption.
Qed.

Lemma variants_unit_quality (E : Extern) (gen : GraspGenerator) (p : Isometry3d)
    (grasp_data : GraspData) (object_pose : Isometry3d) (min_open : Q) (percents : list Q) :
  normalized_scorers E ->
  Forall non_negative (fingerWeights gen) -> Exists non_zero (fingerWeights gen) ->
  Forall unit_quality
         (variants_until_failure E gen p grasp_data object_pose min_open percents).
Proof.
  intros Hn Hw Hex. induction percents as [|q qs IH]; cbn; [constructor|].
  destruct (setGraspWidth E grasp_data q min_open); constructor; [|exact IH].
  unfold unit_quality. cbn [finger_variant grasp_ set_grasp_quality grasp_quality].
  apply weighted_score_unit; auto using fingerScores_normalized.
Qed.

(** C5.  [scoreFingerGrasp] and [scoreSuctionGrasp] return the weighted
    average of their eight sub-scores (sum of weight times sub-score over the
    sum of the weights); whenever the sub-scores are in [0,1] and the weights
    are non-negative and not all zero, the score is in [0,1]; and with a
    scorer whose sub-scores are normalized, every candidate [addGrasp] emits
    has its quality in [0,1]. *)
Theorem score_in_unit_interval (E : Extern) (gen : GraspGenerator)
    (grasp_pose0 object_pose : Isometry3d) (grasp_data : GraspData)
    (object_size : Vector3d) (percent_open : Q) :
  (scoreFingerGrasp E gen grasp_pose0 grasp_data object_pose percent_open
     == weighted_average (fingerWeights gen)
          (fingerScores E gen grasp_pose0 grasp_data object_pose percent_open)
   /\ (Forall non_negative (fingerWeights gen) ->
       Exists non_zero (fingerWeights gen) ->
       Forall in_unit_interval
              (fingerScores E gen grasp_pose0 grasp_data object_pose percent_open) ->
       in_unit_interval
         (scoreFingerGrasp E gen grasp_pose0 grasp_data object_pose percent_open)))
  /\
  (scoreSuctionGrasp E gen grasp_pose0 grasp_data object_pose object_size
     == weighted_average (suctionWeights gen)
          (suctionScores E gen grasp_pose0 grasp_data object_pose object_size)
   /\ (Forall non_negative (suctionWeights gen) ->
       Exists non_zero (suctionWeights gen) ->
       Forall in_unit_interval
              (suctionScores E gen grasp_pose0 grasp_data object_pose object_size) ->
       in_unit_interval
         (scoreSuctionGrasp E gen grasp_pose0 grasp_data object_pose object_size)))
  /\
  (normalized_scorers E ->
   Forall non_negative (fingerWeights gen) -> Exists non_zero (fingerWeights gen) ->
   Forall non_negative (suctionWeights gen) -> Exists non_zero (suctionWeights gen) ->
   forall cands object_width0,
   exists new_cands,
     snd (addGrasp E gen grasp_pose0 grasp_data cands object_pose object_size object_width0)
     = cands ++ new_cands
     /\ Forall unit_quality new_cands).
Proof.
  split; [split|split; [split|]].
  - apply weighted_score_average.
  - intros Hw Hex Hs. apply weighted_score_unit; auto.
  - apply weighted_score_average.
  - intros Hw Hex Hs. apply weighted_score_unit; auto.
  - intros Hn Hwf Hef Hws Hes cands w.
    destruct (end_effector_type_ grasp_data) eqn:Ht.
    + eexists. split; [now apply addGrasp_finger_result|].
      now apply variants_unit_quality.
    + eexists. split; [now apply addGrasp_suction_result|].
      constructor; [|constructor]. unfold unit_quality.
      cbn [suction_candidate grasp_ set_grasp_quality grasp_quality].
      apply weighted_score_unit; auto using suctionScores_normalized.
    + exists []. split; [|constructor].
      unfold addGrasp. rewrite Ht. cbn. now rewrite app_nil_r.
Qed.

Lemma clamp01_unit (x : Q) : in_unit_interval (clamp01 x).
Proof.
  unfold clamp01, in_unit_interval.
  destruct (Qltb x 0) eqn:H0; [split; lra|].
  destruct (Qltb 1 x) eqn:H1; [split; lra|].
  apply Qltb_false_iff in H0, H1. split; assumption.
Qed.

Lemma sample_position_unit (x lo hi : Q) : in_unit_interval (sample_position x lo hi).
Proof.
  unfold sample_position. destruct (fdiv _ _); [apply clamp01_unit|].
  split; lra.
Qed.

Lemma sample_scorers_normalized (r : Q) : normalized_scorers (sample_extern r).
Proof.
  unfold normalized_scorers, unit_scores. cbn.
  repeat split; intros;
    first [apply clamp01_unit | apply sample_position_unit].
Qed.

Lemma score_in_unit_interval_witness :
  Forall non_negative (fingerWeights sample_generator)
  /\ Exists non_zero (fingerWeights sample_generator)
  /\ in_unit_interval
       (scoreFingerGrasp (sample_extern (1 # 50)) sample_generator first_face_pose
                         sample_finger_data isoIdentity (1 # 2)).
Proof.
  assert (Hw : Forall non_negative (fingerWeights sample_generator)).
  { repeat constructor; apply Qle_bool_iff; reflexivity. }
  assert (Hex : Exists non_zero (fingerWeights sample_generator)).
  { constructor. intro H. discriminate H. }
  split; [exact Hw|]. split; [exact Hex|].
  destruct (score_in_unit_interval (sample_extern (1 # 50)) sample_generator
              first_face_pose isoIdentity sample_finger_data
              (mkV (1 # 10) (1 # 10) (1 # 10)) (1 # 2)) as ((_ & Hf) & _ & _).
  apply Hf; [exact Hw | exact Hex |].
  apply fingerScores_normalized, sample_scorers_normalized.
Defined.

(** ** Checks on concrete inputs *)

(** A crossing in the middle of the segment, inside the face. *)
Example intersectionHelper_hit :
  intersectionHelper (1 # 2) 0 0 1 1 2 2 (0, 0) = (true, interpolated (1 # 2) 0 0 1 1).
Proof. reflexivity. Qed.

(** A crossing beyond the end of the segment. *)
Example intersectionHelper_beyond_segment :
  fst (intersectionHelper (3 # 2) 0 0 1 1 2 2 (0, 0)) = false.
Proof. reflexivity. Qed.

(** A segment along the outside of a face of the sample cube crosses
    nothing. *)
Example graspIntersectionHelper_parallel :
  graspIntersectionHelper isoIdentity (1 # 10) (1 # 10) (1 # 10)
    (mkIso mIdentity (mkV (101 # 2000) 0 0)) sample_finger_data = false.
Proof. vm_compute. reflexivity. Qed.

(** On a cube of side 0.05 with a finger width of 0.01 and a resolution of
    0.02 a face takes floor(0.04 / 0.02) + 1 = 3 grasps. *)
Example num_grasps_along_cube :
  num_grasps_along sample_finger_data (1 # 20) = 3%Z.
Proof. vm_compute. reflexivity. Qed.

(** A face narrower than the finger by less than one resolution falls back
    to 3 grasps; a face as wide as the finger takes 1. *)
Example num_grasps_along_narrow :
  num_grasps_along sample_finger_data (1 # 200) = 3%Z
  /\ num_grasps_along sample_finger_data (1 # 100) = 1%Z.
Proof. split; vm_compute; reflexivity. Qed.

(** At an angle resolution of 90 degrees the yaw sweep of the suction
    enumerator runs over three angles: the full turn is excluded. *)
Example yaw_values_quarter_turns :
  option_map (map Qred) (yaw_values quarter_turn_data)
  = Some [Qred (M_PI / 2); Qred M_PI; Qred (3 * M_PI / 2)].
Proof. vm_compute. reflexivity. Qed.

(** A sweep with an increment of zero does not end. *)
Example range_le_zero_increment : range_le 0 1 0 = None.
Proof. vm_compute. reflexivity. Qed.

(** With an increment that is not positive, a sweep that is entered never
    leaves: the model answers [None] whatever the fuel. *)
Lemma double_range_diverges (fuel : nat) (cond : Q -> bool) (x inc hi : Q) :
  inc <= 0 ->
  (forall y, y <= hi -> cond y = true) ->
  x <= hi ->
  double_range fuel cond x inc = None.
Proof.
  intros Hinc Hcond. revert x. induction fuel as [|k IH]; intros x Hx; cbn [double_range].
  - now rewrite Hcond.
  - rewrite Hcond by exact Hx. rewrite IH by lra. reflexivity.
Qed.

Lemma range_le_diverges (lo hi inc : Q) :
  inc <= 0 -> lo <= hi -> range_le lo hi inc = None.
Proof.
  intros Hinc Hlo. unfold range_le.
  apply (double_range_diverges _ _ lo inc hi Hinc); [|exact Hlo].
  intros y Hy. now apply Qleb_iff.
Qed.

(** * Further properties *)

(** ** The box-intersection test *)

Lemma fdiv_some (x y t : Q) : fdiv x y = Some t -> ~ y == 0 /\ t * y == x.
Proof.
  unfold fdiv. destruct (Qeq_bool y 0) eqn:Hy; [discriminate|].
  intros [= <-]. apply Qeq_bool_neq in Hy. split; [exact Hy|].
  field. exact Hy.
Qed.

(** A plane that both ends of the segment lie strictly on one side of is
    not reached within the segment. *)
Lemma plane_not_reached (c ak bk u1 v1 u2 v2 a b : Q) (uv : Q * Q) :
  (ak < c /\ bk < c) \/ (c < ak /\ c < bk) ->
  intersectionAt (c - ak) (bk - ak) u1 v1 u2 v2 a b uv = (false, uv).
Proof.
  intros Hside. unfold intersectionAt.
  destruct (fdiv (c - ak) (bk - ak)) as [t|] eqn:Hdiv; [|reflexivity].
  apply fdiv_some in Hdiv. destruct Hdiv as [_ Ht].
  unfold intersectionHelper.
  destruct (Qleb 0 t) eqn:H0; [|reflexivity].
  destruct (Qleb t 1) eqn:H1; [|reflexivity].
  apply Qleb_iff in H0, H1. exfalso.
  destruct (Qlt_le_dec 0 t) as [Hpos|Hzero].
  - destruct Hside as [[Ha Hb]|[Ha Hb]].
    + assert (P1 : 0 <= (1 - t) * (c - ak)) by (apply Qmult_le_0_compat; lra).
      assert (P2 : 0 < t * (c - bk)) by (apply Qmult_lt_0_compat; lra).
      lra.
    + assert (P1 : 0 <= (1 - t) * (ak - c)) by (apply Qmult_le_0_compat; lra).
      assert (P2 : 0 < t * (bk - c)) by (apply Qmult_lt_0_compat; lra).
      lra.
  - assert (Hz : t == 0) by lra. rewrite Hz in Ht.
    destruct Hside as [[Ha Hb]|[Ha Hb]]; lra.
Qed.

(** X1. A segment whose two ends are strictly inside the cuboid crosses no
    face: [graspIntersectionHelper] returns false. *)
Theorem inside_segment_crosses_nothing (cuboid_pose : Isometry3d) (depth width height : Q)
    (grasp_pose : Isometry3d) (grasp_data : GraspData) :
  strictly_inside depth width height (segment_start cuboid_pose grasp_pose) ->
  strictly_inside depth width height (segment_end cuboid_pose grasp_pose grasp_data) ->
  graspIntersectionHelper cuboid_pose depth width height grasp_pose grasp_data = false.
Proof.
  unfold strictly_inside, segment_start, segment_end, graspIntersectionHelper.
  cbv zeta.
  set (pa := iso_apply (iso_inverse cuboid_pose) (translation grasp_pose)).
  set (pb := iso_apply (iso_inverse cuboid_pose) _).
  intros ([Ax0 Ax1] & [Ay0 Ay1] & [Az0 Az1]) ([Bx0 Bx1] & [By0 By1] & [Bz0 Bz1]).
  rewrite (plane_not_reached (height / 2)) by (left; split; assumption).
  rewrite (plane_not_reached (- height / 2)) by (right; split; assumption).
  rewrite (plane_not_reached (width / 2)) by (left; split; assumption).
  rewrite (plane_not_reached (- width / 2)) by (right; split; assumption).
  rewrite (plane_not_reached (depth / 2)) by (left; split; assumption).
  rewrite (plane_not_reached (- depth / 2)) by (right; split; assumption).
  reflexivity.
Qed.

Lemma X1_witness_inside_segment :
  strictly_inside (1 # 10) (1 # 10) (1 # 10) (segment_start isoIdentity isoIdentity)
  /\ strictly_inside (1 # 10) (1 # 10) (1 # 10)
                     (segment_end isoIdentity isoIdentity sample_finger_data)
  /\ graspIntersectionHelper isoIdentity (1 # 10) (1 # 10) (1 # 10) isoIdentity
                             sample_finger_data = false.
Proof.
  assert (H1 : strictly_inside (1 # 10) (1 # 10) (1 # 10)
                 (segment_start isoIdentity isoIdentity))
    by (repeat split; reflexivity).
  assert (H2 : strictly_inside (1 # 10) (1 # 10) (1 # 10)
                 (segment_end isoIdentity isoIdentity sample_finger_data))
    by (repeat split; reflexivity).
  split; [exact H1|]. split; [exact H2|].
  exact (inside_segment_crosses_nothing isoIdentity (1 # 10) (1 # 10) (1 # 10) isoIdentity
           sample_finger_data H1 H2).
Defined.

Lemma intersectionAt_fst (num den u1 v1 u2 v2 a b : Q) (uv : Q * Q) :
  fst (intersectionAt num den u1 v1 u2 v2 a b uv)
  = crosses_plane num den u1 v1 u2 v2 a b.
Proof.
  unfold crosses_plane, intersectionAt. destruct (fdiv num den) as [t|]; [|reflexivity].
  unfold intersectionHelper.
  destruct (Qleb 0 t && Qleb t 1); [|reflexivity].
  destruct (_ && _ && _ && _); reflexivity.
Qed.

(** The result of [graspIntersectionHelper] is the disjunction of the six
    face tests: the order in which the faces are tried and the outputs
    threaded between them do not matter. *)
Lemma graspIntersectionHelper_faces (cuboid_pose : Isometry3d) (depth width height : Q)
    (grasp_pose : Isometry3d) (grasp_data : GraspData) :
  let pa := segment_start cuboid_pose grasp_pose in
  let pb := segment_end cuboid_pose grasp_pose grasp_data in
  graspIntersectionHelper cuboid_pose depth width height grasp_pose grasp_data
  = crosses_plane (height / 2 - vz pa) (vz pb - vz pa)
                  (vx pa) (vy pa) (vx pb) (vy pb) depth width
    || crosses_plane (- height / 2 - vz pa) (vz pb - vz pa)
                     (vx pa) (vy pa) (vx pb) (vy pb) depth width
    || crosses_plane (width / 2 - vy pa) (vy pb - vy pa)
                     (vx pa) (vz pa) (vx pb) (vz pb) depth height
    || crosses_plane (- width / 2 - vy pa) (vy pb - vy pa)
                     (vx pa) (vz pa) (vx pb) (vz pb) depth height
    || crosses_plane (depth / 2 - vx pa) (vx pb - vx pa)
                     (vy pa) (vz pa) (vy pb) (vz pb) width height
    || crosses_plane (- depth / 2 - vx pa) (vx pb - vx pa)
                     (vy pa) (vz pa) (vy pb) (vz pb) width height.
Proof.
  cbv zeta. unfold graspIntersectionHelper, segment_start, segment_end. cbv zeta.
  set (pa := iso_apply (iso_inverse cuboid_pose) (translation grasp_pose)).
  set (pb := iso_apply (iso_inverse cuboid_pose) _).
  repeat match goal with
  | |- context [let '(h, uv) := intersectionAt ?n ?d ?u1 ?v1 ?u2 ?v2 ?a ?b ?uv0 in _] =>
      let H := fresh "H" in
      pose proof (intersectionAt_fst n d u1 v1 u2 v2 a b uv0) as H;
      destruct (intersectionAt n d u1 v1 u2 v2 a b uv0) as [? ?];
      cbn [fst] in H; subst;
      destruct (crosses_plane n d u1 v1 u2 v2 a b); cbn [orb]; try reflexivity
  end.
Qed.

Lemma neg_half (x : Q) : - x / 2 == - (x / 2).
Proof. unfold Qdiv. ring. Qed.

Lemma exit_face (extent a b : Q) :
  within extent a -> exit_time extent a b <= 1 ->
  (extent / 2 < b /\ exit_time extent a b = (extent / 2 - a) / (b - a))
  \/ (b < - extent / 2 /\ exit_time extent a b = (- extent / 2 - a) / (b - a)).
Proof.
  intros [Ha0 Ha1] Hle. pose proof (neg_half extent) as Hneg. unfold exit_time in *.
  destruct (Qltb (extent / 2) b) eqn:Hhi.
  - apply Qltb_iff in Hhi. left. split; [exact Hhi | reflexivity].
  - destruct (Qltb b (- extent / 2)) eqn:Hlo.
    + apply Qltb_iff in Hlo. right. split; [exact Hlo | reflexivity].
    + exfalso. lra.
Qed.

Lemma quotient_facts (n d : Q) : 0 < d -> 0 < n -> n < d ->
  0 < n / d /\ n / d < 1 /\ n / d * d == n.
Proof.
  intros Hd Hn Hlt. split; [|split].
  - apply Qlt_shift_div_l; [exact Hd | lra].
  - apply Qlt_shift_div_r; [exact Hd | lra].
  - field. intro H0. rewrite H0 in Hd. exact (Qlt_irrefl 0 Hd).
Qed.

Lemma quotient_facts_neg (n d : Q) : d < 0 -> n < 0 -> d < n ->
  0 < n / d /\ n / d < 1 /\ n / d * d == n.
Proof.
  intros Hd Hn Hlt.
  assert (He : n / d == (- n) / (- d)).
  { field. intro H0. rewrite H0 in Hd. exact (Qlt_irrefl 0 Hd). }
  destruct (quotient_facts (- n) (- d)) as (H1 & H2 & H3); try lra.
  rewrite He. split; [exact H1|]. split; [exact H2|]. lra.
Qed.

Lemma exit_time_beyond (extent a b : Q) :
  within extent a -> beyond extent b -> exit_time extent a b < 1.
Proof.
  intros [Ha0 Ha1] Hb. pose proof (neg_half extent) as Hneg. unfold exit_time.
  destruct (Qltb (extent / 2) b) eqn:Hhi.
  - apply Qltb_iff in Hhi.
    destruct (quotient_facts (extent / 2 - a) (b - a)) as (_ & H & _); lra.
  - apply Qltb_false_iff in Hhi. destruct Hb as [Hb|Hb]; [|lra].
    assert (Hlo : Qltb b (- extent / 2) = true) by (apply Qltb_iff; exact Hb).
    rewrite Hlo.
    destruct (quotient_facts_neg (- extent / 2 - a) (b - a)) as (_ & H & _); lra.
Qed.

Lemma coordinate_kept (extent a b t : Q) :
  within extent a -> 0 <= t -> t <= 1 -> t <= exit_time extent a b ->
  - extent / 2 <= a + t * (b - a) /\ a + t * (b - a) <= extent / 2.
Proof.
  intros [Ha0 Ha1] Ht0 Ht1 Hexit. pose proof (neg_half extent) as Hneg.
  unfold exit_time in Hexit.
  destruct (Qltb (extent / 2) b) eqn:Hhi.
  - apply Qltb_iff in Hhi.
    destruct (quotient_facts (extent / 2 - a) (b - a)) as (_ & _ & He); try lra.
    assert (Hm : t * (b - a) <= (extent / 2 - a) / (b - a) * (b - a))
      by (apply Qmult_le_compat_r; lra).
    assert (Hp : 0 <= t * (b - a)) by (apply Qmult_le_0_compat; lra).
    lra.
  - apply Qltb_false_iff in Hhi.
    destruct (Qltb b (- extent / 2)) eqn:Hlo.
    + apply Qltb_iff in Hlo.
      destruct (quotient_facts_neg (- extent / 2 - a) (b - a)) as (_ & _ & He); try lra.
      assert (Hm : t * (a - b) <= (- extent / 2 - a) / (b - a) * (a - b))
        by (apply Qmult_le_compat_r; lra).
      assert (Hp : 0 <= t * (a - b)) by (apply Qmult_le_0_compat; lra).
      lra.
    + apply Qltb_false_iff in Hlo.
      assert (P1 : 0 <= t * (extent / 2 - b)) by (apply Qmult_le_0_compat; lra).
      assert (P2 : 0 <= (1 - t) * (extent / 2 - a)) by (apply Qmult_le_0_compat; lra).
      assert (P3 : 0 <= t * (b + extent / 2)) by (apply Qmult_le_0_compat; lra).
      assert (P4 : 0 <= (1 - t) * (a + extent / 2)) by (apply Qmult_le_0_compat; lra).
      lra.
Qed.

Lemma crosses_plane_true (num den u1 v1 u2 v2 a b : Q) :
  ~ den == 0 ->
  0 <= num / den -> num / den <= 1 ->
  (- a / 2 <= u1 + num / den * (u2 - u1) /\ u1 + num / den * (u2 - u1) <= a / 2) ->
  (- b / 2 <= v1 + num / den * (v2 - v1) /\ v1 + num / den * (v2 - v1) <= b / 2) ->
  crosses_plane num den u1 v1 u2 v2 a b = true.
Proof.
  intros Hden H0 H1 [Hu0 Hu1] [Hv0 Hv1].
  unfold crosses_plane, intersectionAt, fdiv.
  destruct (Qeq_bool den 0) eqn:Hq; [apply Qeq_bool_iff in Hq; contradiction|].
  unfold intersectionHelper.
  apply Qleb_iff in H0, H1, Hu0, Hu1, Hv0, Hv1.
  now rewrite H0, H1, Hu0, Hu1, Hv0, Hv1.
Qed.

Lemma crosses_plane_inv (num den u1 v1 u2 v2 a b : Q) :
  crosses_plane num den u1 v1 u2 v2 a b = true ->
  ~ den == 0
  /\ (0 <= num / den /\ num / den <= 1)
  /\ (- a / 2 <= u1 + num / den * (u2 - u1) /\ u1 + num / den * (u2 - u1) <= a / 2)
  /\ (- b / 2 <= v1 + num / den * (v2 - v1) /\ v1 + num / den * (v2 - v1) <= b / 2).
Proof.
  unfold crosses_plane, intersectionAt, fdiv.
  destruct (Qeq_bool den 0) eqn:Hq; [discriminate|].
  apply Qeq_bool_neq in Hq. intros H.
  apply (proj1 (intersectionHelper_finite _ _ _ _ _ _ _ _)) in H.
  unfold interpolated in H. cbn [fst snd] in H. tauto.
Qed.

(** The test of a face gives the same answer on the reversed segment. *)
Lemma crosses_plane_reversed (c ak bk u1 v1 u2 v2 a b : Q) :
  crosses_plane (c - ak) (bk - ak) u1 v1 u2 v2 a b
  = crosses_plane (c - bk) (ak - bk) u2 v2 u1 v1 a b.
Proof.
  assert (Hdir : forall ak bk u1 v1 u2 v2,
    crosses_plane (c - ak) (bk - ak) u1 v1 u2 v2 a b = true ->
    crosses_plane (c - bk) (ak - bk) u2 v2 u1 v1 a b = true).
  { clear. intros ak bk u1 v1 u2 v2 H.
    apply crosses_plane_inv in H. destruct H as (Hden & [H0 H1] & [Hu0 Hu1] & [Hv0 Hv1]).
    assert (Hden' : ~ ak - bk == 0) by (intro Hq; apply Hden; lra).
    assert (Ht : (c - bk) / (ak - bk) == 1 - (c - ak) / (bk - ak)).
    { field. split; [exact Hden | exact Hden']. }
    apply crosses_plane_true; try exact Hden'; rewrite Ht.
    - lra.
    - lra.
    - split; [eapply Qle_trans; [exact Hu0|] | eapply Qle_trans; [|exact Hu1]];
        apply Qle_lteq; right; ring.
    - split; [eapply Qle_trans; [exact Hv0|] | eapply Qle_trans; [|exact Hv1]];
        apply Qle_lteq; right; ring. }
  destruct (crosses_plane (c - ak) (bk - ak) u1 v1 u2 v2 a b) eqn:H1;
  destruct (crosses_plane (c - bk) (ak - bk) u2 v2 u1 v1 a b) eqn:H2;
    try reflexivity.
  - apply Hdir in H1. congruence.
  - apply Hdir in H2. congruence.
Qed.

Lemma faces_crossed_reversed (depth width height : Q) (pa pb : Vector3d) :
  faces_crossed depth width height pa pb = faces_crossed depth width height pb pa.
Proof.
  unfold faces_crossed.
  now rewrite (crosses_plane_reversed (height / 2)), (crosses_plane_reversed (- height / 2)),
    (crosses_plane_reversed (width / 2)), (crosses_plane_reversed (- width / 2)),
    (crosses_plane_reversed (depth / 2)), (crosses_plane_reversed (- depth / 2)).
Qed.

Lemma graspIntersectionHelper_faces_crossed (cuboid_pose : Isometry3d)
    (depth width height : Q) (grasp_pose : Isometry3d) (grasp_data : GraspData) :
  graspIntersectionHelper cuboid_pose depth width height grasp_pose grasp_data
  = faces_crossed depth width height (segment_start cuboid_pose grasp_pose)
                  (segment_end cuboid_pose grasp_pose grasp_data).
Proof. apply graspIntersectionHelper_faces. Qed.

(** The face through which the coordinate that leaves first leaves is
    crossed inside its bounds. *)
Lemma hit_at_first_exit (extent a b eu au bu ev av bv : Q) :
  within extent a -> within eu au -> within ev av ->
  exit_time extent a b <= 1 ->
  exit_time extent a b <= exit_time eu au bu ->
  exit_time extent a b <= exit_time ev av bv ->
  crosses_plane (extent / 2 - a) (b - a) au av bu bv eu ev = true
  \/ crosses_plane (- extent / 2 - a) (b - a) au av bu bv eu ev = true.
Proof.
  intros Ha Hu Hv H1 Hleu Hlev.
  pose proof (neg_half extent) as Hneg.
  destruct (exit_face extent a b Ha H1) as [[Hb He]|[Hb He]]; [left|right];
    rewrite He in *; destruct Ha as [Ha0 Ha1].
  - destruct (quotient_facts (extent / 2 - a) (b - a)) as (P0 & P1 & _); try lra.
    apply crosses_plane_true;
      [ intro Hq; lra | lra | lra
      | apply coordinate_kept; try assumption; lra
      | apply coordinate_kept; try assumption; lra ].
  - destruct (quotient_facts_neg (- extent / 2 - a) (b - a)) as (P0 & P1 & _); try lra.
    apply crosses_plane_true;
      [ intro Hq; lra | lra | lra
      | apply coordinate_kept; try assumption; lra
      | apply coordinate_kept; try assumption; lra ].
Qed.

Lemma faces_crossed_leaving (depth width height : Q) (pa pb : Vector3d) :
  strictly_inside depth width height pa ->
  strictly_outside depth width height pb ->
  faces_crossed depth width height pa pb = true.
Proof.
  intros (Hx & Hy & Hz) Hout. unfold faces_crossed.
  fold (within depth (vx pa)) in Hx. fold (within width (vy pa)) in Hy.
  fold (within height (vz pa)) in Hz.
  set (tx := exit_time depth (vx pa) (vx pb)).
  set (ty := exit_time width (vy pa) (vy pb)).
  set (tz := exit_time height (vz pa) (vz pb)).
  assert (Hsome : tx < 1 \/ ty < 1 \/ tz < 1).
  { destruct Hout as [H|[H|H]]; [left|right; left|right; right];
      apply exit_time_beyond; assumption. }
  assert (Hfirst :
    (tz <= 1 /\ tz <= tx /\ tz <= ty) \/ (ty <= 1 /\ ty <= tx /\ ty <= tz)
    \/ (tx <= 1 /\ tx <= ty /\ tx <= tz)).
  { destruct (Qlt_le_dec tx ty), (Qlt_le_dec tx tz), (Qlt_le_dec ty tz);
      destruct Hsome as [H|[H|H]]; lra. }
  destruct Hfirst as [(H1 & Ha & Hb)|[(H1 & Ha & Hb)|(H1 & Ha & Hb)]].
  - destruct (hit_at_first_exit height (vz pa) (vz pb) depth (vx pa) (vx pb)
                width (vy pa) (vy pb) Hz Hx Hy H1 Ha Hb) as [H|H];
      rewrite H; cbn [orb]; rewrite ?orb_true_r; reflexivity.
  - destruct (hit_at_first_exit width (vy pa) (vy pb) depth (vx pa) (vx pb)
                height (vz pa) (vz pb) Hy Hx Hz H1 Ha Hb) as [H|H];
      rewrite H; cbn [orb]; rewrite ?orb_true_r; reflexivity.
  - destruct (hit_at_first_exit depth (vx pa) (vx pb) width (vy pa) (vy pb)
                height (vz pa) (vz pb) Hx Hy Hz H1 Ha Hb) as [H|H];
      rewrite H; cbn [orb]; rewrite ?orb_true_r; reflexivity.
Qed.

(** X2. A segment with one end strictly inside the cuboid and the other
    strictly outside it along some axis crosses a face, whichever end is the
    grasp point: [graspIntersectionHelper] returns true. *)
Theorem boundary_crossing_detected (cuboid_pose : Isometry3d) (depth width height : Q)
    (grasp_pose : Isometry3d) (grasp_data : GraspData) :
  (strictly_inside depth width height (segment_start cuboid_pose grasp_pose)
   /\ strictly_outside depth width height (segment_end cuboid_pose grasp_pose grasp_data))
  \/ (strictly_outside depth width height (segment_start cuboid_pose grasp_pose)
      /\ strictly_inside depth width height
                         (segment_end cuboid_pose grasp_pose grasp_data)) ->
  graspIntersectionHelper cuboid_pose depth width height grasp_pose grasp_data = true.
Proof.
  intros H. rewrite graspIntersectionHelper_faces_crossed.
  destruct H as [[Hin Hout]|[Hout Hin]].
  - now apply faces_crossed_leaving.
  - rewrite faces_crossed_reversed. now apply faces_crossed_leaving.
Qed.

Lemma X2_witness_boundary_crossing :
  (strictly_outside (1 # 10) (1 # 10) (1 # 10) (segment_start isoIdentity first_face_pose)
   /\ strictly_inside (1 # 10) (1 # 10) (1 # 10)
                      (segment_end isoIdentity first_face_pose sample_finger_data))
  /\ graspIntersectionHelper isoIdentity (1 # 10) (1 # 10) (1 # 10) first_face_pose
                             sample_finger_data = true.
Proof.
  assert (H : strictly_outside (1 # 10) (1 # 10) (1 # 10)
                (segment_start isoIdentity first_face_pose)
              /\ strictly_inside (1 # 10) (1 # 10) (1 # 10)
                   (segment_end isoIdentity first_face_pose sample_finger_data)).
  { split.
    - right. left. left. vm_compute. reflexivity.
    - repeat split; vm_compute; reflexivity. }
  split; [exact H|].
  exact (boundary_crossing_detected isoIdentity (1 # 10) (1 # 10) (1 # 10) first_face_pose
           sample_finger_data (or_intror H)).
Defined.

(** ** A gripper without depth *)

Lemma segment_difference (cuboid_pose grasp_pose : Isometry3d) (grasp_data : GraspData) :
  let dir := mvec (mtranspose (rotation cuboid_pose)) (mvec (rotation grasp_pose) UnitZ) in
  let pa := segment_start cuboid_pose grasp_pose in
  let pb := segment_end cuboid_pose grasp_pose grasp_data in
  vx pb - vx pa == grasp_max_depth_ grasp_data * vx dir
  /\ vy pb - vy pa == grasp_max_depth_ grasp_data * vy dir
  /\ vz pb - vz pa == grasp_max_depth_ grasp_data * vz dir.
Proof.
  cbv zeta. unfold segment_start, segment_end, iso_apply, iso_inverse.
  destruct cuboid_pose as [[[c00 c01 c02] [c10 c11 c12] [c20 c21 c22]] [ctx cty ctz]].
  destruct grasp_pose as [[[g00 g01 g02] [g10 g11 g12] [g20 g21 g22]] [gtx gty gtz]].
  cbv beta iota delta [vx vy vz vadd vscale vneg mvec dot mtranspose mcol vnth
                       row0 row1 row2 rotation translation UnitZ].
  repeat split; ring.
Qed.

Lemma crosses_plane_degenerate (num den u1 v1 u2 v2 a b : Q) :
  den == 0 -> crosses_plane num den u1 v1 u2 v2 a b = false.
Proof.
  intros H. unfold crosses_plane, intersectionAt, fdiv.
  apply Qeq_bool_iff in H. now rewrite H.
Qed.

Lemma flat_map_nil {A B : Type} (f : A -> list B) (l : list A) :
  (forall x, f x = []) -> flat_map f l = [].
Proof.
  intros H. induction l as [|x l IH]; cbn; [reflexivity | now rewrite H, IH].
Qed.

(** X3. With a maximum grasp depth of zero the tested segment is a single
    point: [graspIntersectionHelper] returns false for every pose, so no
    sweep adds a pose and the variable-angle stage leaves the pose vector as
    it is. *)
Theorem zero_depth_sweeps_nothing (E : Extern) (cuboid_pose : Isometry3d)
    (depth width height : Q) (grasp_data : GraspData) :
  grasp_max_depth_ grasp_data == 0 ->
  (forall grasp_pose,
     graspIntersectionHelper cuboid_pose depth width height grasp_pose grasp_data = false)
  /\ (forall step base_pose,
        sweepDirection E cuboid_pose depth width height grasp_data step base_pose = [])
  /\ (forall cfg num_corner_grasps grasp_poses,
        variableAngleGrasps E cuboid_pose depth width height grasp_data cfg
                            num_corner_grasps grasp_poses = grasp_poses).
Proof.
  intros Hzero.
  assert (Htest : forall grasp_pose,
    graspIntersectionHelper cuboid_pose depth width height grasp_pose grasp_data = false).
  { intros gp. rewrite graspIntersectionHelper_faces_crossed. unfold faces_crossed.
    destruct (segment_difference cuboid_pose gp grasp_data) as (Hx & Hy & Hz).
    cbv zeta in Hx, Hy, Hz.
    rewrite !crosses_plane_degenerate; [reflexivity | | | | | |];
      first [rewrite Hx | rewrite Hy | rewrite Hz]; rewrite Hzero; ring. }
  assert (Hsweep : forall step base_pose,
    sweepDirection E cuboid_pose depth width height grasp_data step base_pose = []).
  { intros step base. unfold sweepDirection. cbv zeta. cbn [sweep_loop].
    now rewrite Htest. }
  split; [exact Htest|]. split; [exact Hsweep|].
  intros cfg n poses. unfold variableAngleGrasps.
  destruct (enable_variable_angle_grasps_ cfg); [|reflexivity].
  rewrite flat_map_nil; [apply app_nil_r|].
  intros b. now rewrite !Hsweep.
Qed.


Lemma zero_depth_sweeps_nothing_witness :
  grasp_max_depth_ flat_finger_data == 0
  /\ sweepDirection (sample_extern (1 # 50)) isoIdentity (1 # 10) (1 # 10) (1 # 10)
                    flat_finger_data (angle_res_of flat_finger_data) first_face_pose = [].
Proof.
  assert (H : grasp_max_depth_ flat_finger_data == 0) by reflexivity.
  split; [exact H|].
  exact (proj1 (proj2 (zero_depth_sweeps_nothing (sample_extern (1 # 50)) isoIdentity
                         (1 # 10) (1 # 10) (1 # 10) flat_finger_data H))
               (angle_res_of flat_finger_data) first_face_pose).
Defined.

(** ** Spacing of the face and edge poses *)

Lemma of_nat_succ (k : nat) : of_nat (S k) == of_nat k + 1.
Proof.
  unfold of_nat. rewrite Nat2Z.inj_succ. unfold Z.succ.
  rewrite inject_Z_plus. reflexivity.
Qed.

Lemma translate_loop_nth (n k : nat) (delta : Vector3d) (p : Isometry3d) :
  (k < n)%nat ->
  exists q,
    nth_error (translate_loop n delta p) k = Some q
    /\ rotation q = rotation p
    /\ veq (translation q) (vadd (translation p) (vscale (of_nat (S k)) delta)).
Proof.
  revert k p. induction n as [|n IH]; intros k p Hk; [lia|].
  destruct k as [|k]; cbn [translate_loop nth_error].
  - eexists. split; [reflexivity|]. split; [reflexivity|].
    unfold veq, of_nat. cbn [add_translation translation vadd vscale vx vy vz].
    change (inject_Z (Z.of_nat 1)) with 1. repeat split; ring.
  - destruct (IH k (add_translation p delta) ltac:(lia)) as (q & Hq & Hr & Hx & Hy & Hz).
    exists q. split; [exact Hq|]. split; [exact Hr|].
    pose proof (of_nat_succ (S k)) as Hs.
    unfold veq. cbn [add_translation translation vadd vscale vx vy vz] in *.
    rewrite Hx, Hy, Hz, Hs. repeat split; ring.
Qed.

(** X4. The poses a face or edge helper pushes are evenly spaced: the k-th
    new pose (counting from 0) sits [k + 1] steps of [delta] from the
    translated start, and all of them have the one orientation the helper
    built. *)
Theorem helper_poses_evenly_spaced (E : Extern) (pose : Isometry3d) (ra : Q * Q * Q)
    (t delta : Vector3d) (alignment_rotation corner_rotation : Q) (num_grasps : Z)
    (grasp_poses : list Isometry3d) (k : nat) :
  (k < loop_count num_grasps)%nat ->
  (exists q,
     nth_error (addFaceGraspsHelper E pose ra t delta alignment_rotation num_grasps
                                    grasp_poses)
               (List.length grasp_poses + k) = Some q
     /\ rotation q = rotation (alignedPose E pose ra alignment_rotation)
     /\ veq (translation q)
            (vadd (vadd (translation pose) t) (vscale (of_nat (S k)) delta)))
  /\ (exists q,
        nth_error (addEdgeGraspsHelper E pose ra t delta alignment_rotation num_grasps
                                       grasp_poses corner_rotation)
                  (List.length grasp_poses + k) = Some q
        /\ rotation q
           = rotation (iso_rotate (alignedPose E pose ra alignment_rotation)
                                  (AngleAxisX E corner_rotation))
        /\ veq (translation q)
               (vadd (vadd (translation pose) t) (vscale (of_nat (S k)) delta))).
Proof.
  intros Hk. split.
  - unfold addFaceGraspsHelper.
    destruct (translate_loop_nth _ k delta
                (add_translation (alignedPose E pose ra alignment_rotation) t) Hk)
      as (q & Hq & Hr & Hv).
    exists q. rewrite nth_error_app2 by lia.
    replace (List.length grasp_poses + k - List.length grasp_poses)%nat with k by lia.
    split; [exact Hq|]. split; [exact Hr|].
    cbn [add_translation translation] in Hv. now rewrite alignedPose_translation in Hv.
  - unfold addEdgeGraspsHelper. cbv zeta.
    destruct (translate_loop_nth _ k delta
                (add_translation
                   (iso_rotate (alignedPose E pose ra alignment_rotation)
                               (AngleAxisX E corner_rotation)) t) Hk)
      as (q & Hq & Hr & Hv).
    exists q. rewrite nth_error_app2 by lia.
    replace (List.length grasp_poses + k - List.length grasp_poses)%nat with k by lia.
    split; [exact Hq|]. split; [exact Hr|].
    cbn [add_translation iso_rotate translation] in Hv.
    now rewrite alignedPose_translation in Hv.
Qed.

Lemma helper_poses_evenly_spaced_witness :
  (1 < loop_count 3)%nat
  /\ exists q,
       nth_error (addFaceGraspsHelper (sample_extern (1 # 50)) isoIdentity (0, 0, 0)
                                      (mkV 1 0 0) (mkV 0 (1 # 2) 0) 0 3 [])
                 (0 + 1) = Some q
       /\ veq (translation q)
              (vadd (vadd (translation isoIdentity) (mkV 1 0 0))
                    (vscale (of_nat 2) (mkV 0 (1 # 2) 0))).
Proof.
  assert (H : (1 < loop_count 3)%nat) by (vm_compute; lia).
  split; [exact H|].
  destruct (helper_poses_evenly_spaced (sample_extern (1 # 50)) isoIdentity (0, 0, 0)
              (mkV 1 0 0) (mkV 0 (1 # 2) 0) 0 0 3 [] 1 H) as [(q & Hq & _ & Hv) _].
  exists q. split; [exact Hq | exact Hv].
Defined.


(** ** Depth and bidirectional stages *)


Lemma flat_map_length_const {A B : Type} (f : A -> list B) (m : nat) (l : list A) :
  (forall x, List.length (f x) = m) -> List.length (flat_map f l) = (List.length l * m)%nat.
Proof.
  intros H. induction l as [|x l IH]; cbn; [reflexivity|].
  rewrite length_app, H, IH. lia.
Qed.



(** ** Counting the poses of an axis *)









(** ** What the variable-angle stage sweeps *)

Lemma sweep_loop_translation (E : Extern) (cuboid_pose : Isometry3d)
    (depth width height : Q) (grasp_data : GraspData) (step : Q)
    (runs : nat) (max_iterations iterations : Z) (p : Isometry3d) :
  Forall (fun q => translation q = translation p)
         (sweep_loop E runs cuboid_pose depth width height grasp_data step
                     max_iterations iterations p).
Proof.
  revert iterations p. induction runs as [|k IH]; intros it p; cbn; [constructor|].
  destruct (graspIntersectionHelper _ _ _ _ p _); [|constructor].
  destruct (it + 1 >? max_iterations)%Z.
  - constructor; [reflexivity | constructor].
  - constructor; [reflexivity|].
    exact (IH (it + 1)%Z (iso_rotate p (AngleAxisY E step))).
Qed.

(** X7. Every pose the variable-angle stage adds has the grasp point of one
    of the poses that follow the corner poses in the vector it is given: a
    sweep turns a pose about its own origin and never moves it, and corner
    poses are not swept. *)
Theorem sweep_keeps_grasp_point (E : Extern) (cuboid_pose : Isometry3d)
    (depth width height : Q) (grasp_data : GraspData) (cfg : GraspCandidateConfig)
    (num_corner_grasps : nat) (grasp_poses : list Isometry3d) :
  (forall step base_pose,
     Forall (fun q => translation q = translation base_pose)
            (sweepDirection E cuboid_pose depth width height grasp_data step base_pose))
  /\ exists new_poses,
       variableAngleGrasps E cuboid_pose depth width height grasp_data cfg
                           num_corner_grasps grasp_poses = grasp_poses ++ new_poses
       /\ Forall (fun q => exists base_pose,
                    In base_pose (skipn num_corner_grasps grasp_poses)
                    /\ translation q = translation base_pose)
                 new_poses.
Proof.
  assert (Hs : forall step base_pose,
     Forall (fun q => translation q = translation base_pose)
            (sweepDirection E cuboid_pose depth width height grasp_data step base_pose)).
  { intros step base. unfold sweepDirection. cbv zeta.
    exact (sweep_loop_translation E cuboid_pose depth width height grasp_data step _ _ _
             (iso_rotate base (AngleAxisY E step))). }
  split; [exact Hs|].
  unfold variableAngleGrasps. destruct (enable_variable_angle_grasps_ cfg).
  - eexists. split; [reflexivity|].
    apply Forall_flat_map. apply Forall_forall. intros b Hb.
    apply Forall_app. split;
      (eapply Forall_impl; [|apply Hs]; intros q Hq; exists b; split; assumption).
  - exists []. split; [now rewrite app_nil_r | constructor].
Qed.

(** X8. With face grasps disabled the variable-angle flag changes nothing:
    the stage runs before the edge stage and skips the corner poses, so edge
    poses are never swept. *)
Theorem edge_poses_are_not_swept (E : Extern) (cuboid_pose : Isometry3d)
    (depth width height : Q) (axis : grasp_axis_t) (grasp_data : GraspData)
    (cfg : GraspCandidateConfig) :
  enable_face_grasps_ cfg = false ->
  cuboidAxisPoses E cuboid_pose depth width height axis grasp_data cfg
  = cuboidAxisPoses E cuboid_pose depth width height axis grasp_data
                    (set_enable_variable_angle_grasps cfg false).
Proof.
  intros Hface.
  assert (Hf : forall fr c (l : list Isometry3d),
             enable_face_grasps_ c = false ->
             faceGrasps E cuboid_pose grasp_data fr c l = l).
  { intros fr c l Hc. unfold faceGrasps. cbv zeta. now rewrite Hc. }
  assert (Hc : forall fr (l : list Isometry3d),
             cornerGrasps E cuboid_pose grasp_data fr
                          (set_enable_variable_angle_grasps cfg false) l
             = cornerGrasps E cuboid_pose grasp_data fr cfg l) by reflexivity.
  assert (He : forall fr (l : list Isometry3d),
             edgeGrasps E cuboid_pose grasp_data axis fr
                        (set_enable_variable_angle_grasps cfg false) l
             = edgeGrasps E cuboid_pose grasp_data axis fr cfg l) by reflexivity.
  unfold cuboidAxisPoses. cbv zeta.
  rewrite Hc, He, !Hf by (try exact Hface; reflexivity).
  f_equal. f_equal. f_equal.
  unfold variableAngleGrasps.
  cbn [set_enable_variable_angle_grasps enable_variable_angle_grasps_].
  destruct (enable_variable_angle_grasps_ cfg); [|reflexivity].
  rewrite skipn_all. cbn [flat_map]. apply app_nil_r.
Qed.

Lemma edge_poses_are_not_swept_witness :
  enable_face_grasps_ (mkConfig true false true true true true true) = false
  /\ cuboidAxisPoses (sample_extern (1 # 50)) isoIdentity (1 # 10) (1 # 10) (1 # 10)
                     X_AXIS sample_finger_data
                     (mkConfig true false true true true true true)
     = cuboidAxisPoses (sample_extern (1 # 50)) isoIdentity (1 # 10) (1 # 10) (1 # 10)
                       X_AXIS sample_finger_data
                       (set_enable_variable_angle_grasps
                          (mkConfig true false true true true true true) false).
Proof.
  split; [reflexivity|].
  exact (edge_poses_are_not_swept (sample_extern (1 # 50)) isoIdentity
           (1 # 10) (1 # 10) (1 # 10) X_AXIS sample_finger_data
           (mkConfig true false true true true true true) eq_refl).
Defined.

(** X9. When neither the corner, the face nor the edge strategy is enabled,
    [generateCuboidAxisGrasps] generates no pose and adds no candidate, yet it
    returns true and overwrites the stored bounds with the values the min/max
    loop starts from: minima of [DBL_MAX] and maxima of [DBL_MIN]. *)
Theorem no_strategy_stores_start_bounds (E : Extern) (gen : GraspGenerator)
    (cuboid_pose : Isometry3d) (depth width height : Q) (axis : grasp_axis_t)
    (grasp_data : GraspData) (cfg : GraspCandidateConfig) (cands : list GraspCandidate) :
  enable_corner_grasps_ cfg = false ->
  enable_face_grasps_ cfg = false ->
  enable_edge_grasps_ cfg = false ->
  cuboidAxisPoses E cuboid_pose depth width height axis grasp_data cfg = []
  /\ generateCuboidAxisGrasps E gen cuboid_pose depth width height axis grasp_data cfg cands
     = (true,
        set_bounds gen DBL_MAX DBL_MIN (mkV DBL_MAX DBL_MAX DBL_MAX)
                   (mkV DBL_MIN DBL_MIN DBL_MIN),
        cands).
Proof.
  intros Hc Hf He.
  assert (Hposes : cuboidAxisPoses E cuboid_pose depth width height axis grasp_data cfg = []).
  { unfold cuboidAxisPoses, cornerGrasps, faceGrasps, edgeGrasps, variableAngleGrasps.
    cbv zeta. rewrite Hc, Hf, He.
    destruct (enable_variable_angle_grasps_ cfg); reflexivity. }
  split; [exact Hposes|].
  unfold generateCuboidAxisGrasps. cbv zeta. rewrite Hposes. reflexivity.
Qed.

Lemma no_strategy_stores_start_bounds_witness :
  enable_corner_grasps_ nothing_enabled = false
  /\ enable_face_grasps_ nothing_enabled = false
  /\ enable_edge_grasps_ nothing_enabled = false
  /\ cuboidAxisPoses (sample_extern (1 # 50)) isoIdentity (1 # 10) (1 # 10) (1 # 10)
                     X_AXIS sample_finger_data nothing_enabled = [].
Proof.
  repeat (split; [reflexivity|]).
  exact (proj1 (no_strategy_stores_start_bounds (sample_extern (1 # 50)) sample_generator
                  isoIdentity (1 # 10) (1 # 10) (1 # 10) X_AXIS sample_finger_data
                  nothing_enabled [] eq_refl eq_refl eq_refl)).
Defined.

(** ** The stored bounds *)

Lemma lower_spec (x m : Q) :
  lower x m <= x /\ lower x m <= m /\ (lower x m = x \/ lower x m = m).
Proof.
  unfold lower. destruct (Qltb x m) eqn:H.
  - apply Qltb_iff in H. repeat split; [apply Qle_refl | now apply Qlt_le_weak | now left].
  - apply Qltb_false_iff in H. repeat split; [exact H | apply Qle_refl | now right].
Qed.

Lemma raise_spec (x m : Q) :
  x <= raise x m /\ m <= raise x m /\ (raise x m = x \/ raise x m = m).
Proof.
  unfold raise. destruct (Qltb m x) eqn:H.
  - apply Qltb_iff in H. repeat split; [apply Qle_refl | now apply Qlt_le_weak | now left].
  - apply Qltb_false_iff in H. repeat split; [exact H | apply Qle_refl | now right].
Qed.

Lemma computeBounds_encloses (E : Extern) (cuboid_pose : Isometry3d)
    (poses : list Isometry3d) :
  let b := computeBounds E cuboid_pose poses in
  bounds_enclose E cuboid_pose poses (b_min_distance b) (b_max_distance b)
                 (b_min_translations b) (b_max_translations b).
Proof.
  cbv zeta. unfold computeBounds. induction poses as [|p poses IH] using rev_ind.
  - unfold bounds_enclose. cbv zeta. cbn [fold_left In].
    split; [intros p Hp; contradiction|].
    split; [now left|]. split; [now left|].
    split; intros [|[|j]]; now left.
  - rewrite fold_left_app. cbn [fold_left].
    set (b := fold_left (bounds_step E cuboid_pose) poses initial_bounds) in *.
    unfold bounds_enclose in *. cbv zeta in *.
    destruct IH as (Hall & Hdmin & Hdmax & Htmin & Htmax).
    set (dist := fun q => norm E (vsub (translation q) (translation cuboid_pose))) in *.
    cbn [bounds_step b_min_distance b_max_distance b_min_translations b_max_translations].
    fold (dist p).
    destruct (lower_spec (dist p) (b_min_distance b)) as (Ld1 & Ld2 & Ld3).
    destruct (raise_spec (dist p) (b_max_distance b)) as (Rd1 & Rd2 & Rd3).
    assert (Hl : forall j,
      vnth (mkV (lower (vx (translation p)) (vx (b_min_translations b)))
                (lower (vy (translation p)) (vy (b_min_translations b)))
                (lower (vz (translation p)) (vz (b_min_translations b)))) j
      = lower (vnth (translation p) j) (vnth (b_min_translations b) j))
      by (intros [|[|j]]; reflexivity).
    assert (Hr : forall j,
      vnth (mkV (raise (vx (translation p)) (vx (b_max_translations b)))
                (raise (vy (translation p)) (vy (b_max_translations b)))
                (raise (vz (translation p)) (vz (b_max_translations b)))) j
      = raise (vnth (translation p) j) (vnth (b_max_translations b) j))
      by (intros [|[|j]]; reflexivity).
    split; [|split; [|split; [|split]]].
    + intros q Hq. apply in_app_or in Hq. destruct Hq as [Hq|[<-|[]]].
      * destruct (Hall q Hq) as ([D1 D2] & Hj). split.
        -- split; [eapply Qle_trans; eassumption | eapply Qle_trans; eassumption].
        -- intros j. rewrite Hl, Hr. destruct (Hj j) as [J1 J2].
           destruct (lower_spec (vnth (translation p) j) (vnth (b_min_translations b) j))
             as (_ & L2 & _).
           destruct (raise_spec (vnth (translation p) j) (vnth (b_max_translations b) j))
             as (_ & R2 & _).
           split; eapply Qle_trans; eassumption.
      * split; [split; assumption|].
        intros j. rewrite Hl, Hr.
        destruct (lower_spec (vnth (translation p) j) (vnth (b_min_translations b) j))
          as (L1 & _ & _).
        destruct (raise_spec (vnth (translation p) j) (vnth (b_max_translations b) j))
          as (R1 & _ & _).
        split; assumption.
    + destruct Ld3 as [->| ->].
      * right. exists p. split; [apply in_or_app; right; now left | reflexivity].
      * destruct Hdmin as [H|(q & Hq & H)]; [now left|].
        right. exists q. split; [apply in_or_app; now left | exact H].
    + destruct Rd3 as [->| ->].
      * right. exists p. split; [apply in_or_app; right; now left | reflexivity].
      * destruct Hdmax as [H|(q & Hq & H)]; [now left|].
        right. exists q. split; [apply in_or_app; now left | exact H].
    + intros j. rewrite Hl.
      destruct (lower_spec (vnth (translation p) j) (vnth (b_min_translations b) j))
        as (_ & _ & [->| ->]).
      * right. exists p. split; [apply in_or_app; right; now left | reflexivity].
      * destruct (Htmin j) as [H|(q & Hq & H)]; [now left|].
        right. exists q. split; [apply in_or_app; now left | exact H].
    + intros j. rewrite Hr.
      destruct (raise_spec (vnth (translation p) j) (vnth (b_max_translations b) j))
        as (_ & _ & [->| ->]).
      * right. exists p. split; [apply in_or_app; right; now left | reflexivity].
      * destruct (Htmax j) as [H|(q & Hq & H)]; [now left|].
        right. exists q. split; [apply in_or_app; now left | exact H].
Qed.

(** X10. The bounds [generateCuboidAxisGrasps] stores enclose every pose it
    generated, per axis and in distance to the cuboid centre; each stored
    minimum is the value of some generated pose unless it is still [DBL_MAX],
    and each stored maximum is the value of some generated pose unless it is
    still [DBL_MIN]. *)
Theorem stored_bounds_enclose_poses (E : Extern) (gen : GraspGenerator)
    (cuboid_pose : Isometry3d) (depth width height : Q) (axis : grasp_axis_t)
    (grasp_data : GraspData) (cfg : GraspCandidateConfig) (cands : list GraspCandidate) :
  let gen' :=
    snd (fst (generateCuboidAxisGrasps E gen cuboid_pose depth width height axis
                                       grasp_data cfg cands)) in
  bounds_enclose E cuboid_pose
    (cuboidAxisPoses E cuboid_pose depth width height axis grasp_data cfg)
    (min_grasp_distance_ gen') (max_grasp_distance_ gen')
    (min_translations_ gen') (max_translations_ gen').
Proof.
  cbv zeta.
  destruct (generateCuboidAxisGrasps_stores_bounds E gen cuboid_pose depth width height
              axis grasp_data cfg cands) as (H1 & H2 & H3 & H4).
  cbv zeta in H1, H2, H3, H4. rewrite H1, H2, H3, H4.
  apply computeBounds_encloses.
Qed.

(** ** Candidates per pose *)

Lemma variants_length (E : Extern) (gen : GraspGenerator) (p : Isometry3d)
    (grasp_data : GraspData) (object_pose : Isometry3d) (min_open : Q) :
  List.length (variants_until_failure E gen p grasp_data object_pose min_open [1; 1 # 2; 0])
  = width_variants E grasp_data min_open.
Proof.
  unfold width_variants. cbn [variants_until_failure].
  destruct (setGraspWidth E grasp_data 1 min_open); [|reflexivity].
  destruct (setGraspWidth E grasp_data (1 # 2) min_open); [|reflexivity].
  destruct (setGraspWidth E grasp_data 0 min_open); reflexivity.
Qed.

Lemma variants_ids (E : Extern) (gen : GraspGenerator) (p : Isometry3d)
    (grasp_data : GraspData) (object_pose : Isometry3d) (min_open : Q) (percents : list Q) :
  Forall (fun c => candidate_id c = grasp_id gen)
         (variants_until_failure E gen p grasp_data object_pose min_open percents).
Proof.
  induction percents as [|q qs IH]; cbn; [constructor|].
  destruct (setGraspWidth E grasp_data q min_open); constructor; [reflexivity | exact IH].
Qed.

Lemma addGrasp_new_candidates (E : Extern) (gen : GraspGenerator) (p : Isometry3d)
    (grasp_data : GraspData) (cands : list GraspCandidate) (object_pose : Isometry3d)
    (object_size : Vector3d) (w : Q) :
  exists new_cands,
    snd (addGrasp E gen p grasp_data cands object_pose object_size w) = cands ++ new_cands
    /\ Forall (fun c => candidate_id c = grasp_id gen
                        /\ candidate_pose c
                           = iso_mul p (grasp_pose_to_eef_pose_ grasp_data))
              new_cands
    /\ List.length new_cands
       = match end_effector_type_ grasp_data with
         | FINGER =>
             width_variants E grasp_data (w + 2 * grasp_padding_on_approach_ grasp_data)
         | SUCTION => 1%nat
         | OTHER_TYPE => 0%nat
         end.
Proof.
  destruct (end_effector_type_ grasp_data) eqn:Ht.
  - eexists. split; [now apply addGrasp_finger_result|]. split.
    + apply Forall_forall. intros c Hc. split.
      * pose proof (variants_ids E gen p grasp_data object_pose
                      (w + 2 * grasp_padding_on_approach_ grasp_data) [1; 1 # 2; 0]) as Hi.
        rewrite Forall_forall in Hi. now apply Hi.
      * pose proof (variants_share_pose E gen p grasp_data object_pose
                      (w + 2 * grasp_padding_on_approach_ grasp_data) [1; 1 # 2; 0]) as Hp.
        rewrite Forall_forall in Hp. now apply Hp.
    + apply variants_length.
  - eexists. split; [now apply addGrasp_suction_result|]. split.
    + constructor; [split; reflexivity | constructor].
    + reflexivity.
  - exists []. split; [|split; [constructor | reflexivity]].
    unfold addGrasp. rewrite Ht. cbn. now rewrite app_nil_r.
Qed.

Lemma to_size_t_succ (z k : Z) :
  to_size_t (to_size_t (z + 1) + k) = to_size_t (z + (1 + k)).
Proof.
  unfold to_size_t. rewrite Zplus_mod_idemp_l. f_equal. lia.
Qed.

(** X11. One call of [addGrasp] names every candidate it appends with the
    same number, the value of its static counter on entry, so the width
    variants of a pose share one grasp id; the counter advances by one on
    every call, also when the call appends nothing and returns false, and the
    rest of the generator is left as it was.  Over a whole pose vector the
    counter advances by the number of poses. *)
Theorem grasp_ids_count_poses (E : Extern) (gen : GraspGenerator)
    (grasp_data : GraspData) (cands : list GraspCandidate) (object_pose : Isometry3d)
    (object_size : Vector3d) (w : Q) :
  (forall p,
     snd (fst (addGrasp E gen p grasp_data cands object_pose object_size w))
     = next_grasp_id gen
     /\ exists new_cands,
          snd (addGrasp E gen p grasp_data cands object_pose object_size w)
          = cands ++ new_cands
          /\ Forall (fun c => candidate_id c = grasp_id gen) new_cands)
  /\ (forall poses,
        same_scoring_state gen
          (fst (addGrasps E gen poses grasp_data cands object_pose object_size w))
        /\ to_size_t
             (grasp_id (fst (addGrasps E gen poses grasp_data cands object_pose
                                       object_size w)))
           = to_size_t (grasp_id gen + Z.of_nat (List.length poses))).
Proof.
  split.
  - intros p. split; [apply addGrasp_generator|].
    destruct (addGrasp_new_candidates E gen p grasp_data cands object_pose object_size w)
      as (n & Hn & Hf & _).
    exists n. split; [exact Hn|].
    eapply Forall_impl; [|exact Hf]. now intros c [Hc _].
  - intros poses. split; [apply addGrasps_scoring_state|].
    unfold addGrasps. revert gen cands.
    induction poses as [|p poses IH]; intros gen cands; cbn [fold_left fst snd List.length].
    + f_equal. lia.
    + pose proof (addGrasp_generator E gen p grasp_data cands object_pose object_size w)
        as Hg.
      destruct (addGrasp E gen p grasp_data cands object_pose object_size w)
        as [[r g'] c'].
      cbn [fst snd] in Hg. subst g'.
      rewrite IH. cbn [next_grasp_id grasp_id].
      rewrite to_size_t_succ. f_equal. lia.
Qed.

Lemma addGrasps_count (E : Extern) (poses : list Isometry3d) (gen : GraspGenerator)
    (grasp_data : GraspData) (cands : list GraspCandidate) (object_pose : Isometry3d)
    (object_size : Vector3d) (w : Q) (k : nat) :
  (forall g p c,
     exists new_cands,
       snd (addGrasp E g p grasp_data c object_pose object_size w) = c ++ new_cands
       /\ List.length new_cands = k
       /\ Forall (fun x => candidate_pose x
                           = iso_mul p (grasp_pose_to_eef_pose_ grasp_data)) new_cands) ->
  exists new_cands,
    snd (addGrasps E gen poses grasp_data cands object_pose object_size w)
    = cands ++ new_cands
    /\ map candidate_pose new_cands
       = flat_map (fun p => repeat (iso_mul p (grasp_pose_to_eef_pose_ grasp_data)) k) poses.
Proof.
  intros Hstep. unfold addGrasps. revert gen cands.
  induction poses as [|p poses IH]; intros gen cands; cbn [fold_left fst snd flat_map].
  - exists []. split; [now rewrite app_nil_r | reflexivity].
  - destruct (Hstep gen p cands) as (n1 & H1 & L1 & F1).
    destruct (addGrasp E gen p grasp_data cands object_pose object_size w) as [[r g'] c'].
    cbn [fst snd] in *. subst c'.
    destruct (IH g' (cands ++ n1)) as (n2 & H2 & M2).
    exists (n1 ++ n2). split; [now rewrite H2, app_assoc|].
    rewrite map_app, M2. f_equal.
    clear - L1 F1. subst k. induction F1 as [|x xs Hx _ IHx]; cbn; [reflexivity|].
    now rewrite Hx, IHx.
Qed.

(** X12. The candidates a generation call appends come pose by pose, in the
    order of the pose vector, each holding its pose mapped into the effector
    frame: one per pose for a suction gripper, and for a finger gripper as
    many per pose as width percentages succeed before the first failure,
    the same number for every pose, since the width computation only looks
    at the gripper and the object width; nothing for any other effector
    type. *)
Theorem candidates_follow_poses (E : Extern) (gen : GraspGenerator)
    (poses : list Isometry3d) (grasp_data : GraspData) (cands : list GraspCandidate)
    (object_pose : Isometry3d) (object_size : Vector3d) (w : Q) :
  let per_pose :=
    match end_effector_type_ grasp_data with
    | FINGER => width_variants E grasp_data (w + 2 * grasp_padding_on_approach_ grasp_data)
    | SUCTION => 1%nat
    | OTHER_TYPE => 0%nat
    end in
  exists new_cands,
    snd (addGrasps E gen poses grasp_data cands object_pose object_size w)
    = cands ++ new_cands
    /\ map candidate_pose new_cands
       = flat_map (fun p => repeat (iso_mul p (grasp_pose_to_eef_pose_ grasp_data)) per_pose)
                  poses
    /\ List.length new_cands = (List.length poses * per_pose)%nat.
Proof.
  cbv zeta.
  set (k := match end_effector_type_ grasp_data with
            | FINGER => _ | SUCTION => _ | OTHER_TYPE => _ end).
  destruct (addGrasps_count E poses gen grasp_data cands object_pose object_size w k)
    as (n & Hn & Hm).
  - intros g p c.
    destruct (addGrasp_new_candidates E g p grasp_data c object_pose object_size w)
      as (n & Hn & Hf & Hl).
    exists n. split; [exact Hn|]. split; [exact Hl|].
    eapply Forall_impl; [|exact Hf]. now intros x [_ Hx].
  - exists n. split; [exact Hn|]. split; [exact Hm|].
    rewrite <- (length_map candidate_pose), Hm.
    apply flat_map_length_const. intros. apply repeat_length.
Qed.

(** ** Sizes of the suction sweeps *)















(** ** Waypoints of the emitted candidates *)

Lemma variants_built (E : Extern) (gen : GraspGenerator) (p : Isometry3d)
    (grasp_data : GraspData) (object_pose : Isometry3d) (min_open : Q) (percents : list Q) :
  Forall (fun c =>
            grasp_data_ c = grasp_data
            /\ grasp_pose_frame_id (grasp_ c) = base_link_ grasp_data
            /\ pre_grasp_approach (grasp_ c)
               = pre_grasp_approach (new_grasp_of E gen p grasp_data)
            /\ post_grasp_retreat (grasp_ c)
               = post_grasp_retreat (new_grasp_of E gen p grasp_data))
         (variants_until_failure E gen p grasp_data object_pose min_open percents).
Proof.
  induction percents as [|q qs IH]; cbn [variants_until_failure]; [constructor|].
  destruct (setGraspWidth E grasp_data q min_open); constructor;
    [repeat split | exact IH].
Qed.

Lemma addGrasp_built (E : Extern) (gen : GraspGenerator) (p : Isometry3d)
    (grasp_data : GraspData) (cands : list GraspCandidate) (object_pose : Isometry3d)
    (object_size : Vector3d) (w : Q) :
  exists new_cands,
    snd (addGrasp E gen p grasp_data cands object_pose object_size w) = cands ++ new_cands
    /\ Forall (fun c =>
                 candidate_pose c = iso_mul p (grasp_pose_to_eef_pose_ grasp_data)
                 /\ grasp_data_ c = grasp_data
                 /\ grasp_pose_frame_id (grasp_ c) = base_link_ grasp_data
                 /\ pre_grasp_approach (grasp_ c)
                    = pre_grasp_approach (new_grasp_of E gen p grasp_data)
                 /\ post_grasp_retreat (grasp_ c)
                    = post_grasp_retreat (new_grasp_of E gen p grasp_data))
              new_cands.
Proof.
  destruct (end_effector_type_ grasp_data) eqn:Ht.
  - eexists. split; [now apply addGrasp_finger_result|].
    apply Forall_forall. intros c Hc. split.
    + pose proof (variants_share_pose E gen p grasp_data object_pose
                    (w + 2 * grasp_padding_on_approach_ grasp_data) [1; 1 # 2; 0]) as Hp.
      rewrite Forall_forall in Hp. now apply Hp.
    + pose proof (variants_built E gen p grasp_data object_pose
                    (w + 2 * grasp_padding_on_approach_ grasp_data) [1; 1 # 2; 0]) as Hb.
      rewrite Forall_forall in Hb. now apply Hb.
  - eexists. split; [now apply addGrasp_suction_result|].
    constructor; [repeat split | constructor].
  - exists []. split; [|constructor].
    unfold addGrasp. rewrite Ht. cbn. now rewrite app_nil_r.
Qed.

Lemma pregrasp_on_local_axis (q : Isometry3d) (a : Vector3d) (d : Q) :
  veq (vsub (translation q) (vscale d (mvec (rotation q) a)))
      (translation (iso_translate q (vscale (- d) a))).
Proof.
  destruct q as [[[r00 r01 r02] [r10 r11 r12] [r20 r21 r22]] [tx ty tz]].
  destruct a as [ax ay az].
  unfold veq.
  cbv beta iota delta [vx vy vz vadd vsub vscale mvec dot row0 row1 row2 rotation
                       translation iso_translate].
  repeat split; ring.
Qed.

(** X14. The waypoints of a candidate that [addGrasp] emitted for a gripper
    whose grasp-to-effector offset is not zero.  [addGrasp] files the approach
    direction under the gripper's parent link and [getGraspWaypoints] asks for
    that same link, so the direction is always taken in the frame of the
    grasp: the pre-grasp waypoint is the effector pose moved back along its
    own approach axis by [grasp_max_depth_ + approach_distance_desired_], in
    the base link's frame.  The second waypoint is the effector pose itself,
    the third is that pose raised by the lift distance along the world's Z
    axis, and all four waypoints keep the orientation of the effector pose. *)
Theorem emitted_candidate_waypoints (E : Extern) (gen : GraspGenerator) (p : Isometry3d)
    (grasp_data : GraspData) (cands : list GraspCandidate) (object_pose : Isometry3d)
    (object_size : Vector3d) (w : Q) :
  let eef_pose := iso_mul p (grasp_pose_to_eef_pose_ grasp_data) in
  let offset := vscale (-1) (translation (grasp_pose_to_eef_pose_ grasp_data)) in
  let approach := vdivs offset (norm E offset) in
  let distance := grasp_max_depth_ grasp_data + approach_distance_desired_ grasp_data in
  ~ norm E offset == 0 ->
  exists new_cands,
    snd (addGrasp E gen p grasp_data cands object_pose object_size w) = cands ++ new_cands
    /\ Forall
         (fun c =>
            exists pregrasp lifted retreat,
              getGraspWaypoints E c = [pregrasp; eef_pose; lifted; retreat]
              /\ pregrasp = pose (getPreGraspPose c (parent_link_name grasp_data))
              /\ header_frame_id (getPreGraspPose c (parent_link_name grasp_data))
                 = base_link_ grasp_data
              /\ veq (translation pregrasp)
                     (translation (iso_translate eef_pose (vscale (- distance) approach)))
              /\ translation lifted
                 = mkV (vx (translation eef_pose)) (vy (translation eef_pose))
                       (vz (translation eef_pose) + lift_distance_desired_ grasp_data)
              /\ rotation pregrasp = rotation eef_pose
              /\ rotation lifted = rotation eef_pose
              /\ rotation retreat = rotation eef_pose)
         new_cands.
Proof.
  cbv zeta. intros _.
  destruct (addGrasp_built E gen p grasp_data cands object_pose object_size w)
    as (n & Hn & Hf).
  exists n. split; [exact Hn|].
  eapply Forall_impl; [|exact Hf].
  intros c (Hp & Hd & Hfr & Ha & Hr). unfold candidate_pose in Hp.
  unfold getGraspWaypoints, getPreGraspPose, getPreGraspDirection. cbv zeta.
  rewrite Hd, Hp, Ha, Hfr.
  cbn [new_grasp_of pre_grasp_approach direction_frame_id direction_vector
       desired_distance].
  rewrite String.eqb_refl.
  do 3 eexists. split; [reflexivity|].
  cbn [pose header_frame_id set_translation add_translation rotation translation].
  split; [reflexivity|]. split; [reflexivity|].
  split; [apply pregrasp_on_local_axis|].
  repeat split; reflexivity.
Qed.

Lemma emitted_candidate_waypoints_witness :
  exists c pregrasp lifted retreat,
    snd (addGrasp (sample_extern (1 # 50)) sample_generator first_face_pose
                  sample_finger_data [] isoIdentity (mkV (1 # 10) (1 # 10) (1 # 10))
                  (1 # 20))
    = c :: tl (snd (addGrasp (sample_extern (1 # 50)) sample_generator first_face_pose
                             sample_finger_data [] isoIdentity
                             (mkV (1 # 10) (1 # 10) (1 # 10)) (1 # 20)))
    /\ getGraspWaypoints (sample_extern (1 # 50)) c
       = [pregrasp; iso_mul first_face_pose (grasp_pose_to_eef_pose_ sample_finger_data);
          lifted; retreat]
    /\ rotation pregrasp
       = rotation (iso_mul first_face_pose (grasp_pose_to_eef_pose_ sample_finger_data)).
Proof.
  destruct (emitted_candidate_waypoints (sample_extern (1 # 50)) sample_generator
              first_face_pose sample_finger_data [] isoIdentity
              (mkV (1 # 10) (1 # 10) (1 # 10)) (1 # 20))
    as (n & Hn & Hf).
  - intro H. vm_compute in H. discriminate H.
  - cbn [app] in Hn. rewrite Hn.
    destruct n as [|c n].
    + exfalso. vm_compute in Hn. discriminate Hn.
    + apply Forall_inv in Hf.
      destruct Hf as (w0 & w2 & w3 & Hw & _ & _ & _ & _ & Hr & _).
      exists c, w0, w2, w3. split; [reflexivity|]. split; [exact Hw | exact Hr].
Defined.

(** ** Results of the entry points *)

Lemma addGrasps_no_width (E : Extern) (poses : list Isometry3d) (gen : GraspGenerator)
    (grasp_data : GraspData) (cands : list GraspCandidate) (object_pose : Isometry3d)
    (object_size : Vector3d) (w : Q) :
  end_effector_type_ grasp_data = FINGER ->
  setGraspWidth E grasp_data 1 (w + 2 * grasp_padding_on_approach_ grasp_data) = None ->
  snd (addGrasps E gen poses grasp_data cands object_pose object_size w) = cands.
Proof.
  intros Hf Hw. unfold addGrasps. revert gen.
  induction poses as [|p poses IH]; intros gen; cbn [fold_left fst snd]; [reflexivity|].
  unfold addGrasp at 2. rewrite Hf. cbn [is_FINGER]. rewrite Hw. apply IH.
Qed.

Lemma generateCuboidAxisGrasps_no_width (E : Extern) (gen : GraspGenerator)
    (cuboid_pose : Isometry3d) (depth width height : Q) (axis : grasp_axis_t)
    (grasp_data : GraspData) (cfg : GraspCandidateConfig) (cands : list GraspCandidate) :
  end_effector_type_ grasp_data = FINGER ->
  (forall w, setGraspWidth E grasp_data 1 w = None) ->
  snd (generateCuboidAxisGrasps E gen cuboid_pose depth width height axis grasp_data
                                cfg cands) = cands.
Proof.
  intros Hf Hw. unfold generateCuboidAxisGrasps. cbv zeta.
  match goal with
  | |- context [addGrasps E ?g ?ps ?gd ?cs ?op ?os ?ow] =>
      pose proof (addGrasps_no_width E ps g gd cs op os ow Hf (Hw _)) as Hn;
      destruct (addGrasps E g ps gd cs op os ow) as [g' c']
  end.
  exact Hn.
Qed.

Lemma generateFingerGrasps_steps (E : Extern) (gen : GraspGenerator)
    (cuboid_pose : Isometry3d) (depth width height : Q)
    (grasp_data : GraspData) (cands : list GraspCandidate) (cfg : GraspCandidateConfig)
    (keeps : list GraspCandidate -> list GraspCandidate -> Prop) :
  (forall c, keeps c c) ->
  (forall a b c, keeps a b -> keeps b c -> keeps a c) ->
  (forall g axis c,
     keeps c (snd (generateCuboidAxisGrasps E g cuboid_pose depth width height axis
                                            grasp_data
                                            (axis_config cfg
                                               (Qltb (max_grasp_width_ grasp_data)
                                                     (match axis with
                                                      | X_AXIS => depth
                                                      | Y_AXIS => width
                                                      | Z_AXIS => height
                                                      end)))
                                            c))) ->
  exists gen',
    generateFingerGrasps E gen cuboid_pose depth width height grasp_data cands cfg
    = (true, gen', snd (generateFingerGrasps E gen cuboid_pose depth width height
                                             grasp_data cands cfg))
    /\ keeps cands (snd (generateFingerGrasps E gen cuboid_pose depth width height
                                              grasp_data cands cfg)).
Proof.
  intros Hrefl Htrans Hstep. unfold generateFingerGrasps.
  assert (Hx : exists gx cx,
    (if generate_x_axis_grasps_ cfg then
       let '(_, g, c) :=
         generateCuboidAxisGrasps E gen cuboid_pose depth width height X_AXIS grasp_data
           (axis_config cfg (Qltb (max_grasp_width_ grasp_data) depth)) cands in (g, c)
     else (gen, cands)) = (gx, cx) /\ keeps cands cx).
  { destruct (generate_x_axis_grasps_ cfg); [|now eexists _, _].
    pose proof (Hstep gen X_AXIS cands) as H.
    destruct (generateCuboidAxisGrasps _ _ _ _ _ _ X_AXIS _ _ _) as [[r g] c].
    now eexists _, _. }
  destruct Hx as (gx & cx & -> & Kx).
  assert (Hy : exists gy cy,
    (if generate_y_axis_grasps_ cfg then
       let '(_, g, c) :=
         generateCuboidAxisGrasps E gx cuboid_pose depth width height Y_AXIS grasp_data
           (axis_config cfg (Qltb (max_grasp_width_ grasp_data) width)) cx in (g, c)
     else (gx, cx)) = (gy, cy) /\ keeps cands cy).
  { destruct (generate_y_axis_grasps_ cfg); [|now eexists _, _].
    pose proof (Hstep gx Y_AXIS cx) as H.
    destruct (generateCuboidAxisGrasps _ _ _ _ _ _ Y_AXIS _ _ _) as [[r g] c].
    eexists _, _. split; [reflexivity|]. eapply Htrans; eassumption. }
  destruct Hy as (gy & cy & -> & Ky).
  assert (Hz : exists gz cz,
    (if generate_z_axis_grasps_ cfg then
       let '(_, g, c) :=
         generateCuboidAxisGrasps E gy cuboid_pose depth width height Z_AXIS grasp_data
           (axis_config cfg (Qltb (max_grasp_width_ grasp_data) height)) cy in (g, c)
     else (gy, cy)) = (gz, cz) /\ keeps cands cz).
  { destruct (generate_z_axis_grasps_ cfg); [|now eexists _, _].
    pose proof (Hstep gy Z_AXIS cy) as H.
    destruct (generateCuboidAxisGrasps _ _ _ _ _ _ Z_AXIS _ _ _) as [[r g] c].
    eexists _, _. split; [reflexivity|]. eapply Htrans; eassumption. }
  destruct Hz as (gz & cz & -> & Kz).
  exists gz. split; [reflexivity | exact Kz].
Qed.

(** X15. What [generateGrasps] reports.  It returns false only for an
    effector type that is neither FINGER nor SUCTION, and then touches neither
    the candidates nor the generator.  For a finger gripper it always returns
    true with the candidates on entry kept in front, also when the width
    computation fails for every pose, in which case nothing is added.  For a
    suction gripper every result it returns is true. *)
Theorem generateGrasps_result (E : Extern) (gen : GraspGenerator)
    (cuboid_pose : Isometry3d) (depth width height : Q) (grasp_data : GraspData)
    (cands : list GraspCandidate) (cfg : GraspCandidateConfig) :
  (end_effector_type_ grasp_data = OTHER_TYPE ->
   generateGrasps E gen cuboid_pose depth width height grasp_data cands cfg
   = Some (false, gen, cands))
  /\ (end_effector_type_ grasp_data = FINGER ->
      exists gen' new_cands,
        generateGrasps E gen cuboid_pose depth width height grasp_data cands cfg
        = Some (true, gen', cands ++ new_cands)
        /\ ((forall w, setGraspWidth E grasp_data 1 w = None) -> new_cands = []))
  /\ (end_effector_type_ grasp_data = SUCTION ->
      forall r gen' out,
        generateGrasps E gen cuboid_pose depth width height grasp_data cands cfg
        = Some (r, gen', out) ->
        r = true).
Proof.
  unfold generateGrasps. repeat split.
  - intros ->. reflexivity.
  - intros Hf. rewrite Hf. cbn [is_FINGER].
    destruct (generateFingerGrasps_steps E gen cuboid_pose depth width height grasp_data
                cands cfg (fun a b => exists n, b = a ++ n)) as (g & Hg & n & Hn).
    + intros c. exists []. now rewrite app_nil_r.
    + intros a b c (n1 & ->) (n2 & ->). exists (n1 ++ n2). now rewrite app_assoc.
    + intros g0 axis c. apply generateCuboidAxisGrasps_appends.
    + exists g, n. split; [rewrite Hg, Hn; reflexivity|].
      intros Hw.
      destruct (generateFingerGrasps_steps E gen cuboid_pose depth width height grasp_data
                  cands cfg (fun a b => b = a)) as (g1 & _ & Hsame).
      * reflexivity.
      * intros a b c -> ->. reflexivity.
      * intros g0 axis c. now apply generateCuboidAxisGrasps_no_width.
      * rewrite Hsame in Hn. apply (app_inv_head cands). now rewrite app_nil_r.
  - intros Hs. rewrite Hs. cbn [is_FINGER is_SUCTION].
    intros r g out. unfold generateSuctionGrasps.
    destruct (suctionPoses E gen cuboid_pose depth width height grasp_data); [|discriminate].
    destruct (addGrasps _ _ _ _ _ _ _ _) as [g' c'].
    intros [= <- _ _]. reflexivity.
Qed.

Lemma cuboidAxisPoses_disabled (E : Extern) (cuboid_pose : Isometry3d)
    (depth width height : Q) (axis : grasp_axis_t) (grasp_data : GraspData)
    (cfg : GraspCandidateConfig) :
  enable_corner_grasps_ cfg = false ->
  enable_face_grasps_ cfg = false ->
  enable_edge_grasps_ cfg = false ->
  cuboidAxisPoses E cuboid_pose depth width height axis grasp_data cfg = [].
Proof.
  intros Hc Hf He.
  unfold cuboidAxisPoses, cornerGrasps, faceGrasps, edgeGrasps, variableAngleGrasps.
  cbv zeta. rewrite Hc, Hf, He.
  destruct (enable_variable_angle_grasps_ cfg); reflexivity.
Qed.

(** X16. An object wider than [max_grasp_width_] along each of its three axes
    gets no face and no variable-angle grasp from [generateFingerGrasps]: on
    such an axis only the caller's corner and edge flags survive, so with both
    of them off the call returns true and leaves the candidates as they
    were. *)
Theorem oversized_object_gets_no_grasp (E : Extern) (gen : GraspGenerator)
    (cuboid_pose : Isometry3d) (depth width height : Q) (grasp_data : GraspData)
    (cands : list GraspCandidate) (cfg : GraspCandidateConfig) :
  max_grasp_width_ grasp_data < depth ->
  max_grasp_width_ grasp_data < width ->
  max_grasp_width_ grasp_data < height ->
  enable_corner_grasps_ cfg = false ->
  enable_edge_grasps_ cfg = false ->
  exists gen',
    generateFingerGrasps E gen cuboid_pose depth width height grasp_data cands cfg
    = (true, gen', cands).
Proof.
  intros Hd Hw Hh Hc He.
  destruct (generateFingerGrasps_steps E gen cuboid_pose depth width height grasp_data
              cands cfg (fun a b => b = a)) as (g & Hg & Hsame).
  - reflexivity.
  - intros a b c -> ->. reflexivity.
  - intros g0 axis c.
    assert (Hwide : Qltb (max_grasp_width_ grasp_data)
                         (match axis with
                          | X_AXIS => depth | Y_AXIS => width | Z_AXIS => height
                          end) = true)
      by (apply Qltb_iff; destruct axis; assumption).
    rewrite Hwide. unfold generateCuboidAxisGrasps. cbv zeta.
    rewrite cuboidAxisPoses_disabled; [reflexivity| | |]; cbn;
      first [reflexivity | assumption].
  - exists g. rewrite Hg, Hsame. reflexivity.
Qed.

Lemma oversized_object_gets_no_grasp_witness :
  exists gen',
    generateFingerGrasps (sample_extern (1 # 50)) sample_generator isoIdentity
                         (1 # 5) (1 # 5) (1 # 5) sample_finger_data [] faces_and_angles
    = (true, gen', []).
Proof.
  apply (oversized_object_gets_no_grasp (sample_extern (1 # 50)) sample_generator
           isoIdentity (1 # 5) (1 # 5) (1 # 5) sample_finger_data [] faces_and_angles);
    reflexivity.
Defined.

Example jammed_gripper_sets_no_width (r w : Q) :
  setGraspWidth (sample_extern r) jammed_finger_data 1 w = None.
Proof.
  cbn [setGraspWidth sample_extern]. unfold sample_setGraspWidth.
  cbn [min_finger_width_ max_finger_width_ jammed_finger_data].
  set (m := if Qltb w (1 # 50) then 1 # 50 else w).
  assert (H : Qltb (m + ((1 # 100) - m) * 1) (1 # 50) = true).
  { apply Qltb_iff. ring_simplify. reflexivity. }
  rewrite H, orb_true_r. reflexivity.
Qed.

(** ** Score weights *)

Lemma weighted_score_scaled (k : Q) (w1 w2 w3 w4 w5 w6 w7 w8 s1 s2 s3 s4 s5 s6 s7 s8 : Q) :
  ~ k == 0 ->
  ~ total_weight [w1; w2; w3; w4; w5; w6; w7; w8] == 0 ->
  weighted_score [k * w1; k * w2; k * w3; k * w4; k * w5; k * w6; k * w7; k * w8]
                 [s1; s2; s3; s4; s5; s6; s7; s8]
  == weighted_score [w1; w2; w3; w4; w5; w6; w7; w8] [s1; s2; s3; s4; s5; s6; s7; s8].
Proof.
  intros Hk Hw. unfold total_weight in Hw. cbn [fold_right] in Hw.
  unfold weighted_score, accumulate_scores. cbn [combine fold_left fst snd].
  assert (Hsum : ~ 0 + w1 + w2 + w3 + w4 + w5 + w6 + w7 + w8 == 0).
  { intro H. apply Hw. lra. }
  assert (Hsumk : ~ 0 + k * w1 + k * w2 + k * w3 + k * w4 + k * w5 + k * w6 + k * w7
                    + k * w8 == 0).
  { intro H. apply Hsum.
    assert (He : 0 + k * w1 + k * w2 + k * w3 + k * w4 + k * w5 + k * w6 + k * w7 + k * w8
                 == k * (0 + w1 + w2 + w3 + w4 + w5 + w6 + w7 + w8)) by ring.
    rewrite He in H. apply Qmult_integral in H. destruct H as [H|H]; [contradiction|exact H]. }
  set (d := 0 + w1 + w2 + w3 + w4 + w5 + w6 + w7 + w8) in *.
  set (dk := 0 + k * w1 + k * w2 + k * w3 + k * w4 + k * w5 + k * w6 + k * w7 + k * w8) in *.
  assert (Hd : dk == k * d) by (unfold dk, d; ring).
  assert (Hn : 0 + k * w1 * s1 + k * w2 * s2 + k * w3 * s3 + k * w4 * s4 + k * w5 * s5
               + k * w6 * s6 + k * w7 * s7 + k * w8 * s8
               == k * (0 + w1 * s1 + w2 * s2 + w3 * s3 + w4 * s4 + w5 * s5 + w6 * s6
                       + w7 * s7 + w8 * s8)) by ring.
  rewrite Hn, Hd. field. split; assumption.
Qed.

(** X17. The score weights are relative: multiplying all of them by one
    non-zero factor changes neither the quality [scoreFingerGrasp] nor the
    quality [scoreSuctionGrasp] computes, as long as the weights the function
    sums do not add up to zero. *)
Theorem score_weights_are_relative (E : Extern) (gen : GraspGenerator) (k : Q) :
  ~ k == 0 ->
  let scaled := with_weights gen (scale_weights k (grasp_score_weights_ gen)) in
  (~ total_weight (fingerWeights gen) == 0 ->
   forall grasp_pose grasp_data object_pose percent_open,
     scoreFingerGrasp E scaled grasp_pose grasp_data object_pose percent_open
     == scoreFingerGrasp E gen grasp_pose grasp_data object_pose percent_open)
  /\ (~ total_weight (suctionWeights gen) == 0 ->
      forall grasp_pose grasp_data cuboid_pose object_size,
        scoreSuctionGrasp E scaled grasp_pose grasp_data cuboid_pose object_size
        == scoreSuctionGrasp E gen grasp_pose grasp_data cuboid_pose object_size).
Proof.
  intros Hk. cbv zeta. split; intros Hw.
  - intros p gd op pct. unfold scoreFingerGrasp, fingerScores, fingerWeights in *.
    cbv zeta in *.
    cbn [with_weights scale_weights grasp_score_weights_ ideal_grasp_pose_
         min_grasp_distance_ max_grasp_distance_ min_translations_ max_translations_
         width_score_weight_ orientation_x_score_weight_ orientation_y_score_weight_
         orientation_z_score_weight_ depth_score_weight_ translation_x_score_weight_
         translation_y_score_weight_ translation_z_score_weight_].
    now apply weighted_score_scaled.
  - intros p gd cp os. unfold scoreSuctionGrasp, suctionScores, suctionWeights in *.
    cbv zeta in *. unfold getIdealGraspPose.
    cbn [with_weights scale_weights grasp_score_weights_ ideal_grasp_pose_
         orientation_x_score_weight_ orientation_y_score_weight_
         orientation_z_score_weight_ translation_x_score_weight_
         translation_y_score_weight_ translation_z_score_weight_
         overhang_score_weight_].
    now apply weighted_score_scaled.
Qed.

Lemma score_weights_are_relative_witness :
  scoreFingerGrasp (sample_extern (1 # 50))
                   (with_weights sample_generator
                      (scale_weights 2 (grasp_score_weights_ sample_generator)))
                   first_face_pose sample_finger_data isoIdentity (1 # 2)
  == scoreFingerGrasp (sample_extern (1 # 50)) sample_generator first_face_pose
                      sample_finger_data isoIdentity (1 # 2).
Proof.
  assert (Hk : ~ 2 == 0) by (intro H; discriminate H).
  assert (Hw : ~ total_weight (fingerWeights sample_generator) == 0)
    by (intro H; discriminate H).
  exact (proj1 (score_weights_are_relative (sample_extern (1 # 50)) sample_generator 2 Hk)
               Hw first_face_pose sample_finger_data isoIdentity (1 # 2)).
Defined.

(** ** Sweeps that do not end *)

Lemma yaw_values_diverge (grasp_data : GraspData) :
  (angle_resolution_ grasp_data <= 0)%Z -> yaw_values grasp_data = None.
Proof.
  intros Har. unfold yaw_values, range_lt.
  assert (Hinc : yaw_increment_of grasp_data <= 0).
  { unfold yaw_increment_of. pose proof M_PI_pos as Hpi.
    set (pi := M_PI) in *. clearbody pi.
    assert (Hq : inject_Z (angle_resolution_ grasp_data) <= 0)
      by (change 0 with (inject_Z 0); rewrite <- Zle_Qle; exact Har).
    assert (Hd : inject_Z (angle_resolution_ grasp_data) / 180 <= 0)
      by (apply Qle_shift_div_r; [reflexivity | lra]).
    nra. }
  apply (double_range_diverges _ _ _ _ 0 Hinc); [|exact Hinc].
  intros y Hy. apply Qltb_iff. unfold yaw_max. pose proof M_PI_pos. lra.
Qed.

(** X18. [generateSuctionGrasps] does not return when a sweep cannot advance:
    with an angle resolution that is not positive the yaw loop never reaches
    its bound, and so it is for a depth resolution that is not positive once
    the depth loop is entered, and for a lateral increment that is not
    positive once the lateral loop is entered. *)
Theorem suction_sweep_never_ends (E : Extern) (gen : GraspGenerator)
    (cuboid_top_pose : Isometry3d) (depth width height : Q) (grasp_data : GraspData)
    (cands : list GraspCandidate) (cfg : GraspCandidateConfig) :
  (angle_resolution_ grasp_data <= 0)%Z
  \/ (grasp_depth_resolution_ grasp_data <= 0
      /\ grasp_depth_resolution_ grasp_data <= z_max_of grasp_data)
  \/ (xy_increment E <= 0 /\ xy_min E <= xy_max_of depth width grasp_data) ->
  generateSuctionGrasps E gen cuboid_top_pose depth width height grasp_data cands cfg
  = None.
Proof.
  intros H. unfold generateSuctionGrasps.
  assert (Hp : suctionPoses E gen cuboid_top_pose depth width height grasp_data = None);
    [|now rewrite Hp].
  unfold suctionPoses. cbv zeta.
  destruct H as [Har | [[Hz Hin] | [Hxy Hin]]].
  - rewrite (yaw_values_diverge grasp_data Har). reflexivity.
  - destruct (expand (yaw_values grasp_data) _ _) as [l1|]; [|reflexivity].
    unfold z_values. rewrite (range_le_diverges _ _ _ Hz Hin). reflexivity.
  - destruct (expand (yaw_values grasp_data) _ _) as [l1|]; [|reflexivity].
    destruct (expand (z_values grasp_data) _ _) as [l2|]; [|reflexivity].
    unfold xy_values. rewrite (range_le_diverges _ _ _ Hxy Hin). reflexivity.
Qed.

Lemma suction_sweep_never_ends_witness :
  generateSuctionGrasps (sample_extern (1 # 50)) sample_generator isoIdentity
                        (3 # 50) (3 # 50) (1 # 10) zero_resolution_suction_data []
                        all_enabled
  = None.
Proof.
  apply (suction_sweep_never_ends (sample_extern (1 # 50)) sample_generator isoIdentity
           (3 # 50) (3 # 50) (1 # 10) zero_resolution_suction_data [] all_enabled).
  left. cbn. lia.
Defined.
